(** * Overlay SFT tool: command generation, trajectory recording, viewport

    A shallow embedding of the interactive recording core of the overlay
    tool (the modules [vm_interface], [trajectory_manager] and
    [viewport_window] of [sft_utils/overlay_tool]) together with the
    properties of it that the specification states.

    Conventions.  Python [int] is [Z].  Python [str] is [string]; a
    character is one [ascii] value, read as the code point of that number.
    A Python [float] is carried by the text [str()] prints for it, since the
    program only ever formats, stores and compares the few float literals it
    contains.  A [dict] whose order matters is an association list.  Objects
    mutated through [self] are records threaded explicitly through the
    functions that update them. *)

From Stdlib Require Import ZArith List String Ascii Bool Lia DecimalString.
From Stdlib Require DecimalPos DecimalZ.
Import ListNotations.

Local Open Scope string_scope.
Local Open Scope Z_scope.

(** ** Python built-ins used by the tool *)

Module Py.

(** Characters that cannot be written inside a plain literal here. *)
Definition backslash : ascii := "092"%char.
Definition squote : ascii := "039"%char.
Definition dquote : ascii := "034"%char.
Definition LF : ascii := "010"%char.
Definition CR : ascii := "013"%char.
Definition NUL : ascii := "000"%char.

Definition chr (c : ascii) : string := String c EmptyString.

(** [str(n)] and [f"{n}"] for an [int]. *)
Definition str_int (n : Z) : string := NilZero.string_of_int (Z.to_int n).

(** A number as the overlay handles it: an [int], or a [float] carried by
    its printed form. *)
Inductive num : Type :=
| Int (n : Z)
| Float (repr : string).

Definition str_num (x : num) : string :=
  match x with
  | Int n => str_int n
  | Float r => r
  end.

(** The float literal [0.5]. *)
Definition half : num := Float "0.5".

(** [sep.join(parts)]. *)
Fixpoint join (sep : string) (parts : list string) : string :=
  match parts with
  | [] => EmptyString
  | [p] => p
  | p :: rest => p ++ sep ++ join sep rest
  end.

(** [s.replace(old, new)]: occurrences of [old] are found left to right
    and do not overlap.  [skip] counts the characters of a match that are
    still to be dropped. *)
Fixpoint replace_from (old new : string) (skip : nat) (s : string) : string :=
  match s with
  | EmptyString => EmptyString
  | String c rest =>
      match skip with
      | S k => replace_from old new k rest
      | O =>
          if String.prefix old s
          then new ++ replace_from old new (Nat.pred (String.length old)) rest
          else String c (replace_from old new O rest)
      end
  end.

(** With an empty [old], Python puts [new] before every character and at
    the end. *)
Fixpoint intersperse (new : string) (s : string) : string :=
  match s with
  | EmptyString => new
  | String c rest => new ++ String c (intersperse new rest)
  end.

Definition replace (old new : string) (s : string) : string :=
  match old with
  | EmptyString => intersperse new s
  | String _ _ => replace_from old new O s
  end.

(** [s.split("\n")]: the pieces between line feeds; never empty. *)
Fixpoint split_lines (s : string) : list string :=
  match s with
  | EmptyString => [EmptyString]
  | String c rest =>
      if Ascii.eqb c LF then EmptyString :: split_lines rest
      else match split_lines rest with
           | [] => [chr c]
           | piece :: pieces => String c piece :: pieces
           end
  end.

(** [c.isprintable()] for a code point below 256: the ASCII range from
    space to tilde, and Latin-1 from U+00A1 on except the soft hyphen. *)
Definition isprintable_char (c : ascii) : bool :=
  let n := nat_of_ascii c in
  ((32 <=? n)%nat && (n <=? 126)%nat)
  || ((161 <=? n)%nat && (n <=? 255)%nat && negb (n =? 173)%nat).

Fixpoint isprintable (s : string) : bool :=
  match s with
  | EmptyString => true
  | String c rest => isprintable_char c && isprintable rest
  end.

(** Truth value of a [str]. *)
Definition truthy (s : string) : bool :=
  match s with
  | EmptyString => false
  | String _ _ => true
  end.

(** [s[:-1]]. *)
Fixpoint drop_last (s : string) : string :=
  match s with
  | EmptyString => EmptyString
  | String c EmptyString => EmptyString
  | String c rest => String c (drop_last rest)
  end.

(** [s.endswith(c)] for a single character [c]. *)
Fixpoint endswith (c : ascii) (s : string) : bool :=
  match s with
  | EmptyString => false
  | String x EmptyString => Ascii.eqb x c
  | String _ rest => endswith c rest
  end.

(** [s.startswith(c)] for a single character [c]. *)
Definition startswith (c : ascii) (s : string) : bool :=
  match s with
  | EmptyString => false
  | String x _ => Ascii.eqb x c
  end.

End Py.

(** ** The [json] module: values and [json.dumps(..., indent=2)] *)

Module Json.

#[warnings="-register-all"]
Inductive value : Type :=
| Null
| Bool (b : bool)
| Int (n : Z)
| Float (repr : string)
| Str (s : string)
| Arr (items : list value)
| Obj (members : list (string * value)).

Definition hex_digit (n : nat) : ascii :=
  match n with
  | 0%nat => "0" | 1%nat => "1" | 2%nat => "2" | 3%nat => "3"
  | 4%nat => "4" | 5%nat => "5" | 6%nat => "6" | 7%nat => "7"
  | 8%nat => "8" | 9%nat => "9" | 10%nat => "a" | 11%nat => "b"
  | 12%nat => "c" | 13%nat => "d" | 14%nat => "e" | _ => "f"
  end%char.

(** One character of a string under [ensure_ascii]: the short escapes,
    the printable ASCII range as it is, anything else as a [u] escape of
    four hexadecimal digits. *)
Definition escape_char (c : ascii) : string :=
  let n := nat_of_ascii c in
  if Ascii.eqb c Py.backslash then String Py.backslash (Py.chr Py.backslash)
  else if Ascii.eqb c Py.dquote then String Py.backslash (Py.chr Py.dquote)
  else if (n =? 8)%nat then String Py.backslash "b"
  else if (n =? 12)%nat then String Py.backslash "f"
  else if (n =? 10)%nat then String Py.backslash "n"
  else if (n =? 13)%nat then String Py.backslash "r"
  else if (n =? 9)%nat then String Py.backslash "t"
  else if ((32 <=? n)%nat && (n <=? 126)%nat) then Py.chr c
  else String Py.backslash
         ("u00" ++ String (hex_digit (n / 16)) (Py.chr (hex_digit (n mod 16)))).

Fixpoint escape (s : string) : string :=
  match s with
  | EmptyString => EmptyString
  | String c rest => escape_char c ++ escape rest
  end.

Definition encode_str (s : string) : string :=
  String Py.dquote (escape s ++ Py.chr Py.dquote).

Fixpoint spaces (n : nat) : string :=
  match n with
  | O => EmptyString
  | S k => String " " (spaces k)
  end.

(** The line break and indentation that opens nesting depth [level]. *)
Definition newline_indent (level : nat) : string :=
  String Py.LF (spaces (2 * level)).

(** [json.dumps(v, indent=2)], for a value that sits at depth [level]. *)
Fixpoint dumps_at (level : nat) (v : value) : string :=
  match v with
  | Null => "null"
  | Bool true => "true"
  | Bool false => "false"
  | Int n => Py.str_int n
  | Float r => r
  | Str s => encode_str s
  | Arr [] => "[]"
  | Arr items =>
      "[" ++ newline_indent (S level)
      ++ Py.join ("," ++ newline_indent (S level))
                 (map (dumps_at (S level)) items)
      ++ newline_indent level ++ "]"
  | Obj [] => "{}"
  | Obj members =>
      "{" ++ newline_indent (S level)
      ++ Py.join ("," ++ newline_indent (S level))
                 (map (fun kv => encode_str (fst kv) ++ ": "
                                 ++ dumps_at (S level) (snd kv)) members)
      ++ newline_indent level ++ "}"
  end.

Definition dumps (v : value) : string := dumps_at O v.

(** [d.get(key)] on a [dict]. *)
Fixpoint get (key : string) (members : list (string * value)) : option value :=
  match members with
  | [] => None
  | (k, v) :: rest => if String.eqb k key then Some v else get key rest
  end.

(** Truth value of a Python object that came from JSON. *)
Definition truthy (v : value) : bool :=
  match v with
  | Null => false
  | Bool b => b
  | Int n => negb (n =? 0)
  | Float r => negb (String.eqb r "0.0" || String.eqb r "-0.0")
  | Str s => Py.truthy s
  | Arr items => match items with [] => false | _ => true end
  | Obj members => match members with [] => false | _ => true end
  end.

(** [v[0]]: the first item of a list, the first character of a string;
    a lookup of the integer key in a [dict] whose keys are strings and an
    index into a number or a boolean both raise. *)
Definition first (v : value) : option value :=
  match v with
  | Arr (x :: _) => Some x
  | Str (String c _) => Some (Str (Py.chr c))
  | _ => None
  end.

(** [json.dumps(v)] with the default separators: a comma and a space
    between items, a colon and a space after a key, no line breaks. *)
Fixpoint dumps_compact (v : value) : string :=
  match v with
  | Null => "null"
  | Bool true => "true"
  | Bool false => "false"
  | Int n => Py.str_int n
  | Float r => r
  | Str s => encode_str s
  | Arr items => "[" ++ Py.join ", " (map dumps_compact items) ++ "]"
  | Obj members =>
      "{" ++ Py.join ", "
               (map (fun kv => encode_str (fst kv) ++ ": " ++ dumps_compact (snd kv))
                    members)
      ++ "}"
  end.

End Json.

(** ** [vm_interface.VMInterface] *)

Module VMInterface.

(** A decoded frame ([PIL.Image]), carried by its content. *)
Definition image : Type := string.

(** The fields of the adapter that its methods write. *)
Record state : Type := {
  _is_recording : bool;
  _last_screenshot : option image
}.

(** [__init__]. *)
Definition __init__ : state :=
  {| _is_recording := false; _last_screenshot := None |}.

(** What one call of [env._get_obs()] can give [get_screenshot]. *)
Inductive observation : Type :=
| ObsRaises                       (* the call raises *)
| ObsAbsent                       (* falsy, no screenshot key, or a falsy entry *)
| ObsNotBytes                     (* a truthy entry that is not [bytes] *)
| ObsUndecodable                  (* bytes that [Image.open] or [copy] rejects *)
| ObsFrame (img : image).         (* bytes that decode to [img] *)

(** [get_screenshot]: the fresh frame, which is also cached, or else the
    cached one. *)
Definition get_screenshot (o : observation) (st : state)
  : option image * state :=
  match o with
  | ObsFrame img =>
      (Some img, {| _is_recording := _is_recording st;
                    _last_screenshot := Some img |})
  | ObsAbsent | ObsNotBytes => (_last_screenshot st, st)
  | ObsRaises | ObsUndecodable => (_last_screenshot st, st)
  end.

(** What [get_screenshot_with_retry] did: the frame it returns, how many
    times it called [get_screenshot] and how many times it slept. *)
Record fetched : Type := {
  frame : option image;
  attempts : nat;
  sleeps : nat
}.

(** The [for attempt in range(max_retries)] loop, entered at iteration
    [attempt] with [remaining] iterations left; [obs k] is what the
    environment answers to the [k]-th call. *)
Fixpoint retry_loop (obs : nat -> observation) (max_retries : Z)
         (remaining : nat) (attempt : nat) (st : state) : fetched * state :=
  match remaining with
  | O => ({| frame := None; attempts := O; sleeps := O |}, st)
  | S k =>
      let '(img, st1) := get_screenshot (obs attempt) st in
      match img with
      | Some i => ({| frame := Some i; attempts := 1; sleeps := 0 |}, st1)
      | None =>
          let slept := if Z.of_nat attempt <? max_retries - 1 then 1%nat else 0%nat in
          let '(r, st2) := retry_loop obs max_retries k (S attempt) st1 in
          ({| frame := frame r;
              attempts := S (attempts r);
              sleeps := (slept + sleeps r)%nat |}, st2)
      end
  end.

(** [get_screenshot_with_retry(max_retries)]; [range] of a number that is
    not positive is empty. *)
Definition get_screenshot_with_retry (obs : nat -> observation)
           (max_retries : Z) (st : state) : fetched * state :=
  retry_loop obs max_retries (Z.to_nat max_retries) O st.

(** The default [max_retries=3]. *)
Definition default_retries : Z := 3.

(** What [env.controller.execute_python_command] can do with a command:
    raise, return nothing, or return a response whose error entry is
    absent or present. *)
Inductive reply : Type :=
| Raises (message : string)
| NoResponse
| Response (error : option string).

(** The [result] dictionary of [_execute_command]. *)
Record result : Type := {
  success : bool;
  error : option string;
  command : string
}.

(** [_execute_command]: an error entry counts when it is truthy. *)
Definition _execute_command (cmd : string) (r : reply) : result :=
  match r with
  | Raises message => {| success := false; error := Some message; command := cmd |}
  | NoResponse => {| success := true; error := None; command := cmd |}
  | Response None => {| success := true; error := None; command := cmd |}
  | Response (Some e) =>
      if Py.truthy e
      then {| success := false; error := Some e; command := cmd |}
      else {| success := true; error := None; command := cmd |}
  end.

(** [execute_click]. *)
Definition execute_click (x y : Z) (r : reply) : result :=
  let command := "pyautogui.click(" ++ Py.str_int x ++ ", " ++ Py.str_int y ++ ")" in
  _execute_command command r.

(** [execute_double_click]. *)
Definition execute_double_click (x y : Z) (r : reply) : result :=
  let command :=
    "pyautogui.doubleClick(" ++ Py.str_int x ++ ", " ++ Py.str_int y ++ ")" in
  _execute_command command r.

(** [execute_right_click]. *)
Definition execute_right_click (x y : Z) (r : reply) : result :=
  let command :=
    "pyautogui.rightClick(" ++ Py.str_int x ++ ", " ++ Py.str_int y ++ ")" in
  _execute_command command r.

(** [execute_typewrite]. *)
Definition execute_typewrite (text : string) (r : reply) : result :=
  let escaped_text :=
    Py.replace (Py.chr Py.dquote) (String Py.backslash (Py.chr Py.dquote))
      (Py.replace "'" (String Py.backslash "'")
         (Py.replace (Py.chr Py.backslash)
                     (String Py.backslash (Py.chr Py.backslash)) text)) in
  let command := "pyautogui.typewrite('" ++ escaped_text ++ "', interval=0.05)" in
  _execute_command command r.

(** [f"'{k}'"]. *)
Definition quoted (k : string) : string := "'" ++ k ++ "'".

(** [execute_hotkey]. *)
Definition execute_hotkey (keys : list string) (r : reply) : result :=
  let keys_str := Py.join ", " (map quoted keys) in
  let command := "pyautogui.hotkey(" ++ keys_str ++ ")" in
  _execute_command command r.

(** [execute_press]. *)
Definition execute_press (key : string) (r : reply) : result :=
  let command := "pyautogui.press('" ++ key ++ "')" in
  _execute_command command r.

(** [execute_scroll]. *)
Definition execute_scroll (clicks : Z) (x y : option Z) (r : reply) : result :=
  let command :=
    match x, y with
    | Some x, Some y =>
        "pyautogui.scroll(" ++ Py.str_int clicks ++ ", x=" ++ Py.str_int x
        ++ ", y=" ++ Py.str_int y ++ ")"
    | _, _ => "pyautogui.scroll(" ++ Py.str_int clicks ++ ")"
    end in
  _execute_command command r.

(** [execute_drag]. *)
Definition execute_drag (start_x start_y end_x end_y : Z) (duration : Py.num)
           (r : reply) : result :=
  let command :=
    "pyautogui.moveTo(" ++ Py.str_int start_x ++ ", " ++ Py.str_int start_y
    ++ "); pyautogui.drag(" ++ Py.str_int (end_x - start_x) ++ ", "
    ++ Py.str_int (end_y - start_y) ++ ", duration=" ++ Py.str_num duration ++ ")" in
  _execute_command command r.

(** [start_recording]; [started] tells whether the call to the controller
    returned. *)
Definition start_recording (started : bool) (st : state) : bool * state :=
  if started
  then (true, {| _is_recording := true; _last_screenshot := _last_screenshot st |})
  else (false, st).

(** What [env.controller.end_recording] can do: raise, or return the path
    of the video, which may be [None]. *)
Inductive ending : Type :=
| EndRaises
| EndReturns (video_path : option string).

(** [stop_recording]: the controller is asked only while a recording is
    on. *)
Definition stop_recording (e : ending) (st : state) : option string * state :=
  if negb (_is_recording st) then (None, st)
  else
    let stopped := {| _is_recording := false;
                      _last_screenshot := _last_screenshot st |} in
    match e with
    | EndReturns video_path => (video_path, stopped)
    | EndRaises => (None, stopped)
    end.

End VMInterface.

(** ** [trajectory_manager.TrajectoryManager] *)

Module TrajectoryManager.

(** The [action_details] dictionaries the window passes to
    [record_action], one shape per kind of action. *)
Inductive details : Type :=
| AtPoint (x y : Z)
| Text (text : string)
| Keys (keys : list string)
| Key (key : string)
| Clicks (clicks : Z)
| DragPoints (start_x start_y end_x end_y : Z)
| Seconds (seconds : Py.num).

(** The entries of such a dictionary, in insertion order. *)
Definition members (d : details) : list (string * Json.value) :=
  let num (x : Py.num) :=
    match x with
    | Py.Int n => Json.Int n
    | Py.Float r => Json.Float r
    end in
  match d with
  | AtPoint x y => [("x", Json.Int x); ("y", Json.Int y)]
  | Text text => [("text", Json.Str text)]
  | Keys keys => [("keys", Json.Arr (map Json.Str keys))]
  | Key key => [("key", Json.Str key)]
  | Clicks clicks => [("clicks", Json.Int clicks)]
  | DragPoints start_x start_y end_x end_y =>
      [("start_x", Json.Int start_x); ("start_y", Json.Int start_y);
       ("end_x", Json.Int end_x); ("end_y", Json.Int end_y)]
  | Seconds seconds => [("seconds", num seconds)]
  end.

(** One entry of the trajectory ([step_log]). *)
Record step : Type := {
  step_index : Z;
  screenshot : string;
  step_instruction : string;
  action : string;
  action_type : string;
  timestamp : string;
  action_details : option details
}.

Record state : Type := {
  result_dir : string;
  task_config : list (string * Json.value);
  instruction : string;
  trajectory_dir : string;
  colab_dir : string;
  trajectory : list step;
  step_count : Z
}.

(** [os.path.join(dir, name)] as [posixpath] defines it: a name that
    starts with the separator replaces the directory, an empty directory
    or one that ends in the separator takes the name as it is, and any
    other directory takes the separator and the name. *)
Definition path_join (dir name : string) : string :=
  if Py.startswith "/" name then name
  else if negb (Py.truthy dir) || Py.endswith "/" dir then dir ++ name
  else dir ++ "/" ++ name.

(** [__init__]. *)
Definition __init__ (result_dir : string) (task_config : list (string * Json.value))
           (instruction : string) : state :=
  {| result_dir := result_dir;
     task_config := task_config;
     instruction := instruction;
     trajectory_dir := path_join result_dir "Trajectory and Screenshot";
     colab_dir := path_join result_dir "Colab";
     trajectory := [];
     step_count := 0 |}.

(** [save_before_screenshot]: the path of the file written, or the empty
    string when [image.save] raises ([saved = false]). *)
Definition save_before_screenshot (saved : bool) (tm : state) : string :=
  let filename := "step_" ++ Py.str_int (step_count tm) ++ "_before.png" in
  let filepath := path_join (trajectory_dir tm) filename in
  if saved then filepath else EmptyString.

(** [record_action]; [now] is what [time.time()] returns.  Every shape of
    [details] is a dictionary with an entry, hence truthy. *)
Definition record_action (action_command screenshot_path action_type : string)
           (action_details : option details) (now : string) (tm : state) : state :=
  let step_log :=
    {| step_index := step_count tm;
       screenshot := screenshot_path;
       step_instruction := instruction tm;
       action := action_command;
       action_type := action_type;
       timestamp := now;
       action_details := action_details |} in
  {| result_dir := result_dir tm;
     task_config := task_config tm;
     instruction := instruction tm;
     trajectory_dir := trajectory_dir tm;
     colab_dir := colab_dir tm;
     trajectory := trajectory tm ++ [step_log];
     step_count := step_count tm + 1 |}.

(** [details.get(key, default)] as [_generate_reasoning] formats it. *)
Definition get_text (key default : string) (d : option details) : string :=
  match d with
  | None => default
  | Some d =>
      match Json.get key (members d) with
      | Some (Json.Int n) => Py.str_int n
      | Some (Json.Float r) => r
      | Some (Json.Str s) => s
      | _ => default
      end
  end.

Definition get_keys (d : option details) : list string :=
  match d with
  | Some (Keys keys) => keys
  | _ => []
  end.

Definition get_clicks (d : option details) : Z :=
  match d with
  | Some (Clicks clicks) => clicks
  | _ => 0
  end.

(** [_generate_reasoning]. *)
Definition _generate_reasoning (s : step) : string :=
  let d := action_details s in
  let ty := action_type s in
  if String.eqb ty "click" then
    "I'll click at position (" ++ get_text "x" "?" d ++ ", "
    ++ get_text "y" "?" d ++ ") to interact with the element at that location."
  else if String.eqb ty "double_click" then
    "I'll double-click at position (" ++ get_text "x" "?" d ++ ", "
    ++ get_text "y" "?" d ++ ") to open or select the element."
  else if String.eqb ty "right_click" then
    "I'll right-click at position (" ++ get_text "x" "?" d ++ ", "
    ++ get_text "y" "?" d ++ ") to open the context menu."
  else if String.eqb ty "typewrite" then
    "I'll type '" ++ get_text "text" EmptyString d
    ++ "' to enter the required text."
  else if String.eqb ty "hotkey" then
    "I'll press " ++ Py.join "+" (get_keys d)
    ++ " to execute this keyboard shortcut."
  else if String.eqb ty "press" then
    "I'll press the " ++ get_text "key" EmptyString d ++ " key."
  else if String.eqb ty "scroll" then
    "I'll scroll " ++ (if 0 <? get_clicks d then "up" else "down")
    ++ " to navigate the content."
  else if String.eqb ty "drag" then
    "I'll drag from the starting position to the ending position."
  else
    "I'll perform this action to progress with the task.".

(** [_create_markdown_cell]. *)
Definition _create_markdown_cell (content : string) : Json.value :=
  Json.Obj [("cell_type", Json.Str "markdown");
            ("metadata", Json.Obj []);
            ("source", Json.Arr (map Json.Str (Py.split_lines content)))].

Definition unknown : Json.value := Json.Str "unknown".

(** The [domain] expression of [_build_metadata_cell]; [None] when the
    indexing raises. *)
Definition domain (tm : state) : option Json.value :=
  match Json.get "related_apps" (task_config tm) with
  | Some apps => if Json.truthy apps then Json.first apps else Some unknown
  | None => Some unknown
  end.

Definition nl : string := Py.chr Py.LF.
Definition fence : string := "```".

(** [_build_metadata_cell]; [now_iso] is [datetime.now().isoformat()]. *)
Definition _build_metadata_cell (now_iso : string) (tm : state) : option string :=
  let task_id :=
    match Json.get "id" (task_config tm) with
    | Some v => v
    | None => unknown
    end in
  match domain tm with
  | None => None
  | Some dom =>
      let metadata :=
        Json.Obj [("task_id", task_id);
                  ("domain", dom);
                  ("instruction", Json.Str (instruction tm));
                  ("total_steps", Json.Int (Z.of_nat (List.length (trajectory tm))));
                  ("timestamp", Json.Str now_iso);
                  ("model_pass_rate",
                    Json.Obj [("claude-sonnet-4-5", Json.Float "0.0")])] in
      Some ("## Task Metadata" ++ nl ++ nl ++ fence ++ "json" ++ nl
            ++ Json.dumps metadata ++ nl ++ fence)
  end.

(** The three cells that [_build_notebook] appends for one step. *)
Definition step_cells (s : step) : list Json.value :=
  [ _create_markdown_cell
      ("**[user]**" ++ nl ++ nl ++ "Screenshot: `" ++ screenshot s ++ "`");
    _create_markdown_cell
      ("**[assistant]**" ++ nl ++ nl ++ _generate_reasoning s);
    _create_markdown_cell
      ("**[tool_call]**" ++ nl ++ nl ++ fence ++ "python" ++ nl
       ++ action s ++ nl ++ fence) ].

(** The [cells] list of [_build_notebook]. *)
Definition notebook_cells (now_iso : string) (tm : state) : option (list Json.value) :=
  match _build_metadata_cell now_iso tm with
  | None => None
  | Some metadata_content =>
      Some (_create_markdown_cell metadata_content
            :: _create_markdown_cell
                 ("## Task Instruction" ++ nl ++ nl ++ instruction tm)
            :: flat_map step_cells (trajectory tm))
  end.

(** The dictionary that [_build_notebook] wraps around the cells. *)
Definition notebook (cells : list Json.value) : Json.value :=
  Json.Obj
    [("nbformat", Json.Int 4);
     ("nbformat_minor", Json.Int 5);
     ("metadata",
       Json.Obj [("kernelspec",
                   Json.Obj [("display_name", Json.Str "Python 3");
                             ("language", Json.Str "python");
                             ("name", Json.Str "python3")]);
                 ("language_info",
                   Json.Obj [("name", Json.Str "python");
                             ("version", Json.Str "3.10.0")])]);
     ("cells", Json.Arr cells)].

(** [_build_notebook]. *)
Definition _build_notebook (now_iso : string) (tm : state) : option Json.value :=
  match notebook_cells now_iso tm with
  | None => None
  | Some cells => Some (notebook cells)
  end.

(** [generate_colab_notebook]: the path and the content of the file it
    writes, [clock] being [int(time.time())]; [None] stands for the
    empty string it returns when building the notebook raises. *)
Definition generate_colab_notebook (clock : Z) (now_iso : string) (tm : state)
  : option (string * string) :=
  let filename := "osw.manual_task." ++ Py.str_int clock ++ ".ipynb" in
  let filepath := path_join (colab_dir tm) filename in
  match _build_notebook now_iso tm with
  | None => None
  | Some notebook => Some (filepath, Json.dumps notebook)
  end.

(** The dictionary [step_log] of [record_action], as given to
    [json.dumps]; the entry for the details is present when they are. *)
Definition step_log (s : step) : Json.value :=
  Json.Obj
    ([("step", Json.Int (step_index s));
      ("observation", Json.Obj [("screenshot", Json.Str (screenshot s))]);
      ("instruction", Json.Str (step_instruction s));
      ("action", Json.Str (action s));
      ("action_type", Json.Str (action_type s));
      ("timestamp", Json.Float (timestamp s))]
     ++ match action_details s with
        | Some d => [("action_details", Json.Obj (members d))]
        | None => []
        end).

(** What [save_trajectory] writes into the file: one line per entry. *)
Fixpoint jsonl (entries : list step) : string :=
  match entries with
  | [] => EmptyString
  | entry :: rest => Json.dumps_compact (step_log entry) ++ nl ++ jsonl rest
  end.

(** [save_trajectory]: the path and the content of the file. *)
Definition save_trajectory (tm : state) : string * string :=
  (path_join (trajectory_dir tm) "trajectory.jsonl", jsonl (trajectory tm)).

(** [get_summary], without the duration: the number of steps, the
    result directory and the trajectory file. *)
Record summary : Type := {
  total_steps : Z;
  summary_result_dir : string;
  trajectory_file : string
}.

Definition get_summary (tm : state) : summary :=
  {| total_steps := step_count tm;
     summary_result_dir := result_dir tm;
     trajectory_file := path_join (trajectory_dir tm) "trajectory.jsonl" |}.

End TrajectoryManager.

(** ** [viewport_window.ViewPortWindow] *)

Module ViewPortWindow.

(** *** The fields of the window *)

(** The fields [__init__] computes and nothing writes afterwards. *)
Record geometry : Type := {
  vm_width : Z;
  vm_height : Z;
  screen_width : Z;
  screen_height : Z;
  hud_height : Z;
  available_height : Z;
  needs_viewport : bool;
  window_width : Z;
  window_height : Z;
  pan_threshold : Z;
  pan_speed : Z
}.

(** The value of [picker_active] when it is not [None]. *)
Inductive picker : Type := PickHotkey | PickKey | PickSleep.

Record window : Type := {
  geom : geometry;
  viewport_x : Z;
  viewport_y : Z;
  is_running : bool;
  is_busy : bool;
  show_overlay : bool;
  current_screenshot : option VMInterface.image;
  instruction : string;
  status_message : string;
  last_action : string;
  overlay_selected_hotkey : nat;
  overlay_selected_key : nat;
  overlay_selected_sleep : nat;
  overlay_type_text : string;
  overlay_type_active : bool;
  picker_active : option picker;
  drag_mode_active : bool;
  drag_start_point : option (Z * Z)
}.

(** [__init__], given the size of the remote screen, the size
    [pygame.display.Info()] reports and the size of the surface that
    [set_mode] returns. *)
Definition __init__ (vm_screen_size display_info surface_size : Z * Z) : window :=
  let '(vm_w, vm_h) := vm_screen_size in
  let '(screen_w, screen_h) := display_info in
  let '(window_w, window_h) := surface_size in
  let hud := 40 in
  let available := screen_h - hud in
  {| geom := {| vm_width := vm_w;
                vm_height := vm_h;
                screen_width := screen_w;
                screen_height := screen_h;
                hud_height := hud;
                available_height := available;
                needs_viewport := (screen_w <? vm_w) || (available <? vm_h);
                window_width := window_w;
                window_height := window_h;
                pan_threshold := 50;
                pan_speed := 20 |};
     viewport_x := 0;
     viewport_y := 0;
     is_running := false;
     is_busy := false;
     show_overlay := false;
     current_screenshot := None;
     instruction := "Loading...";
     status_message := EmptyString;
     last_action := EmptyString;
     overlay_selected_hotkey := 0;
     overlay_selected_key := 0;
     overlay_selected_sleep := 0;
     overlay_type_text := EmptyString;
     overlay_type_active := false;
     picker_active := None;
     drag_mode_active := false;
     drag_start_point := None |}.

(** Assignments to one field of [self]. *)
Definition set_viewport_x (v : Z) (w : window) : window :=
  let 'Build_window g vx vy run busy ov shot ins st la sh sk ss tx ta pk dm dp := w in
  Build_window g v vy run busy ov shot ins st la sh sk ss tx ta pk dm dp.
Definition set_viewport_y (v : Z) (w : window) : window :=
  let 'Build_window g vx vy run busy ov shot ins st la sh sk ss tx ta pk dm dp := w in
  Build_window g vx v run busy ov shot ins st la sh sk ss tx ta pk dm dp.
Definition set_is_running (v : bool) (w : window) : window :=
  let 'Build_window g vx vy run busy ov shot ins st la sh sk ss tx ta pk dm dp := w in
  Build_window g vx vy v busy ov shot ins st la sh sk ss tx ta pk dm dp.
Definition set_is_busy (v : bool) (w : window) : window :=
  let 'Build_window g vx vy run busy ov shot ins st la sh sk ss tx ta pk dm dp := w in
  Build_window g vx vy run v ov shot ins st la sh sk ss tx ta pk dm dp.
Definition set_show_overlay (v : bool) (w : window) : window :=
  let 'Build_window g vx vy run busy ov shot ins st la sh sk ss tx ta pk dm dp := w in
  Build_window g vx vy run busy v shot ins st la sh sk ss tx ta pk dm dp.
Definition set_current_screenshot (v : option VMInterface.image) (w : window) : window :=
  let 'Build_window g vx vy run busy ov shot ins st la sh sk ss tx ta pk dm dp := w in
  Build_window g vx vy run busy ov v ins st la sh sk ss tx ta pk dm dp.
Definition set_instruction (v : string) (w : window) : window :=
  let 'Build_window g vx vy run busy ov shot ins st la sh sk ss tx ta pk dm dp := w in
  Build_window g vx vy run busy ov shot v st la sh sk ss tx ta pk dm dp.
Definition set_status_message (v : string) (w : window) : window :=
  let 'Build_window g vx vy run busy ov shot ins st la sh sk ss tx ta pk dm dp := w in
  Build_window g vx vy run busy ov shot ins v la sh sk ss tx ta pk dm dp.
Definition set_last_action (v : string) (w : window) : window :=
  let 'Build_window g vx vy run busy ov shot ins st la sh sk ss tx ta pk dm dp := w in
  Build_window g vx vy run busy ov shot ins st v sh sk ss tx ta pk dm dp.
Definition set_overlay_type_text (v : string) (w : window) : window :=
  let 'Build_window g vx vy run busy ov shot ins st la sh sk ss tx ta pk dm dp := w in
  Build_window g vx vy run busy ov shot ins st la sh sk ss v ta pk dm dp.
Definition set_overlay_type_active (v : bool) (w : window) : window :=
  let 'Build_window g vx vy run busy ov shot ins st la sh sk ss tx ta pk dm dp := w in
  Build_window g vx vy run busy ov shot ins st la sh sk ss tx v pk dm dp.
Definition set_picker_active (v : option picker) (w : window) : window :=
  let 'Build_window g vx vy run busy ov shot ins st la sh sk ss tx ta pk dm dp := w in
  Build_window g vx vy run busy ov shot ins st la sh sk ss tx ta v dm dp.
Definition set_drag_mode_active (v : bool) (w : window) : window :=
  let 'Build_window g vx vy run busy ov shot ins st la sh sk ss tx ta pk dm dp := w in
  Build_window g vx vy run busy ov shot ins st la sh sk ss tx ta pk v dp.
Definition set_drag_start_point (v : option (Z * Z)) (w : window) : window :=
  let 'Build_window g vx vy run busy ov shot ins st la sh sk ss tx ta pk dm dp := w in
  Build_window g vx vy run busy ov shot ins st la sh sk ss tx ta pk dm v.

(** *** Coordinates and panning *)

(** [_vm_to_screen]. *)
Definition _vm_to_screen (w : window) (vm_x vm_y : Z) : Z * Z :=
  let screen_x := vm_x - viewport_x w in
  let screen_y := vm_y - viewport_y w + hud_height (geom w) in
  (screen_x, screen_y).

(** [_screen_to_vm]. *)
Definition _screen_to_vm (w : window) (screen_x screen_y : Z) : Z * Z :=
  let vm_x := screen_x + viewport_x w in
  let vm_y := screen_y - hud_height (geom w) + viewport_y w in
  let vm_x := Z.max 0 (Z.min vm_x (vm_width (geom w) - 1)) in
  let vm_y := Z.max 0 (Z.min vm_y (vm_height (geom w) - 1)) in
  (vm_x, vm_y).

(** [_is_on_vm]. *)
Definition _is_on_vm (w : window) (screen_pos : Z * Z) : bool :=
  let '(x, y) := screen_pos in
  (hud_height (geom w) <=? y) && negb (show_overlay w).

(** [_update_viewport]. *)
Definition _update_viewport (mouse_pos : Z * Z) (w : window) : window :=
  if negb (needs_viewport (geom w)) || show_overlay w then w
  else
    let '(mx, my) := mouse_pos in
    let g := geom w in
    let w :=
      if mx <? pan_threshold g then
        set_viewport_x (Z.max 0 (viewport_x w - pan_speed g)) w
      else if window_width g - pan_threshold g <? mx then
        let max_x := Z.max 0 (vm_width g - window_width g) in
        set_viewport_x (Z.min max_x (viewport_x w + pan_speed g)) w
      else w in
    if my <? hud_height g + pan_threshold g then
      set_viewport_y (Z.max 0 (viewport_y w - pan_speed g)) w
    else if window_height g - pan_threshold g <? my then
      let max_y := Z.max 0 (vm_height g - available_height g) in
      set_viewport_y (Z.min max_y (viewport_y w + pan_speed g)) w
    else w.

(** The pan update at the end of one pass of the main loop. *)
Definition pan (mouse_pos : Z * Z) (w : window) : window :=
  if negb (show_overlay w) then _update_viewport mouse_pos w else w.

(** *** Presets *)

Definition HOTKEY_PRESETS : list string :=
  ["Ctrl+S"; "Ctrl+Shift+S"; "Ctrl+C"; "Ctrl+V"; "Ctrl+X";
   "Ctrl+Z"; "Ctrl+A"; "Ctrl+F"; "Ctrl+H"; "Ctrl+N";
   "Ctrl+O"; "Ctrl+P"; "Ctrl+W"; "Alt+F4"; "Ctrl+Alt+T"].

Definition HOTKEY_MAP : list (string * list string) :=
  [("Ctrl+S", ["ctrl"; "s"]);
   ("Ctrl+Shift+S", ["ctrl"; "shift"; "s"]);
   ("Ctrl+C", ["ctrl"; "c"]);
   ("Ctrl+V", ["ctrl"; "v"]);
   ("Ctrl+X", ["ctrl"; "x"]);
   ("Ctrl+Z", ["ctrl"; "z"]);
   ("Ctrl+A", ["ctrl"; "a"]);
   ("Ctrl+F", ["ctrl"; "f"]);
   ("Ctrl+H", ["ctrl"; "h"]);
   ("Ctrl+N", ["ctrl"; "n"]);
   ("Ctrl+O", ["ctrl"; "o"]);
   ("Ctrl+P", ["ctrl"; "p"]);
   ("Ctrl+W", ["ctrl"; "w"]);
   ("Alt+F4", ["alt"; "f4"]);
   ("Ctrl+Alt+T", ["ctrl"; "alt"; "t"])].

Definition SPECIAL_KEYS : list string :=
  ["enter"; "tab"; "escape"; "backspace"; "delete";
   "up"; "down"; "left"; "right"; "space";
   "home"; "end"; "pageup"; "pagedown"].

Definition SLEEP_PRESETS : list Py.num :=
  [Py.half; Py.Int 1; Py.Int 2; Py.Int 3; Py.Int 5; Py.Int 10].

(** [HOTKEY_MAP.get(hotkey, [])]. *)
Fixpoint hotkey_keys (table : list (string * list string)) (hotkey : string)
  : list string :=
  match table with
  | [] => []
  | (name, keys) :: rest =>
      if String.eqb name hotkey then keys else hotkey_keys rest hotkey
  end.

(** *** The window with its collaborators and its threads *)

(** The [lambda] that the window passes as [execute_fn], by the method of
    the adapter it calls and the values it closes over.  These are not
    assigned again while the thread that calls the closure is alive:
    clicks on the view are skipped while [is_busy] holds. *)
Inductive closure : Type :=
| CallClick (vm_x vm_y : Z)
| CallRightClick (vm_x vm_y : Z)
| CallTypewrite (text : string)
| CallHotkey (keys : list string)
| CallPress (key : string)
| CallScroll (clicks : Z)
| CallDrag (start_x start_y end_x end_y : Z) (duration : Py.num).

(** Calling such a closure, the controller answering with [r]. *)
Definition call (execute_fn : closure) (r : VMInterface.reply) : VMInterface.result :=
  match execute_fn with
  | CallClick vm_x vm_y => VMInterface.execute_click vm_x vm_y r
  | CallRightClick vm_x vm_y => VMInterface.execute_right_click vm_x vm_y r
  | CallTypewrite text => VMInterface.execute_typewrite text r
  | CallHotkey keys => VMInterface.execute_hotkey keys r
  | CallPress key => VMInterface.execute_press key r
  | CallScroll clicks => VMInterface.execute_scroll clicks None None r
  | CallDrag start_x start_y end_x end_y duration =>
      VMInterface.execute_drag start_x start_y end_x end_y duration r
  end.

(** A started thread, by the target it runs and what the target closes
    over. *)
Inductive thread : Type :=
| ActionThread (action_type : string) (execute_fn : closure)
               (pg_command : string) (details : TrajectoryManager.details)
| SleepThread (seconds : Py.num)
| RefreshThread
| FinishThread.

(** What the program did to the world outside it, oldest first: a command
    handed to the remote controller with the controller's answer, and a
    scripted delay. *)
Inductive effect : Type :=
| Sent (command : string) (answer : VMInterface.reply)
| Slept (seconds : Py.num).

Record system : Type := {
  win : window;
  recorder : TrajectoryManager.state;
  adapter : VMInterface.state;
  threads : list thread;
  effects : list effect
}.

Definition with_win (w : window) (s : system) : system :=
  {| win := w; recorder := recorder s; adapter := adapter s;
     threads := threads s; effects := effects s |}.
Definition with_recorder (r : TrajectoryManager.state) (s : system) : system :=
  {| win := win s; recorder := r; adapter := adapter s;
     threads := threads s; effects := effects s |}.
Definition with_adapter (a : VMInterface.state) (s : system) : system :=
  {| win := win s; recorder := recorder s; adapter := a;
     threads := threads s; effects := effects s |}.
Definition with_threads (ts : list thread) (s : system) : system :=
  {| win := win s; recorder := recorder s; adapter := adapter s;
     threads := ts; effects := effects s |}.
Definition log (e : effect) (s : system) : system :=
  {| win := win s; recorder := recorder s; adapter := adapter s;
     threads := threads s; effects := effects s ++ [e] |}.

(** [threading.Thread(target=..., daemon=True).start()]. *)
Definition start_thread (t : thread) (s : system) : system :=
  with_threads (threads s ++ [t]) s.

(** *** Dispatch, on the thread of the main loop *)

(** [_execute_action], up to and including the start of the thread. *)
Definition _execute_action (action_type : string) (execute_fn : closure)
           (pg_command : string) (details : TrajectoryManager.details)
           (s : system) : system :=
  if is_busy (win s) then s
  else
    let w := set_is_busy true (win s) in
    let w := set_status_message "Executing..." w in
    start_thread (ActionThread action_type execute_fn pg_command details)
                 (with_win w s).

Definition _execute_click (vm_x vm_y : Z) : system -> system :=
  let pg_command :=
    "pg.click(" ++ Py.str_int vm_x ++ ", " ++ Py.str_int vm_y ++ ")" in
  _execute_action "click" (CallClick vm_x vm_y) pg_command
                  (TrajectoryManager.AtPoint vm_x vm_y).

(** The right-click branch of the main loop. *)
Definition _execute_right_click (vm_x vm_y : Z) : system -> system :=
  let pg_command :=
    "pg.rightClick(" ++ Py.str_int vm_x ++ ", " ++ Py.str_int vm_y ++ ")" in
  _execute_action "right_click" (CallRightClick vm_x vm_y) pg_command
                  (TrajectoryManager.AtPoint vm_x vm_y).

Definition _execute_type (text : string) : system -> system :=
  let pg_command := "pg.typewrite('" ++ text ++ "')" in
  _execute_action "typewrite" (CallTypewrite text) pg_command
                  (TrajectoryManager.Text text).

Definition _execute_hotkey (hotkey : string) (s : system) : system :=
  let keys := hotkey_keys HOTKEY_MAP hotkey in
  match keys with
  | [] => s
  | _ :: _ =>
      let keys_str := Py.join ", " (map VMInterface.quoted keys) in
      let pg_command := "pg.hotkey(" ++ keys_str ++ ")" in
      _execute_action "hotkey" (CallHotkey keys) pg_command
                      (TrajectoryManager.Keys keys) s
  end.

Definition _execute_key (key : string) : system -> system :=
  let pg_command := "pg.press('" ++ key ++ "')" in
  _execute_action "press" (CallPress key) pg_command
                  (TrajectoryManager.Key key).

Definition _execute_scroll (clicks : Z) : system -> system :=
  let pg_command := "pg.scroll(" ++ Py.str_int clicks ++ ")" in
  _execute_action "scroll" (CallScroll clicks) pg_command
                  (TrajectoryManager.Clicks clicks).

Definition _execute_drag (start_x start_y end_x end_y : Z) : system -> system :=
  let pg_command :=
    "pg.moveTo(" ++ Py.str_int start_x ++ ", " ++ Py.str_int start_y
    ++ "); pg.drag(" ++ Py.str_int (end_x - start_x) ++ ", "
    ++ Py.str_int (end_y - start_y) ++ ", duration=0.5)" in
  _execute_action "drag"
                  (CallDrag start_x start_y end_x end_y Py.half)
                  pg_command
                  (TrajectoryManager.DragPoints start_x start_y end_x end_y).

(** [_execute_sleep], up to the start of the thread. *)
Definition _execute_sleep (seconds : Py.num) (s : system) : system :=
  if is_busy (win s) then s
  else
    let w := set_is_busy true (win s) in
    let w := set_status_message ("Waiting " ++ Py.str_num seconds ++ "s...") w in
    start_thread (SleepThread seconds) (with_win w s).

(** [_refresh_screenshot], up to the start of the thread. *)
Definition _refresh_screenshot (s : system) : system :=
  if is_busy (win s) then s
  else
    let w := set_is_busy true (win s) in
    let w := set_status_message "Refreshing..." w in
    start_thread RefreshThread (with_win w s).

(** [_on_finish], up to the start of the thread. *)
Definition _on_finish (s : system) : system :=
  let w := set_is_busy true (win s) in
  let w := set_status_message "Finishing..." w in
  let w := set_show_overlay false w in
  start_thread FinishThread (with_win w s).

(** An intent of the operator, by the method that carries it out. *)
Inductive intent : Type :=
| DoClick (vm_x vm_y : Z)
| DoRightClick (vm_x vm_y : Z)
| DoType (text : string)
| DoHotkey (hotkey : string)
| DoKey (key : string)
| DoScroll (clicks : Z)
| DoDrag (start_x start_y end_x end_y : Z)
| DoSleep (seconds : Py.num).

Definition submit (i : intent) : system -> system :=
  match i with
  | DoClick vm_x vm_y => _execute_click vm_x vm_y
  | DoRightClick vm_x vm_y => _execute_right_click vm_x vm_y
  | DoType text => _execute_type text
  | DoHotkey hotkey => _execute_hotkey hotkey
  | DoKey key => _execute_key key
  | DoScroll clicks => _execute_scroll clicks
  | DoDrag start_x start_y end_x end_y =>
      _execute_drag start_x start_y end_x end_y
  | DoSleep seconds => _execute_sleep seconds
  end.

(** *** The bodies of the threads *)

(** What the world answers while one thread runs. *)
Record environment : Type := {
  image_saved : bool;                              (* [image.save] returns *)
  answer : VMInterface.reply;                      (* the remote controller *)
  observations : nat -> VMInterface.observation;   (* [_get_obs], call by call *)
  display_raises : option string;                  (* [_display_screenshot] *)
  clock : string;                                  (* [time.time()] *)
  score : string                                   (* [run_evaluation()] *)
}.

(** A block that may raise: the state it leaves and the message of the
    exception, if any. *)
Definition outcome : Type := (system * option string)%type.

(** [_display_screenshot]: the conversion to a surface may raise, and
    then [current_screenshot] is not assigned. *)
Definition _display_screenshot (img : VMInterface.image) (env : environment)
           (s : system) : outcome :=
  match display_raises env with
  | Some message => (s, Some message)
  | None => (with_win (set_current_screenshot (Some img) (win s)) s, None)
  end.

(** [self.vm.get_screenshot_with_retry()]. *)
Definition fetch (env : environment) (s : system)
  : option VMInterface.image * system :=
  let '(got, vm) :=
    VMInterface.get_screenshot_with_retry
      (observations env) VMInterface.default_retries (adapter s) in
  (VMInterface.frame got, with_adapter vm s).

(** The refresh that ends both kinds of action thread. *)
Definition fetch_and_display (env : environment) (s : system) : outcome :=
  let '(new_img, s) := fetch env s in
  match new_img with
  | Some img => _display_screenshot img env s
  | None => (s, None)
  end.

(** The before-screenshot of both kinds of action thread. *)
Definition before_screenshot (env : environment) (s : system) : string :=
  match current_screenshot (win s) with
  | Some _ =>
      TrajectoryManager.save_before_screenshot (image_saved env) (recorder s)
  | None => EmptyString
  end.

(** [result.get('error', 'Unknown')], formatted. *)
Definition error_text (r : VMInterface.result) : string :=
  match VMInterface.error r with
  | Some e => e
  | None => "None"
  end.

(** The [try] block of [run] in [_execute_action]. *)
Definition action_try (action_type : string) (execute_fn : closure)
           (pg_command : string) (details : TrajectoryManager.details)
           (env : environment) (s : system) : outcome :=
  let screenshot_path := before_screenshot env s in
  let result := call execute_fn (answer env) in
  let s := log (Sent (VMInterface.command result) (answer env)) s in
  if VMInterface.success result then
    let s :=
      with_recorder
        (TrajectoryManager.record_action pg_command screenshot_path
           action_type (Some details) (clock env) (recorder s)) s in
    let s := with_win (set_last_action pg_command (win s)) s in
    let '(s, raised) := fetch_and_display env s in
    match raised with
    | Some message => (s, Some message)
    | None => (with_win (set_status_message EmptyString (win s)) s, None)
    end
  else
    (with_win (set_status_message ("Error: " ++ error_text result) (win s)) s,
     None).

(** The [try] block of [run] in [_execute_sleep]. *)
Definition sleep_try (seconds : Py.num) (env : environment) (s : system)
  : outcome :=
  let screenshot_path := before_screenshot env s in
  let s := log (Slept seconds) s in
  let pg_command := "pg.sleep(" ++ Py.str_num seconds ++ ")" in
  let s :=
    with_recorder
      (TrajectoryManager.record_action pg_command screenshot_path "sleep"
         (Some (TrajectoryManager.Seconds seconds)) (clock env) (recorder s)) s in
  let s := with_win (set_last_action pg_command (win s)) s in
  let '(s, raised) := fetch_and_display env s in
  match raised with
  | Some message => (s, Some message)
  | None => (with_win (set_status_message EmptyString (win s)) s, None)
  end.

(** The [except] and [finally] clauses shared by the two [run] targets. *)
Definition except_finally (o : outcome) : system :=
  let '(s, raised) := o in
  let s :=
    match raised with
    | Some message =>
        with_win (set_status_message ("Error: " ++ message) (win s)) s
    | None => s
    end in
  let w := set_is_busy false (win s) in
  let w := set_show_overlay false w in
  with_win w s.

(** [refresh] in [_refresh_screenshot]: no handler, so an exception ends
    the thread before [is_busy] is cleared. *)
Definition refresh_body (env : environment) (s : system) : system :=
  let '(img, s) := fetch env s in
  match img with
  | Some img =>
      let '(s, raised) := _display_screenshot img env s in
      match raised with
      | Some _ => s
      | None =>
          let w := set_status_message EmptyString (win s) in
          with_win (set_is_busy false w) s
      end
  | None =>
      let w := set_status_message "Failed to get screenshot" (win s) in
      with_win (set_is_busy false w) s
  end.

(** [finish] in [_on_finish].  Each method it calls catches what it
    raises, so the handler of [finish] is never entered; the files written
    are not part of this model. *)
Definition finish_body (env : environment) (s : system) : system :=
  let vm := adapter s in
  let s :=
    with_adapter {| VMInterface._is_recording := false;
                    VMInterface._last_screenshot :=
                      VMInterface._last_screenshot vm |} s in
  let w := set_status_message ("Done! Score: " ++ score env) (win s) in
  with_win (set_is_running false w) s.

(** The target of a thread, run from start to return. *)
Definition run (t : thread) (env : environment) (s : system) : system :=
  match t with
  | ActionThread action_type execute_fn pg_command details =>
      except_finally
        (action_try action_type execute_fn pg_command details env s)
  | SleepThread seconds => except_finally (sleep_try seconds env s)
  | RefreshThread => refresh_body env s
  | FinishThread => finish_body env s
  end.

(** *** Keys *)

Inductive keycode : Type :=
| K_F12 | K_ESCAPE | K_BACKSPACE | K_RETURN | K_SPACE | K_OTHER.

(** A [KEYDOWN] event: [event.key] and [event.unicode]. *)
Record key_event : Type := {
  key : keycode;
  unicode : string
}.

(** The branch of the main loop for the escape key. *)
Definition on_escape (w : window) : window :=
  match picker_active w with
  | Some _ => set_picker_active None w
  | None =>
      if show_overlay w && overlay_type_active w then
        set_overlay_type_active false w
      else if show_overlay w then
        set_picker_active None (set_show_overlay false w)
      else if drag_mode_active w then
        let w := set_drag_mode_active false w in
        let w := set_drag_start_point None w in
        set_status_message "Drag cancelled" w
      else
        set_is_running false w
  end.

(** The branch of the main loop for a key while text entry is active. *)
Definition on_typing_key (e : key_event) (s : system) : system :=
  let text := overlay_type_text (win s) in
  match key e with
  | K_BACKSPACE =>
      with_win (set_overlay_type_text (Py.drop_last text) (win s)) s
  | K_RETURN =>
      if Py.truthy text then
        let s := _execute_type text s in
        with_win (set_overlay_type_text EmptyString (win s)) s
      else s
  | _ =>
      if Py.truthy (unicode e) && Py.isprintable (unicode e) then
        with_win (set_overlay_type_text (text ++ unicode e) (win s)) s
      else s
  end.

(** The branch of the main loop for the space key outside text entry. *)
Definition on_space (w : window) : window :=
  match picker_active w with
  | Some _ => w
  | None =>
      let w := set_show_overlay (negb (show_overlay w)) w in
      let w := set_overlay_type_active false w in
      set_picker_active None w
  end.

(** The [KEYDOWN] branch of the main loop. *)
Definition keydown (e : key_event) (s : system) : system :=
  match key e with
  | K_F12 => _on_finish s
  | K_ESCAPE => with_win (on_escape (win s)) s
  | k =>
      if show_overlay (win s) && overlay_type_active (win s) then
        on_typing_key e s
      else
        match k with
        | K_SPACE => with_win (on_space (win s)) s
        | _ => s
        end
  end.

(** *** Runs of the program *)

(** What can happen next: the main loop carries out an intent, a refresh
    or the finish sequence, handles a key, pans at the end of a frame or
    writes the fields of the overlay, the pickers and the drag mode (the
    mouse handlers, not spelled out here, which reach the other fields
    only through the methods above), or the [n]-th live thread runs its
    target. *)
Inductive event : Type :=
| Submit (i : intent)
| Refresh
| Finish
| KeyDown (e : key_event)
| Frame (mouse_pos : Z * Z)
| Ui (w : window)
| Run (n : nat) (env : environment).

(** The fields a mouse handler assigns directly, taken from [from]. *)
Definition ui_write (from w : window) : window :=
  {| geom := geom w;
     viewport_x := viewport_x w;
     viewport_y := viewport_y w;
     is_running := is_running w;
     is_busy := is_busy w;
     show_overlay := show_overlay from;
     current_screenshot := current_screenshot w;
     instruction := instruction w;
     status_message := status_message from;
     last_action := last_action w;
     overlay_selected_hotkey := overlay_selected_hotkey from;
     overlay_selected_key := overlay_selected_key from;
     overlay_selected_sleep := overlay_selected_sleep from;
     overlay_type_text := overlay_type_text from;
     overlay_type_active := overlay_type_active from;
     picker_active := picker_active from;
     drag_mode_active := drag_mode_active from;
     drag_start_point := drag_start_point from |}.

Fixpoint remove_nth {A : Type} (n : nat) (l : list A) : list A :=
  match l, n with
  | [], _ => []
  | _ :: rest, O => rest
  | x :: rest, S k => x :: remove_nth k rest
  end.

Definition react (e : event) (s : system) : system :=
  match e with
  | Submit i => submit i s
  | Refresh => _refresh_screenshot s
  | Finish => _on_finish s
  | KeyDown k => keydown k s
  | Frame mouse_pos => with_win (pan mouse_pos (win s)) s
  | Ui w => with_win (ui_write w (win s)) s
  | Run n env =>
      match nth_error (threads s) n with
      | Some t => run t env (with_threads (remove_nth n (threads s)) s)
      | None => s
      end
  end.

Definition exec (trace : list event) (s : system) : system :=
  fold_left (fun s e => react e s) trace s.

(** The objects as the runner constructs them, [set_instruction]
    included. *)
Definition created (vm_screen_size display_info surface_size : Z * Z)
           (result_dir : string) (task_config : list (string * Json.value))
           (instruction : string) : system :=
  {| win := set_instruction instruction
              (__init__ vm_screen_size display_info surface_size);
     recorder := TrajectoryManager.__init__ result_dir task_config instruction;
     adapter := VMInterface.__init__;
     threads := [];
     effects := [] |}.

(** [start], up to the main loop: the first refresh is requested and the
    video recording is started ([recording] tells whether that call
    returned). *)
Definition start (recording : bool) (s : system) : system :=
  let w := set_is_running true (win s) in
  let w := set_status_message "Loading..." w in
  let s := _refresh_screenshot (with_win w s) in
  with_adapter {| VMInterface._is_recording :=
                    recording || VMInterface._is_recording (adapter s);
                  VMInterface._last_screenshot :=
                    VMInterface._last_screenshot (adapter s) |} s.

(** *** Drawing *)

(** The source rectangle [src_rect] of [_draw_vm]: left, top, width and
    height of the part of the screenshot that is shown. *)
Definition src_rect (w : window) : Z * Z * Z * Z :=
  let g := geom w in
  (viewport_x w,
   viewport_y w,
   Z.min (window_width g) (vm_width g - viewport_x w),
   Z.min (available_height g) (vm_height g - viewport_y w)).

(** The destination rectangle [dest_rect] of [_draw_vm]. *)
Definition dest_rect (w : window) : Z * Z * Z * Z :=
  let '(_, _, width, height) := src_rect w in
  (0, hud_height (geom w), width, height).

(** *** The mouse *)

Definition set_overlay_selected_hotkey (v : nat) (w : window) : window :=
  let 'Build_window g vx vy run busy ov shot ins st la sh sk ss tx ta pk dm dp := w in
  Build_window g vx vy run busy ov shot ins st la v sk ss tx ta pk dm dp.
Definition set_overlay_selected_key (v : nat) (w : window) : window :=
  let 'Build_window g vx vy run busy ov shot ins st la sh sk ss tx ta pk dm dp := w in
  Build_window g vx vy run busy ov shot ins st la sh v ss tx ta pk dm dp.
Definition set_overlay_selected_sleep (v : nat) (w : window) : window :=
  let 'Build_window g vx vy run busy ov shot ins st la sh sk ss tx ta pk dm dp := w in
  Build_window g vx vy run busy ov shot ins st la sh sk v tx ta pk dm dp.

(** [a <= x <= b]. *)
Definition between (a x b : Z) : bool := (a <=? x) && (x <=? b).

(** The number of items and of columns of a picker. *)
Definition picker_items (p : picker) : nat :=
  match p with
  | PickHotkey => List.length HOTKEY_PRESETS
  | PickKey => List.length SPECIAL_KEYS
  | PickSleep => List.length SLEEP_PRESETS
  end.

Definition picker_cols (p : picker) : Z :=
  match p with
  | PickHotkey => 3
  | PickKey => 4
  | PickSleep => 3
  end.

(** The popup of a picker: [popup_x], [popup_y], [popup_w], [popup_h]. *)
Definition popup (w : window) (p : picker) : Z * Z * Z * Z :=
  let cols := picker_cols p in
  let item_w := 110 in
  let item_h := 36 in
  let gap := 8 in
  let rows := (Z.of_nat (picker_items p) + cols - 1) / cols in
  let popup_w := cols * item_w + (cols - 1) * gap + 40 in
  let popup_h := rows * item_h + (rows - 1) * gap + 80 in
  let popup_x := (window_width (geom w) - popup_w) / 2 in
  let popup_y := (window_height (geom w) - popup_h) / 2 in
  (popup_x, popup_y, popup_w, popup_h).

(** The test of the grid loop for item [i]. *)
Definition on_item (w : window) (p : picker) (pos : Z * Z) (i : nat) : bool :=
  let '(mx, my) := pos in
  let '(popup_x, popup_y, _, _) := popup w p in
  let cols := picker_cols p in
  let item_w := 110 in
  let item_h := 36 in
  let gap := 8 in
  let start_x := popup_x + 20 in
  let start_y := popup_y + 60 in
  let row := Z.of_nat i / cols in
  let col := Z.of_nat i mod cols in
  let item_x := start_x + col * (item_w + gap) in
  let item_y := start_y + row * (item_h + gap) in
  between item_x mx (item_x + item_w) && between item_y my (item_y + item_h).

(** The grid loop: the first of the items [i], [i + 1], ... under the
    cursor. *)
Fixpoint first_item (hit : nat -> bool) (i remaining : nat) : option nat :=
  match remaining with
  | O => None
  | S k => if hit i then Some i else first_item hit (S i) k
  end.

Definition select (p : picker) (i : nat) (w : window) : window :=
  match p with
  | PickHotkey => set_overlay_selected_hotkey i w
  | PickKey => set_overlay_selected_key i w
  | PickSleep => set_overlay_selected_sleep i w
  end.

(** [_handle_picker_click]. *)
Definition _handle_picker_click (pos : Z * Z) (w : window) : window :=
  match picker_active w with
  | None => set_picker_active None w
  | Some p =>
      let '(mx, my) := pos in
      let '(popup_x, popup_y, popup_w, popup_h) := popup w p in
      if negb (between popup_x mx (popup_x + popup_w)
               && between popup_y my (popup_y + popup_h))
      then set_picker_active None w
      else
        match first_item (on_item w p pos) O (picker_items p) with
        | Some i => set_picker_active None (select p i w)
        | None => w
        end
  end.

(** The panel of the overlay: [panel_x] and [panel_y]; it is 520 wide and
    580 high. *)
Definition panel (w : window) : Z * Z :=
  ((window_width (geom w) - 520) / 2, (window_height (geom w) - 580) / 2).

(** The helper [in_section] of [_handle_overlay_click]. *)
Definition in_section (w : window) (pos : Z * Z) (section_y : Z) : bool :=
  let '(mx, my) := pos in
  let '(panel_x, _) := panel w in
  between (panel_x + 25) mx (panel_x + 520 - 25)
  && between section_y my (section_y + 50).

(** The helper [on_go_button] of [_handle_overlay_click]. *)
Definition on_go_button (w : window) (pos : Z * Z) (section_y : Z) : bool :=
  let '(mx, my) := pos in
  let '(panel_x, _) := panel w in
  let card_w := 520 - 25 * 2 in
  let btn_x := panel_x + 25 + card_w - 65 in
  let btn_y := section_y + 10 in
  let btn_w := 55 in
  let btn_h := 50 - 20 in
  between btn_x mx (btn_x + btn_w) && between btn_y my (btn_y + btn_h).

(** The test of a button of the overlay, at [x], [y], [w] wide and [h]
    high. *)
Definition on_button (pos : Z * Z) (x y w h : Z) : bool :=
  let '(mx, my) := pos in
  between x mx (x + w) && between y my (y + h).

(** The type-text section of [_handle_overlay_click]. *)
Definition type_section (pos : Z * Z) (y : Z) (s : system) : system :=
  if in_section (win s) pos y then
    if on_go_button (win s) pos y then
      if Py.truthy (overlay_type_text (win s)) then
        let s := _execute_type (overlay_type_text (win s)) s in
        with_win (set_overlay_type_text EmptyString (win s)) s
      else s
    else with_win (set_overlay_type_active true (win s)) s
  else s.

(** A section with a picker: its Go button executes, given the selected
    preset, and the rest of the card opens the picker.  [None] is the
    [IndexError] of a selection outside the presets. *)
Definition picker_section {A : Type} (pos : Z * Z) (y : Z) (p : picker)
           (presets : list A) (selected : nat) (go : A -> system -> system)
           (s : system) : option system :=
  if in_section (win s) pos y then
    if on_go_button (win s) pos y then
      match nth_error presets selected with
      | Some preset => Some (go preset s)
      | None => None
      end
    else Some (with_win (set_picker_active (Some p) (win s)) s)
  else Some s.

(** The row of the scroll and refresh buttons. *)
Definition buttons_row (pos : Z * Z) (y : Z) (s : system) : system :=
  let '(panel_x, _) := panel (win s) in
  let btn_w := 140 in
  let btn_h := 38 in
  let btn_gap := 15 in
  let btn_start_x := panel_x + 25 in
  let s := if on_button pos btn_start_x y btn_w btn_h then _execute_scroll 3 s else s in
  let btn2_x := btn_start_x + btn_w + btn_gap in
  let s := if on_button pos btn2_x y btn_w btn_h then _execute_scroll (-3) s else s in
  let btn3_x := btn_start_x + (btn_w + btn_gap) * 2 in
  if on_button pos btn3_x y btn_w btn_h then _refresh_screenshot s else s.

(** The row of the drag button. *)
Definition drag_row (pos : Z * Z) (y : Z) (s : system) : system :=
  let '(panel_x, _) := panel (win s) in
  let btn_start_x := panel_x + 25 in
  let drag_btn_w := 140 * 2 + 15 in
  if on_button pos btn_start_x y drag_btn_w 38 then
    if drag_mode_active (win s) then
      let w := set_drag_mode_active false (win s) in
      let w := set_drag_start_point None w in
      with_win (set_status_message "Drag cancelled" w) s
    else
      let w := set_drag_mode_active true (win s) in
      let w := set_drag_start_point None w in
      let w := set_status_message "Click start point on VM" w in
      with_win (set_show_overlay false w) s
  else s.

(** The finish button. *)
Definition finish_row (pos : Z * Z) (y : Z) (s : system) : system :=
  let '(panel_x, _) := panel (win s) in
  let finish_w := 520 - 25 * 2 in
  if on_button pos (panel_x + 25) y finish_w 45 then _on_finish s else s.

Definition and_then (o : option system) (f : system -> option system)
  : option system :=
  match o with
  | Some s => f s
  | None => None
  end.

(** [_handle_overlay_click]. *)
Definition _handle_overlay_click (pos : Z * Z) (s : system) : option system :=
  match picker_active (win s) with
  | Some _ => Some (with_win (_handle_picker_click pos (win s)) s)
  | None =>
      let '(mx, my) := pos in
      let '(panel_x, panel_y) := panel (win s) in
      if negb (between panel_x mx (panel_x + 520)
               && between panel_y my (panel_y + 580))
      then Some (with_win (set_show_overlay false (win s)) s)
      else
        let y_base := panel_y + 70 + 45 in
        let s := with_win (set_overlay_type_active false (win s)) s in
        let y := y_base in
        let s := type_section pos y s in
        let y := y + (50 + 12) in
        and_then
          (picker_section pos y PickHotkey HOTKEY_PRESETS
             (overlay_selected_hotkey (win s)) _execute_hotkey s)
          (fun s =>
             let y := y + (50 + 12) in
             and_then
               (picker_section pos y PickKey SPECIAL_KEYS
                  (overlay_selected_key (win s)) _execute_key s)
               (fun s =>
                  let y := y + (50 + 12) in
                  and_then
                    (picker_section pos y PickSleep SLEEP_PRESETS
                       (overlay_selected_sleep (win s)) _execute_sleep s)
                    (fun s =>
                       let y := y + (50 + 20) in
                       let s := buttons_row pos y s in
                       let y := y + (38 + 12) in
                       let s := drag_row pos y s in
                       let y := y + (38 + 20) in
                       Some (finish_row pos y s))))
  end.

(** The [MOUSEBUTTONDOWN] branch of the main loop for the left button. *)
Definition left_click (pos : Z * Z) (s : system) : option system :=
  if show_overlay (win s) then _handle_overlay_click pos s
  else if _is_on_vm (win s) pos && negb (is_busy (win s)) then
    let '(vm_x, vm_y) := _screen_to_vm (win s) (fst pos) (snd pos) in
    if drag_mode_active (win s) then
      match drag_start_point (win s) with
      | None =>
          let w := set_drag_start_point (Some (vm_x, vm_y)) (win s) in
          Some (with_win
                  (set_status_message
                     ("Start: (" ++ Py.str_int vm_x ++ ", " ++ Py.str_int vm_y
                      ++ ") - Now click end point") w) s)
      | Some (start_x, start_y) =>
          let s := _execute_drag start_x start_y vm_x vm_y s in
          let w := set_drag_mode_active false (win s) in
          Some (with_win (set_drag_start_point None w) s)
      end
    else Some (_execute_click vm_x vm_y s)
  else Some s.

(** The same branch for the right button. *)
Definition right_click (pos : Z * Z) (s : system) : system :=
  if _is_on_vm (win s) pos && negb (is_busy (win s)) && negb (show_overlay (win s))
  then
    if drag_mode_active (win s) then
      let w := set_drag_mode_active false (win s) in
      let w := set_drag_start_point None w in
      with_win (set_status_message "Drag cancelled" w) s
    else
      let '(vm_x, vm_y) := _screen_to_vm (win s) (fst pos) (snd pos) in
      _execute_right_click vm_x vm_y s
  else s.

(** The [MOUSEBUTTONDOWN] branch of the main loop. *)
Definition mouse_down (button : Z) (pos : Z * Z) (s : system) : option system :=
  if button =? 1 then left_click pos s
  else if button =? 3 then Some (right_click pos s)
  else Some s.

(** *** What is drawn *)

(** A rectangle as [pygame.draw.rect] takes it: left, top, width and
    height. *)
Definition rect : Type := (Z * Z * Z * Z)%type.

(** The pixels that a filled rectangle covers. *)
Definition covers (r : rect) (pos : Z * Z) : bool :=
  let '(x, y, w, h) := r in
  let '(px, py) := pos in
  (x <=? px) && (px <? x + w) && (y <=? py) && (py <? y + h).

(** The controls of the overlay. *)
Inductive control : Type :=
| TypeCard | TypeGo | HotkeyCard | HotkeyGo | KeyCard | KeyGo
| SleepCard | SleepGo
| ScrollUp | ScrollDown | RefreshButton | DragButton | FinishButton.

(** [_draw_section_card]: the rectangle of the card and, drawn over it,
    the rectangle of its Go button (the indicator strip and the texts are
    left out). *)
Definition _draw_section_card (x y w h : Z) (card go : control)
  : list (control * rect) :=
  let btn_x := x + w - 65 in
  let btn_y := y + 10 in
  let btn_w := 55 in
  let btn_h := h - 20 in
  [(card, (x, y, w, h)); (go, (btn_x, btn_y, btn_w, btn_h))].

(** [_draw_modern_button]: the rectangle of the button. *)
Definition _draw_modern_button (x y w h : Z) (button : control)
  : list (control * rect) :=
  [(button, (x, y, w, h))].

(** [_draw_overlay]: the rectangles of the cards and the buttons, in the
    order in which they are drawn (the background, the panel with its
    shadow and header, the texts, the colours and the indexing of the
    presets by the selections are left out). *)
Definition _draw_overlay (w : window) : list (control * rect) :=
  if negb (show_overlay w) then []
  else
    let panel_w := 520 in
    let panel_h := 580 in
    let panel_x := (window_width (geom w) - panel_w) / 2 in
    let panel_y := (window_height (geom w) - panel_h) / 2 in
    let header_h := 70 in
    let y := panel_y + header_h + 45 in
    let section_padding := 25 in
    let row_height := 50 in
    let type_card :=
      _draw_section_card (panel_x + section_padding) y
        (panel_w - section_padding * 2) row_height TypeCard TypeGo in
    let y := y + (row_height + 12) in
    let hotkey_card :=
      _draw_section_card (panel_x + section_padding) y
        (panel_w - section_padding * 2) row_height HotkeyCard HotkeyGo in
    let y := y + (row_height + 12) in
    let key_card :=
      _draw_section_card (panel_x + section_padding) y
        (panel_w - section_padding * 2) row_height KeyCard KeyGo in
    let y := y + (row_height + 12) in
    let sleep_card :=
      _draw_section_card (panel_x + section_padding) y
        (panel_w - section_padding * 2) row_height SleepCard SleepGo in
    let y := y + (row_height + 20) in
    let btn_w := 140 in
    let btn_h := 38 in
    let btn_gap := 15 in
    let btn_start_x := panel_x + section_padding in
    let scroll_up := _draw_modern_button btn_start_x y btn_w btn_h ScrollUp in
    let scroll_down :=
      _draw_modern_button (btn_start_x + btn_w + btn_gap) y btn_w btn_h
        ScrollDown in
    let refresh :=
      _draw_modern_button (btn_start_x + (btn_w + btn_gap) * 2) y btn_w btn_h
        RefreshButton in
    let y := y + (btn_h + 12) in
    let drag :=
      _draw_modern_button btn_start_x y (btn_w * 2 + btn_gap) btn_h DragButton in
    let y := y + (btn_h + 20) in
    let finish_w := panel_w - section_padding * 2 in
    let finish :=
      _draw_modern_button (panel_x + section_padding) y finish_w 45
        FinishButton in
    type_card ++ hotkey_card ++ key_card ++ sleep_card
    ++ scroll_up ++ scroll_down ++ refresh ++ drag ++ finish.

(** [_draw_picker_popup]: the rectangles of the items, in order. *)
Definition _draw_picker_popup (w : window) (p : picker) : list rect :=
  let cols := picker_cols p in
  let item_w := 110 in
  let item_h := 36 in
  let gap := 8 in
  let rows := (Z.of_nat (picker_items p) + cols - 1) / cols in
  let popup_w := cols * item_w + (cols - 1) * gap + 40 in
  let popup_h := rows * item_h + (rows - 1) * gap + 80 in
  let popup_x := (window_width (geom w) - popup_w) / 2 in
  let popup_y := (window_height (geom w) - popup_h) / 2 in
  let start_x := popup_x + 20 in
  let start_y := popup_y + 60 in
  map (fun i =>
         let row := Z.of_nat i / cols in
         let col := Z.of_nat i mod cols in
         let item_x := start_x + col * (item_w + gap) in
         let item_y := start_y + row * (item_h + gap) in
         (item_x, item_y, item_w, item_h))
      (seq 0 (picker_items p)).

(** *** The main loop *)

(** What the main loop takes in: an event of the queue ([QUIT],
    [KEYDOWN], [MOUSEBUTTONDOWN]) or the pan update at the end of a pass
    and, between two statements of the loop, the run of the [n]-th live
    thread. *)
Inductive input : Type :=
| OnQuit
| OnKey (e : key_event)
| OnMouse (button : Z) (pos : Z * Z)
| EndOfPass (mouse_pos : Z * Z)
| ThreadRuns (n : nat) (env : environment).

(** One input handled; [None] when the handler raises. *)
Definition handle (i : input) (s : system) : option system :=
  match i with
  | OnQuit => Some (with_win (set_is_running false (win s)) s)
  | OnKey e => Some (keydown e s)
  | OnMouse button pos => mouse_down button pos s
  | EndOfPass mouse_pos => Some (with_win (pan mouse_pos (win s)) s)
  | ThreadRuns n env => Some (react (Run n env) s)
  end.

(** The inputs of a session, handled in order.  The test of
    [is_running] at the head of the loop is left out, so that the runs
    of the program are among the runs of this function. *)
Fixpoint main_loop (inputs : list input) (s : system) : option system :=
  match inputs with
  | [] => Some s
  | i :: rest =>
      match handle i s with
      | Some s' => main_loop rest s'
      | None => None
      end
  end.

(** *** The finish and the recorder *)

(** What [finish] reads of the recorder, in the order of its calls: the
    trajectory for [save_trajectory], the cells of the notebook for
    [generate_colab_notebook], the summary that the log prints. *)
Record finished : Type := {
  trajectory_file_written : string * string;
  cells_written : option (list Json.value);
  summary_logged : TrajectoryManager.summary
}.

(** The thread of [finish] beside the main loop and the other threads.
    They handle [until_start] before its first call, [during_evaluation]
    between [save_trajectory] and [generate_colab_notebook] (while
    [run_evaluation] and [save_evaluation_score] run) and [during_stop]
    between [generate_colab_notebook] and [get_summary] (while
    [stop_recording] runs); [now_iso] is the time of the notebook. *)
Definition finish_reads (now_iso : string)
           (until_start during_evaluation during_stop : list input)
           (s : system) : option finished :=
  match main_loop until_start s with
  | None => None
  | Some s1 =>
      let file := TrajectoryManager.save_trajectory (recorder s1) in
      match main_loop during_evaluation s1 with
      | None => None
      | Some s2 =>
          let cells := TrajectoryManager.notebook_cells now_iso (recorder s2) in
          match main_loop during_stop s2 with
          | None => None
          | Some s3 =>
              Some {| trajectory_file_written := file;
                      cells_written := cells;
                      summary_logged :=
                        TrajectoryManager.get_summary (recorder s3) |}
          end
      end
  end.

End ViewPortWindow.

(** ** Reading a Python string literal back

    The specification speaks of re-parsing the quoted literal of a generated
    command.  This is Python's reading of a string literal that opens with a
    single quote, after the lexical rules of the language: a backslash
    takes the next character with it, the quote closes the literal, and a
    line break or a null character inside it is an error.  Numeric and
    named escapes are left out: a literal with one of them is not read. *)

Module PyLiteral.

(** The character a one-letter escape stands for. *)
Definition simple_escape (d : ascii) : option ascii :=
  if Ascii.eqb d Py.backslash then Some Py.backslash
  else if Ascii.eqb d Py.squote then Some Py.squote
  else if Ascii.eqb d Py.dquote then Some Py.dquote
  else if Ascii.eqb d "a" then Some (ascii_of_nat 7)
  else if Ascii.eqb d "b" then Some (ascii_of_nat 8)
  else if Ascii.eqb d "f" then Some (ascii_of_nat 12)
  else if Ascii.eqb d "n" then Some Py.LF
  else if Ascii.eqb d "r" then Some Py.CR
  else if Ascii.eqb d "t" then Some (ascii_of_nat 9)
  else if Ascii.eqb d "v" then Some (ascii_of_nat 11)
  else None.

(** Escapes that take digits or a name. *)
Definition long_escape (d : ascii) : bool :=
  let n := nat_of_ascii d in
  ((48 <=? n)%nat && (n <=? 55)%nat)
  || Ascii.eqb d "x" || Ascii.eqb d "N" || Ascii.eqb d "u" || Ascii.eqb d "U".

Definition forbidden (c : ascii) : bool :=
  Ascii.eqb c Py.LF || Ascii.eqb c Py.CR || Ascii.eqb c Py.NUL.

Definition cons_text (c : ascii) (r : option (string * string))
  : option (string * string) :=
  match r with
  | Some (text, rest) => Some (String c text, rest)
  | None => None
  end.

(** The text of the literal whose opening quote has been consumed, and
    what follows its closing quote. *)
Fixpoint parse_body (s : string) : option (string * string) :=
  match s with
  | EmptyString => None
  | String c rest =>
      if Ascii.eqb c Py.squote then Some (EmptyString, rest)
      else if forbidden c then None
      else if Ascii.eqb c Py.backslash then
        match rest with
        | EmptyString => None
        | String d rest' =>
            match simple_escape d with
            | Some x => cons_text x (parse_body rest')
            | None =>
                if Ascii.eqb d Py.NUL then None
                else if Ascii.eqb d Py.LF then parse_body rest'
                else if long_escape d then None
                else cons_text Py.backslash (cons_text d (parse_body rest'))
            end
        end
      else cons_text c (parse_body rest)
  end.

(** A literal at the head of [s]. *)
Definition parse_literal (s : string) : option (string * string) :=
  match s with
  | String c rest => if Ascii.eqb c Py.squote then parse_body rest else None
  | EmptyString => None
  end.

(** The text after the first opening parenthesis of a command. *)
Fixpoint arguments (command : string) : string :=
  match command with
  | EmptyString => EmptyString
  | String c rest => if Ascii.eqb c "(" then rest else arguments rest
  end.

(** The first argument of a command, read as a literal. *)
Definition first_literal (command : string) : option string :=
  match parse_literal (arguments command) with
  | Some (text, _) => Some text
  | None => None
  end.

(** A payload that a literal can hold at all. *)
Fixpoint representable (text : string) : bool :=
  match text with
  | EmptyString => true
  | String c rest => negb (forbidden c) && representable rest
  end.

End PyLiteral.

(** ** Vocabulary of the statements *)

Module Spec.

Import ViewPortWindow.

(** Character-wise rewriting of a string. *)
Fixpoint flat (f : ascii -> string) (s : string) : string :=
  match s with
  | EmptyString => EmptyString
  | String c rest => f c ++ flat f rest
  end.

(** Replacement of one character by a string. *)
Definition subst (c : ascii) (new : string) (x : ascii) : string :=
  if Ascii.eqb x c then new else Py.chr x.

(** A backslash before each backslash, single quote and double quote. *)
Definition backslash_char (x : ascii) : string :=
  if Ascii.eqb x Py.backslash || Ascii.eqb x Py.squote || Ascii.eqb x Py.dquote
  then String Py.backslash (Py.chr x)
  else Py.chr x.

(** The payload [it's "done"] of the specification. *)
Definition its_done : string :=
  "it's " ++ String Py.dquote ("done" ++ Py.chr Py.dquote).

(** The same payload with its three quotes escaped. *)
Definition its_done_escaped : string :=
  "it" ++ String Py.backslash ("'s " ++ String Py.backslash (String Py.dquote
    ("done" ++ String Py.backslash (Py.chr Py.dquote)))).

(** An intent carried out from its submission to the return of the thread
    it starts, the world answering with [env]. *)
Definition perform (i : intent) (env : environment) (s : system) : system :=
  exec [Submit i; Run (List.length (threads s)) env] s.

(** The state in which [_execute_action] and its siblings leave the
    window when they accept: busy, with a status line. *)
Definition accepted (status : string) (s : system) : system :=
  with_win (set_status_message status (set_is_busy true (win s))) s.

(** The actions recorded so far, by their command text. *)
Definition recorded (s : system) : list string :=
  map TrajectoryManager.action (TrajectoryManager.trajectory (recorder s)).

(** The command text that calling a closure hands to the controller. *)
Definition sent_text (execute_fn : closure) : string :=
  VMInterface.command (call execute_fn VMInterface.NoResponse).

(** A command as a sequence of calls into the module named [m]. *)
Definition calls_into (m : string) (calls : list string) : string :=
  Py.join "; " (map (fun c => m ++ "." ++ c) calls).

(** An execution that reported success: a command the controller took
    without an error, or a delay. *)
Definition reported_success (e : effect) : bool :=
  match e with
  | Sent text r => VMInterface.success (VMInterface._execute_command text r)
  | Slept _ => true
  end.

Definition successes (l : list effect) : nat :=
  List.length (filter reported_success l).

(** Threads that were started behind the [is_busy] test. *)
Definition gated (t : thread) : bool :=
  match t with
  | ActionThread _ _ _ _ | SleepThread _ | RefreshThread => true
  | FinishThread => false
  end.

(** Threads that carry out an action. *)
Definition acting (t : thread) : bool :=
  match t with
  | ActionThread _ _ _ _ | SleepThread _ => true
  | RefreshThread | FinishThread => false
  end.

Definition in_flight (f : thread -> bool) (s : system) : nat :=
  List.length (filter f (threads s)).

(** Single flight: at most one thread that was started behind the
    [is_busy] test is alive, and while one is, [is_busy] holds. *)
Definition single_flight (s : system) : Prop :=
  (in_flight gated s <= 1)%nat
  /\ (in_flight gated s = 1%nat -> is_busy (win s) = true).

(** Every step on record stands for one execution that reported success,
    and the step counter is the number of steps. *)
Definition steps_match (s : system) : Prop :=
  List.length (TrajectoryManager.trajectory (recorder s)) = successes (effects s)
  /\ TrajectoryManager.step_count (recorder s)
     = Z.of_nat (List.length (TrajectoryManager.trajectory (recorder s))).

(** What the main loop can do to the threads and to [is_busy]: nothing,
    or start one thread and raise the flag. *)
Inductive dispatch (s s' : system) : Prop :=
| dispatch_none :
    threads s' = threads s -> is_busy (win s') = is_busy (win s) ->
    dispatch s s'
| dispatch_gated (t : thread) :
    is_busy (win s) = false -> gated t = true ->
    threads s' = (threads s ++ [t])%list -> is_busy (win s') = true ->
    dispatch s s'
| dispatch_finish :
    threads s' = (threads s ++ [FinishThread])%list -> is_busy (win s') = true ->
    dispatch s s'.

(** The part of the state that only threads write. *)
Definition same_record (s s' : system) : Prop :=
  recorder s' = recorder s /\ effects s' = effects s /\ adapter s' = adapter s.

(** An observation that does not carry a frame. *)
Definition frameless (o : VMInterface.observation) : Prop :=
  forall img, o <> VMInterface.ObsFrame img.

(** A frame has been fetched at some time: it is in the cache. *)
Definition has_cached (st : VMInterface.state) : Prop :=
  VMInterface._last_screenshot st <> None.

(** The cells of the transcript after the metadata cell. *)
Definition body_cells (tm : TrajectoryManager.state) : list Json.value :=
  TrajectoryManager._create_markdown_cell
    ("## Task Instruction" ++ TrajectoryManager.nl ++ TrajectoryManager.nl
     ++ TrajectoryManager.instruction tm)
  :: flat_map TrajectoryManager.step_cells (TrajectoryManager.trajectory tm).

(** The bounds of the viewport offset. *)
Definition viewport_in_bounds (w : window) : Prop :=
  let g := geom w in
  0 <= viewport_x w <= Z.max 0 (vm_width g - window_width g)
  /\ 0 <= viewport_y w <= Z.max 0 (vm_height g - available_height g).

Definition inside_canvas (w : window) (x y : Z) : Prop :=
  0 <= x < vm_width (geom w) /\ 0 <= y < vm_height (geom w).

Definition visible (w : window) (x y : Z) : Prop :=
  let g := geom w in
  viewport_x w <= x < viewport_x w + window_width g
  /\ viewport_y w <= y < viewport_y w + available_height g.

(** A sequence of pan updates. *)
Definition pans (positions : list (Z * Z)) (w : window) : window :=
  fold_left (fun w p => _update_viewport p w) positions w.

(** A world in which everything works: the controller answers without an
    error and every observation carries the frame [img]. *)
Definition fair (img : VMInterface.image) : environment :=
  {| image_saved := true;
     answer := VMInterface.Response None;
     observations := fun _ => VMInterface.ObsFrame img;
     display_raises := None;
     clock := "1700000000.0";
     score := "1.0" |}.

(** A world in which the controller rejects the command. *)
Definition rejecting (message : string) : environment :=
  {| image_saved := true;
     answer := VMInterface.Response (Some message);
     observations := fun _ => VMInterface.ObsAbsent;
     display_raises := None;
     clock := "1700000000.0";
     score := "0.0" |}.

(** A recording of a full-HD desktop on a smaller display, after the
    first refresh has completed. *)
Definition desk : system :=
  exec [Run 0 (fair "frame0")]
    (start true
       (created (1920, 1080) (1280, 720) (1280, 720) "SFT/gimp/task"
          [("id", Json.Str "task"); ("related_apps", Json.Arr [Json.Str "gimp"])]
          "Crop the image")).

(** ** Vocabulary of the further statements *)

(** Holding the cursor at one position for [n] frames. *)
Definition hold (p : Z * Z) (n : nat) (w : window) : window :=
  pans (repeat p n) w.

(** [n] presses of the escape key. *)
Fixpoint escapes (n : nat) (w : window) : window :=
  match n with
  | O => w
  | S k => escapes k (on_escape w)
  end.

(** Nothing is open: no picker, no overlay, no drag. *)
Definition plain (w : window) : Prop :=
  picker_active w = None /\ show_overlay w = false /\ drag_mode_active w = false.

(** The key event of a printable character: the space bar has a key code
    of its own, every other character is told by [unicode] alone. *)
Definition char_key (c : ascii) : key_event :=
  {| key := if Ascii.eqb c " " then K_SPACE else K_OTHER; unicode := Py.chr c |}.

Definition press (k : keycode) : key_event :=
  {| key := k; unicode := EmptyString |}.

(** The key events of typing a text, character by character. *)
Fixpoint typing (text : string) : list event :=
  match text with
  | EmptyString => []
  | String c rest => KeyDown (char_key c) :: typing rest
  end.

(** Text entry is on. *)
Definition entering (w : window) : Prop :=
  show_overlay w = true /\ overlay_type_active w = true.

(** A step of the main loop that starts no thread and leaves [is_busy]
    and everything that only threads write as they are. *)
Definition quiet (s s' : system) : Prop :=
  same_record s s' /\ threads s' = threads s
  /\ is_busy (win s') = is_busy (win s).

(** The selections of the three pickers are positions of their presets. *)
Definition selections_in_range (w : window) : Prop :=
  (overlay_selected_hotkey w < List.length HOTKEY_PRESETS)%nat
  /\ (overlay_selected_key w < List.length SPECIAL_KEYS)%nat
  /\ (overlay_selected_sleep w < List.length SLEEP_PRESETS)%nat.

(** The window is busy although no thread that would clear the flag is
    alive. *)
Definition wedged (s : system) : Prop :=
  is_busy (win s) = true /\ in_flight gated s = 0%nat.

(** A step of the main loop: it writes neither the recorder nor the
    world, and it starts at most one thread. *)
Definition main_step (s s' : system) : Prop :=
  same_record s s' /\ dispatch s s'.

Definition selections (w : window) : nat * nat * nat :=
  (overlay_selected_hotkey w, overlay_selected_key w, overlay_selected_sleep w).

(** The intents a window in state [w] can submit: clicks at a position
    of the view, the text of the entry, a preset, a scroll by three
    clicks, a drag from the stored start point. *)
Definition offered (w : window) (i : intent) : Prop :=
  match i with
  | DoClick x y | DoRightClick x y =>
      exists screen_x screen_y, _screen_to_vm w screen_x screen_y = (x, y)
  | DoType text => text = overlay_type_text w /\ text <> EmptyString
  | DoHotkey hotkey => In hotkey HOTKEY_PRESETS
  | DoKey key => In key SPECIAL_KEYS
  | DoScroll clicks => clicks = 3 \/ clicks = -3
  | DoDrag start_x start_y end_x end_y =>
      drag_start_point w = Some (start_x, start_y)
      /\ exists screen_x screen_y, _screen_to_vm w screen_x screen_y = (end_x, end_y)
  | DoSleep seconds => In seconds SLEEP_PRESETS
  end.

(** The assignments to the fields of the window that the handlers of the
    main loop make themselves. *)
Inductive assigns (w : window) : window -> Prop :=
| assign_is_running : assigns w (set_is_running false w)
| assign_show_overlay (b : bool) : assigns w (set_show_overlay b w)
| assign_type_active (b : bool) : assigns w (set_overlay_type_active b w)
| assign_picker (p : option picker) : assigns w (set_picker_active p w)
| assign_text_empty : assigns w (set_overlay_type_text EmptyString w)
| assign_text_more (u : string) :
    Py.isprintable u = true ->
    assigns w (set_overlay_type_text (overlay_type_text w ++ u) w)
| assign_text_less :
    assigns w (set_overlay_type_text (Py.drop_last (overlay_type_text w)) w)
| assign_selection (p : picker) (i : nat) :
    (i < picker_items p)%nat -> assigns w (select p i w)
| assign_drag_mode (b : bool) : assigns w (set_drag_mode_active b w)
| assign_drag_start_none : assigns w (set_drag_start_point None w)
| assign_drag_start (screen_x screen_y : Z) :
    assigns w (set_drag_start_point (Some (_screen_to_vm w screen_x screen_y)) w)
| assign_status (message : string) : assigns w (set_status_message message w)
| assign_viewport (mouse_pos : Z * Z) : assigns w (_update_viewport mouse_pos w).

(** The steps a session is made of. *)
Inductive step (s : system) : system -> Prop :=
| step_assign (w : window) : assigns (win s) w -> step s (with_win w s)
| step_submit (i : intent) : offered (win s) i -> step s (submit i s)
| step_refresh : step s (_refresh_screenshot s)
| step_finish : step s (_on_finish s)
| step_run (n : nat) (env : environment) : step s (react (Run n env) s).

Inductive steps (s : system) : system -> Prop :=
| steps_none : steps s s
| steps_more (s1 s2 : system) : steps s s1 -> step s1 s2 -> steps s s2.

(** The part of the window that tells where the view is. *)
Definition same_view (w w' : window) : Prop :=
  geom w' = geom w /\ viewport_x w' = viewport_x w /\ viewport_y w' = viewport_y w.

(** The part of the window that the operator edits: the selections, the
    text entry, the picker and the drag mode. *)
Definition same_entry (w w' : window) : Prop :=
  selections w' = selections w
  /\ overlay_type_text w' = overlay_type_text w
  /\ overlay_type_active w' = overlay_type_active w
  /\ picker_active w' = picker_active w
  /\ drag_mode_active w' = drag_mode_active w
  /\ drag_start_point w' = drag_start_point w
  /\ instruction w' = instruction w.

(** The drag start point, when there is one, is a point of the canvas. *)
Definition drag_start_on_canvas (w : window) : Prop :=
  forall x y, drag_start_point w = Some (x, y) -> inside_canvas w x y.

(** What the handlers keep true of the window. *)
Definition tidy (w : window) : Prop :=
  selections_in_range w
  /\ Py.isprintable (overlay_type_text w) = true
  /\ viewport_in_bounds w.

(** A window as [__init__] leaves it, with its collaborators. *)
Definition blank : system :=
  created (0, 0) (0, 0) (0, 0) EmptyString [] EmptyString.

(** The thread that a window which is not busy starts for an intent, if
    it starts one. *)
Definition thread_for (i : intent) : option thread :=
  hd_error (threads (submit i blank)).

(** Intents that stay within the remote screen, the printable characters
    and the presets. *)
Definition sound (g : geometry) (i : intent) : Prop :=
  match i with
  | DoClick x y | DoRightClick x y =>
      0 <= x < vm_width g /\ 0 <= y < vm_height g
  | DoType text => Py.isprintable text = true /\ text <> EmptyString
  | DoHotkey hotkey => In hotkey HOTKEY_PRESETS
  | DoKey key => In key SPECIAL_KEYS
  | DoScroll clicks => clicks = 3 \/ clicks = -3
  | DoDrag start_x start_y end_x end_y =>
      (0 <= start_x < vm_width g /\ 0 <= start_y < vm_height g)
      /\ (0 <= end_x < vm_width g /\ 0 <= end_y < vm_height g)
  | DoSleep seconds => In seconds SLEEP_PRESETS
  end.

(** An execution: an intent whose thread ran, and what the controller
    answered. *)
Definition execution : Type := (intent * VMInterface.reply)%type.

(** What an execution does to the world. *)
Definition effect_of (x : execution) : list effect :=
  match thread_for (fst x) with
  | Some (ActionThread _ execute_fn _ _) => [Sent (sent_text execute_fn) (snd x)]
  | Some (SleepThread seconds) => [Slept seconds]
  | _ => []
  end.

Definition succeeded (x : execution) : bool :=
  match effect_of x with
  | [e] => reported_success e
  | _ => false
  end.

(** The entry of the trajectory that records an intent: the text, the
    kind and the details are those the window built for it. *)
Definition recorded_as (i : intent) (entry : TrajectoryManager.step) : Prop :=
  match thread_for i with
  | Some (ActionThread action_type _ pg_command details) =>
      TrajectoryManager.action entry = pg_command
      /\ TrajectoryManager.action_type entry = action_type
      /\ TrajectoryManager.action_details entry = Some details
  | Some (SleepThread seconds) =>
      TrajectoryManager.action entry = "pg.sleep(" ++ Py.str_num seconds ++ ")"
      /\ TrajectoryManager.action_type entry = "sleep"
      /\ TrajectoryManager.action_details entry
         = Some (TrajectoryManager.Seconds seconds)
  | _ => False
  end.

(** A list of executions that explains what a session did. *)
Definition explained (done : list execution) (s : system) : Prop :=
  Forall (fun x => sound (geom (win s)) (fst x)) done
  /\ effects s = flat_map effect_of done
  /\ Forall2 recorded_as (map fst (filter succeeded done))
       (TrajectoryManager.trajectory (recorder s)).

(** The threads that are alive were started for sound intents. *)
Definition threads_sound (s : system) : Prop :=
  Forall (fun t => acting t = true ->
                   exists i, sound (geom (win s)) i /\ thread_for i = Some t)
         (threads s).

(** What every session keeps true. *)
Definition well_run (s : system) : Prop :=
  tidy (win s) /\ drag_start_on_canvas (win s) /\ threads_sound s
  /\ exists done, explained done s.

(** The calls the window makes for sound intents: positions of the
    remote screen, printable text, the keys of a preset, a special key,
    three clicks of the wheel, a drag of half a second. *)
Definition whitelisted (g : geometry) (execute_fn : closure) : Prop :=
  match execute_fn with
  | CallClick x y | CallRightClick x y =>
      0 <= x < vm_width g /\ 0 <= y < vm_height g
  | CallTypewrite text => Py.isprintable text = true /\ text <> EmptyString
  | CallHotkey keys =>
      keys <> [] /\ exists hotkey,
        In hotkey HOTKEY_PRESETS /\ hotkey_keys HOTKEY_MAP hotkey = keys
  | CallPress key => In key SPECIAL_KEYS
  | CallScroll clicks => clicks = 3 \/ clicks = -3
  | CallDrag start_x start_y end_x end_y duration =>
      (0 <= start_x < vm_width g /\ 0 <= start_y < vm_height g)
      /\ (0 <= end_x < vm_width g /\ 0 <= end_y < vm_height g)
      /\ duration = Py.half
  end.

(** The entries of a trajectory are numbered from 0 in order, carry the
    instruction of the task, and name no screenshot or the file of their
    own number. *)
Definition numbered (tm : TrajectoryManager.state) : Prop :=
  forall k entry,
    nth_error (TrajectoryManager.trajectory tm) k = Some entry ->
    TrajectoryManager.step_index entry = Z.of_nat k
    /\ TrajectoryManager.step_instruction entry = TrajectoryManager.instruction tm
    /\ (TrajectoryManager.screenshot entry = EmptyString
        \/ TrajectoryManager.screenshot entry
           = TrajectoryManager.path_join (TrajectoryManager.trajectory_dir tm)
               ("step_" ++ Py.str_int (Z.of_nat k) ++ "_before.png")).

(** A world in which a frame arrives but cannot be displayed. *)
Definition broken_display (img : VMInterface.image) (message : string)
  : environment :=
  {| image_saved := true;
     answer := VMInterface.Response None;
     observations := fun _ => VMInterface.ObsFrame img;
     display_raises := Some message;
     clock := "1700000000.0";
     score := "0.0" |}.

(** The [source] entry of a notebook cell: its lines. *)
Definition cell_source (cell : Json.value) : list string :=
  match cell with
  | Json.Obj members =>
      match Json.get "source" members with
      | Some (Json.Arr lines) =>
          flat_map (fun v => match v with Json.Str line => [line] | _ => [] end)
                   lines
      | _ => []
      end
  | _ => []
  end.

(** A JSON value whose numbers are printed without a line feed. *)
Fixpoint one_line (text : string) : bool :=
  match text with
  | EmptyString => true
  | String c rest => negb (Ascii.eqb c Py.LF) && one_line rest
  end.

(** The entries whose time stamp and delay are printed on one line, as
    Python prints every [float]. *)
Definition plain_numbers (entry : TrajectoryManager.step) : Prop :=
  one_line (TrajectoryManager.timestamp entry) = true
  /\ forall r,
       TrajectoryManager.action_details entry
       = Some (TrajectoryManager.Seconds (Py.Float r)) ->
       one_line r = true.

(** What a control of the overlay is there for. *)
Definition reaction (c : control) (s : system) : option system :=
  let s := with_win (set_overlay_type_active false (win s)) s in
  match c with
  | TypeCard => Some (with_win (set_overlay_type_active true (win s)) s)
  | TypeGo =>
      if Py.truthy (overlay_type_text (win s)) then
        let s := _execute_type (overlay_type_text (win s)) s in
        Some (with_win (set_overlay_type_text EmptyString (win s)) s)
      else Some s
  | HotkeyCard => Some (with_win (set_picker_active (Some PickHotkey) (win s)) s)
  | HotkeyGo =>
      option_map (fun preset => _execute_hotkey preset s)
                 (nth_error HOTKEY_PRESETS (overlay_selected_hotkey (win s)))
  | KeyCard => Some (with_win (set_picker_active (Some PickKey) (win s)) s)
  | KeyGo =>
      option_map (fun preset => _execute_key preset s)
                 (nth_error SPECIAL_KEYS (overlay_selected_key (win s)))
  | SleepCard => Some (with_win (set_picker_active (Some PickSleep) (win s)) s)
  | SleepGo =>
      option_map (fun preset => _execute_sleep preset s)
                 (nth_error SLEEP_PRESETS (overlay_selected_sleep (win s)))
  | ScrollUp => Some (_execute_scroll 3 s)
  | ScrollDown => Some (_execute_scroll (-3) s)
  | RefreshButton => Some (_refresh_screenshot s)
  | DragButton =>
      if drag_mode_active (win s) then
        let w := set_drag_mode_active false (win s) in
        let w := set_drag_start_point None w in
        Some (with_win (set_status_message "Drag cancelled" w) s)
      else
        let w := set_drag_mode_active true (win s) in
        let w := set_drag_start_point None w in
        let w := set_status_message "Click start point on VM" w in
        Some (with_win (set_show_overlay false w) s)
  | FinishButton => Some (_on_finish s)
  end.

(** The cards, as opposed to the buttons. *)
Definition is_card (c : control) : bool :=
  match c with
  | TypeCard | HotkeyCard | KeyCard | SleepCard => true
  | _ => false
  end.

(** A rectangle with one more column at its right and one more row
    below. *)
Definition grown (r : rect) : rect :=
  let '(x, y, w, h) := r in (x, y, w + 1, h + 1).

(** The sentence that tells an intent in the transcript. *)
Definition narration (i : intent) : string :=
  match i with
  | DoClick x y =>
      "I'll click at position (" ++ Py.str_int x ++ ", " ++ Py.str_int y
      ++ ") to interact with the element at that location."
  | DoRightClick x y =>
      "I'll right-click at position (" ++ Py.str_int x ++ ", " ++ Py.str_int y
      ++ ") to open the context menu."
  | DoType text => "I'll type '" ++ text ++ "' to enter the required text."
  | DoHotkey hotkey =>
      "I'll press " ++ Py.join "+" (hotkey_keys HOTKEY_MAP hotkey)
      ++ " to execute this keyboard shortcut."
  | DoKey key => "I'll press the " ++ key ++ " key."
  | DoScroll clicks =>
      "I'll scroll " ++ (if 0 <? clicks then "up" else "down")
      ++ " to navigate the content."
  | DoDrag _ _ _ _ =>
      "I'll drag from the starting position to the ending position."
  | DoSleep _ => "I'll perform this action to progress with the task."
  end.

(** ** Reading the transcript back *)

(** The value of a hexadecimal digit as [json.dumps] writes it. *)
Definition hex_value (c : ascii) : option nat :=
  let n := nat_of_ascii c in
  if ((48 <=? n) && (n <=? 57))%nat then Some (n - 48)%nat
  else if ((97 <=? n) && (n <=? 102))%nat then Some (n - 87)%nat
  else None.

(** The first character that the inside of a JSON string literal stands
    for, with the rest of the text: a backslash takes its escape with it,
    the quote that closes the literal stands for nothing. *)
Definition unescape_char (s : string) : option (ascii * string) :=
  match s with
  | EmptyString => None
  | String c rest =>
      if Ascii.eqb c Py.dquote then None
      else if Ascii.eqb c Py.backslash then
        match rest with
        | String e rest =>
            if Ascii.eqb e Py.backslash then Some (Py.backslash, rest)
            else if Ascii.eqb e Py.dquote then Some (Py.dquote, rest)
            else if Ascii.eqb e "b" then Some ("008"%char, rest)
            else if Ascii.eqb e "f" then Some ("012"%char, rest)
            else if Ascii.eqb e "n" then Some (Py.LF, rest)
            else if Ascii.eqb e "r" then Some (Py.CR, rest)
            else if Ascii.eqb e "t" then Some ("009"%char, rest)
            else if Ascii.eqb e "u" then
              match rest with
              | String "0" (String "0" (String h (String l rest))) =>
                  match hex_value h, hex_value l with
                  | Some high, Some low =>
                      Some (ascii_of_nat (16 * high + low), rest)
                  | _, _ => None
                  end
              | _ => None
              end
            else None
        | EmptyString => None
        end
      else Some (c, rest)
  end.

(** ** Executions that report success *)

(** The execution of a thread reports success: the call of an action
    thread returns a result whose [success] entry is true, and a delay
    returns, as [time.sleep] does for each of the delays the window
    offers.  This is told from the thread and from what the world answers
    it, not from what the thread does afterwards. *)
Definition reports_success (t : thread) (env : environment) : bool :=
  match t with
  | ActionThread _ execute_fn _ _ =>
      VMInterface.success (call execute_fn (answer env))
  | SleepThread _ => true
  | RefreshThread | FinishThread => false
  end.

(** What the run of the [n]-th live thread adds to the number of
    executions that reported success. *)
Definition reported (n : nat) (env : environment) (s : system) : nat :=
  match nth_error (threads s) n with
  | Some t => if reports_success t env then 1 else 0
  | None => 0
  end.

Definition reported_by (e : event) (s : system) : nat :=
  match e with
  | Run n env => reported n env s
  | _ => 0
  end.

(** The executions that reported success in the course of a run. *)
Fixpoint reported_successes (trace : list event) (s : system) : nat :=
  match trace with
  | [] => 0
  | e :: rest => reported_by e s + reported_successes rest (react e s)
  end.

(** The same count in the course of a session. *)
Fixpoint session_successes (inputs : list input) (s : system) : nat :=
  match inputs with
  | [] => 0
  | i :: rest =>
      match i with
      | ThreadRuns n env => reported n env s
      | _ => 0
      end
      + match handle i s with
        | Some s' => session_successes rest s'
        | None => 0
        end
  end.

(** An intent whose delay, if it is one, is among those the window
    offers. *)
Definition offered_delay (i : intent) : Prop :=
  match i with
  | DoSleep seconds => In seconds SLEEP_PRESETS
  | _ => True
  end.

(** A run whose delays are among those the window offers. *)
Definition offered_delays (trace : list event) : Prop :=
  forall i, In (Submit i) trace -> offered_delay i.

(** Intents carried out one after the other, each from its submission
    to the return of the thread it starts. *)
Definition carry_out (todo : list (intent * environment)) (s : system) : system :=
  fold_left (fun s x => perform (fst x) (snd x) s) todo s.

(** An intent that a window which is not busy accepts and whose
    execution reports success. *)
Definition succeeds (x : intent * environment) : bool :=
  match thread_for (fst x) with
  | Some t => reports_success t (snd x)
  | None => false
  end.

End Spec.

(** * Properties *)

Import ViewPortWindow Spec.

(** ** Strings *)

Section Strings.

Lemma append_assoc (a b c : string) : (a ++ b) ++ c = a ++ (b ++ c).
Proof. induction a as [|x a IH]; simpl; [reflexivity | now rewrite IH]. Qed.

Lemma append_nil_r (t : string) : (t ++ EmptyString)%string = t.
Proof. induction t as [|x t IH]; [reflexivity | cbn; now rewrite IH]. Qed.

Lemma flat_append (f : ascii -> string) (a b : string) :
  flat f (a ++ b) = flat f a ++ flat f b.
Proof.
  induction a as [|x a IH]; simpl; [reflexivity|].
  now rewrite IH, append_assoc.
Qed.

Lemma flat_flat (f g : ascii -> string) (s : string) :
  flat g (flat f s) = flat (fun x => flat g (f x)) s.
Proof.
  induction s as [|x s IH]; simpl; [reflexivity|].
  now rewrite flat_append, IH.
Qed.

Lemma flat_ext (f g : ascii -> string) (s : string) :
  (forall x, f x = g x) -> flat f s = flat g s.
Proof.
  intros E; induction s as [|x s IH]; simpl; [reflexivity|].
  now rewrite E, IH.
Qed.

(** Replacing a one-character pattern rewrites character by character. *)
Lemma replace_char (c : ascii) (new s : string) :
  Py.replace (Py.chr c) new s = flat (subst c new) s.
Proof.
  unfold Py.replace, Py.chr.
  induction s as [|x s IH]; [reflexivity|].
  cbn [Py.replace_from flat String.prefix String.length Nat.pred].
  unfold subst at 1.
  destruct (Ascii.eqb_spec x c) as [->|N].
  - destruct (ascii_dec c c) as [_|F]; [|now elim F].
    destruct s; cbn [String.prefix]; now rewrite IH.
  - destruct (ascii_dec c x) as [E|_]; [now elim N|].
    now rewrite IH.
Qed.

(** The three replacements of [execute_typewrite] together put one
    backslash before each backslash and each quote, and change nothing
    else. *)
Lemma typewrite_text (text : string) :
  sent_text (CallTypewrite text)
  = "pyautogui.typewrite('" ++ flat backslash_char text ++ "', interval=0.05)".
Proof.
  unfold sent_text. cbn [call VMInterface.execute_typewrite
                         VMInterface._execute_command VMInterface.command].
  do 2 f_equal. f_equal.
  rewrite !replace_char, (replace_char Py.squote), !flat_flat.
  apply flat_ext; intros x.
  destruct x as [[] [] [] [] [] [] [] []]; reflexivity.
Qed.

End Strings.

(** ** Reading the typed text back *)

Section Literals.

Lemma parse_body_escaped (text rest : string) :
  PyLiteral.representable text = true ->
  PyLiteral.parse_body (flat backslash_char text ++ String Py.squote rest)
  = Some (text, rest).
Proof.
  induction text as [|c text IH]; intros R.
  - reflexivity.
  - cbn [PyLiteral.representable] in R.
    apply andb_true_iff in R as [Rc Rt].
    specialize (IH Rt). unfold Py.squote in IH.
    cbn [flat]. rewrite append_assoc.
    destruct c as [[] [] [] [] [] [] [] []];
      try discriminate Rc;
      cbn -[PyLiteral.parse_body flat];
      cbn [PyLiteral.parse_body];
      cbv beta iota delta
        [Ascii.eqb PyLiteral.forbidden PyLiteral.simple_escape Bool.eqb
         Py.squote Py.backslash Py.dquote Py.LF Py.CR Py.NUL orb];
      rewrite IH; reflexivity.
Qed.

(** The literal of the command that [execute_typewrite] builds reads
    back as the text it was built from. *)
Lemma typewrite_literal (text : string) :
  PyLiteral.representable text = true ->
  PyLiteral.first_literal (sent_text (CallTypewrite text)) = Some text.
Proof.
  intros R. rewrite typewrite_text. unfold PyLiteral.first_literal.
  change (PyLiteral.parse_literal
            (PyLiteral.arguments
               ("pyautogui.typewrite('" ++ flat backslash_char text
                ++ "', interval=0.05)")))
    with (PyLiteral.parse_body
            (flat backslash_char text ++ String Py.squote ", interval=0.05)")).
  now rewrite parse_body_escaped.
Qed.

(** Text that consists of printable characters can be held by a
    literal. *)
Lemma printable_representable (text : string) :
  Py.isprintable text = true -> PyLiteral.representable text = true.
Proof.
  induction text as [|c text IH]; [reflexivity|].
  cbn [Py.isprintable PyLiteral.representable].
  intros P. apply andb_true_iff in P as [Pc Pt].
  rewrite (IH Pt), andb_true_r.
  destruct c as [[] [] [] [] [] [] [] []]; try reflexivity; discriminate Pc.
Qed.

End Literals.

(** ** Threads: from acceptance to return *)

Section Threads.

Lemma nth_error_snoc {A : Type} (l : list A) (t : A) :
  nth_error (l ++ [t])%list (List.length l) = Some t.
Proof. induction l as [|x l IH]; simpl; [reflexivity | exact IH]. Qed.

Lemma remove_nth_snoc {A : Type} (l : list A) (t : A) :
  remove_nth (List.length l) (l ++ [t])%list = l.
Proof. induction l as [|x l IH]; simpl; [reflexivity | now rewrite IH]. Qed.

Lemma snoc_not_same {A : Type} (l : list A) (t : A) : l <> (l ++ [t])%list.
Proof.
  intros E. apply (f_equal (@List.length A)) in E.
  rewrite length_app in E. simpl in E. lia.
Qed.

(** A thread started last runs on the state that acceptance left. *)
Lemma run_started (t : thread) (status : string) (env : environment) (s : system) :
  react (Run (List.length (threads s)) env) (start_thread t (accepted status s))
  = run t env (accepted status s).
Proof.
  unfold react. cbn [threads start_thread accepted with_threads with_win].
  now rewrite nth_error_snoc, remove_nth_snoc.
Qed.

Lemma execute_action_accepts ty f pg d (s : system) :
  is_busy (win s) = false ->
  _execute_action ty f pg d s
  = start_thread (ActionThread ty f pg d) (accepted "Executing..." s).
Proof. intros B. unfold _execute_action. now rewrite B. Qed.

Lemma execute_action_drops ty f pg d (s : system) :
  is_busy (win s) = true -> _execute_action ty f pg d s = s.
Proof. intros B. unfold _execute_action. now rewrite B. Qed.

(** What [submit] does when the window is not busy. *)
Lemma submit_idle (i : intent) (s : system) :
  is_busy (win s) = false ->
  submit i s = s
  \/ exists t status,
       acting t = true /\ submit i s = start_thread t (accepted status s).
Proof.
  intros B.
  destruct i; cbn [submit];
    unfold _execute_click, _execute_right_click, _execute_type, _execute_hotkey,
           _execute_key, _execute_scroll, _execute_drag, _execute_sleep;
    try (right; rewrite execute_action_accepts by exact B;
         eexists; eexists; split; [|reflexivity]; reflexivity).
  - destruct (hotkey_keys HOTKEY_MAP hotkey) as [|k ks]; [now left|].
    right; rewrite execute_action_accepts by exact B.
    eexists; eexists; split; [|reflexivity]; reflexivity.
  - right. rewrite B. eexists; eexists; split; [|reflexivity]; reflexivity.
Qed.

(** What [submit] does when the window is busy. *)
Lemma submit_busy (i : intent) (s : system) :
  is_busy (win s) = true -> submit i s = s.
Proof.
  intros B.
  destruct i; cbn [submit];
    unfold _execute_click, _execute_right_click, _execute_type, _execute_hotkey,
           _execute_key, _execute_scroll, _execute_drag, _execute_sleep;
    try (now apply execute_action_drops).
  - destruct (hotkey_keys HOTKEY_MAP hotkey); [reflexivity|].
    now apply execute_action_drops.
  - now rewrite B.
Qed.

Lemma perform_started (i : intent) (t : thread) (status : string)
      (env : environment) (s : system) :
  submit i s = start_thread t (accepted status s) ->
  perform i env s = run t env (accepted status s).
Proof.
  intros E. unfold perform, exec. cbn [fold_left].
  change (react (Submit i) s) with (submit i s).
  rewrite E. apply run_started.
Qed.

(** The refresh at the end of an action thread writes the cache of the
    adapter and the displayed frame, nothing else. *)
Lemma fetch_and_display_frame (env : environment) (s : system) :
  let s' := fst (fetch_and_display env s) in
  effects s' = effects s /\ recorder s' = recorder s /\ threads s' = threads s
  /\ ui_write (win s) (win s') = win s'
  /\ is_busy (win s') = is_busy (win s)
  /\ last_action (win s') = last_action (win s).
Proof.
  unfold fetch_and_display, fetch, _display_screenshot.
  destruct (VMInterface.get_screenshot_with_retry _ _ _) as [got vm].
  destruct (VMInterface.frame got) as [img|]; [destruct (display_raises env)|];
    cbn; destruct (win s); repeat split.
Qed.

End Threads.

(** ** What an action thread leaves behind *)

Section ActionThreads.

Variables (ty : string) (f : closure) (pg : string)
          (d : TrajectoryManager.details) (env : environment).

(** The result remembers the command that was handed over. *)
Lemma execute_command_text (cmd : string) (r : VMInterface.reply) :
  VMInterface.command (VMInterface._execute_command cmd r) = cmd.
Proof.
  unfold VMInterface._execute_command.
  destruct r as [m| |[e|]]; try reflexivity.
  destruct (Py.truthy e); reflexivity.
Qed.

(** Every closure hands one command text to [_execute_command]. *)
Lemma call_as_command (r : VMInterface.reply) :
  ViewPortWindow.call f r = VMInterface._execute_command (sent_text f) r.
Proof. destruct f; reflexivity. Qed.

Lemma sent_execute :
  VMInterface.command (ViewPortWindow.call f (answer env)) = sent_text f.
Proof. now rewrite call_as_command, execute_command_text. Qed.

(** The thread hands exactly one command to the controller. *)
Lemma run_action_effects (s : system) :
  effects (run (ActionThread ty f pg d) env s)
  = (effects s ++ [Sent (sent_text f) (answer env)])%list.
Proof.
  unfold run, except_finally, action_try.
  rewrite sent_execute.
  destruct (VMInterface.success (ViewPortWindow.call f (answer env))).
  - match goal with
    | |- context [fetch_and_display env ?x] =>
        pose proof (fetch_and_display_frame env x) as F;
        destruct (fetch_and_display env x) as [s1 [m|]]
    end; cbn in F |- *; destruct F as (F & _); exact F.
  - reflexivity.
Qed.

(** On success it appends one step, which carries [pg_command]; on
    failure it leaves the recorder as it was. *)
Lemma run_action_recorder (s : system) :
  recorder (run (ActionThread ty f pg d) env s)
  = if VMInterface.success (ViewPortWindow.call f (answer env))
    then TrajectoryManager.record_action pg (before_screenshot env s) ty
           (Some d) (clock env) (recorder s)
    else recorder s.
Proof.
  unfold run, except_finally, action_try.
  destruct (VMInterface.success (ViewPortWindow.call f (answer env))).
  - match goal with
    | |- context [fetch_and_display env ?x] =>
        pose proof (fetch_and_display_frame env x) as F;
        destruct (fetch_and_display env x) as [s1 [m|]]
    end; cbn in F |- *; destruct F as (_ & F & _); exact F.
  - reflexivity.
Qed.

(** A failed execution: the command is on record as sent, the status
    line tells the error, and the clean-up common to every run clears
    [is_busy] and closes the overlay. *)
Lemma run_action_failure (s : system) :
  VMInterface.success (ViewPortWindow.call f (answer env)) = false ->
  run (ActionThread ty f pg d) env s
  = with_win
      (set_show_overlay false
         (set_is_busy false
            (set_status_message
               ("Error: " ++ error_text (ViewPortWindow.call f (answer env)))
               (win s))))
      (log (Sent (sent_text f) (answer env)) s).
Proof.
  intros F.
  unfold run, except_finally, action_try.
  rewrite F, sent_execute. reflexivity.
Qed.

End ActionThreads.

(** ** Generated commands *)

Section Commands.

Lemma perform_action_thread (i : intent) ty f pg d (env : environment)
      (s : system) :
  is_busy (win s) = false ->
  threads (submit i s) = (threads s ++ [ActionThread ty f pg d])%list ->
  perform i env s = run (ActionThread ty f pg d) env (accepted "Executing..." s).
Proof.
  intros B T.
  destruct i; cbn [submit] in T |- *;
    unfold _execute_click, _execute_right_click, _execute_type, _execute_hotkey,
           _execute_key, _execute_scroll, _execute_drag, _execute_sleep in T;
    try (rewrite execute_action_accepts in T by exact B;
         cbn [threads start_thread accepted with_threads with_win] in T;
         apply app_inv_head in T; injection T as <- <- <- <-;
         apply perform_started; cbn [submit];
         apply execute_action_accepts; exact B).
  - destruct (hotkey_keys HOTKEY_MAP hotkey) as [|k ks] eqn:K.
    + now apply snoc_not_same in T.
    + rewrite execute_action_accepts in T by exact B.
      cbn [threads start_thread accepted with_threads with_win] in T.
      apply app_inv_head in T; injection T as <- <- <- <-.
      apply perform_started; cbn [submit]. unfold _execute_hotkey.
      rewrite K. apply execute_action_accepts; exact B.
  - rewrite B in T.
    cbn [threads start_thread accepted with_threads with_win] in T.
    apply app_inv_head in T. discriminate T.
Qed.

(** Apart from typing, the text the window records and the text the
    adapter sends are the same calls, into [pg] and into [pyautogui]. *)
Lemma alias_of_sent (i : intent) ty f pg d (s : system) :
  is_busy (win s) = false ->
  threads (submit i s) = (threads s ++ [ActionThread ty f pg d])%list ->
  (forall text, i <> DoType text) ->
  exists calls,
    sent_text f = calls_into "pyautogui" calls
    /\ pg = calls_into "pg" calls.
Proof.
  intros B T N.
  destruct i as [x y|x y|text|hotkey|k|clicks|x1 y1 x2 y2|seconds];
    cbn [submit] in T;
    unfold _execute_click, _execute_right_click, _execute_type, _execute_hotkey,
           _execute_key, _execute_scroll, _execute_drag, _execute_sleep in T;
    try (rewrite execute_action_accepts in T by exact B;
         cbn [threads start_thread accepted with_threads with_win] in T;
         apply app_inv_head in T; injection T as <- <- <- <-).
  - exists ["click(" ++ Py.str_int x ++ ", " ++ Py.str_int y ++ ")"].
    split; reflexivity.
  - exists ["rightClick(" ++ Py.str_int x ++ ", " ++ Py.str_int y ++ ")"].
    split; reflexivity.
  - now elim (N text).
  - destruct (hotkey_keys HOTKEY_MAP hotkey) as [|k0 ks] eqn:K.
    + now apply snoc_not_same in T.
    + rewrite execute_action_accepts in T by exact B.
      cbn [threads start_thread accepted with_threads with_win] in T.
      apply app_inv_head in T; injection T as <- <- <- <-.
      exists ["hotkey(" ++ Py.join ", " (map VMInterface.quoted (k0 :: ks)) ++ ")"].
      split; reflexivity.
  - exists ["press('" ++ k ++ "')"]. split; reflexivity.
  - exists ["scroll(" ++ Py.str_int clicks ++ ")"]. split; reflexivity.
  - exists ["moveTo(" ++ Py.str_int x1 ++ ", " ++ Py.str_int y1 ++ ")";
            "drag(" ++ Py.str_int (x2 - x1) ++ ", "
            ++ Py.str_int (y2 - y1) ++ ", duration=0.5)"].
    split; unfold calls_into;
      cbn [map Py.join VMInterface.command Py.str_num Py.half];
      repeat (rewrite ?append_assoc; cbn [append]); reflexivity.
  - rewrite B in T.
    cbn [threads start_thread accepted with_threads with_win] in T.
    apply app_inv_head in T. discriminate T.
Qed.

End Commands.

(** ** The recorded text and the text that was sent *)

(** C1, as stated, fails: a click at (1, 2) that the remote session
    carries out is recorded as [pg.click(1, 2)], while the text that was
    sent is [pyautogui.click(1, 2)]. *)
Lemma recorded_click_is_not_sent_text :
  let s := perform (DoClick 1 2) (fair "frame1") desk in
  recorded s = ["pg.click(1, 2)"]
  /\ effects s = [Sent "pyautogui.click(1, 2)" (VMInterface.Response None)]
  /\ "pg.click(1, 2)" <> "pyautogui.click(1, 2)".
Proof.
  repeat split; try reflexivity. intros H; discriminate H.
Qed.

(** C1 (amended): for every intent that the window accepts and whose
    remote execution succeeds, the step appended to the trajectory stores
    exactly the [pg_command] text the window built for the intent, and the
    remote session was sent the command the adapter built; for click,
    right-click, hotkey, key press, scroll and drag the stored text is the
    sent text with the module name [pyautogui] replaced by [pg] in each
    call.  How the text stored for typing relates to the text sent for it
    is left open. *)
Theorem recorded_text_aliases_sent_text :
  forall (i : intent) ty f pg d (env : environment) (s : system),
    is_busy (win s) = false ->
    threads (submit i s) = (threads s ++ [ActionThread ty f pg d])%list ->
    VMInterface.success (ViewPortWindow.call f (answer env)) = true ->
    let s' := perform i env s in
    recorded s' = (recorded s ++ [pg])%list
    /\ effects s' = (effects s ++ [Sent (sent_text f) (answer env)])%list
    /\ ((forall text, i <> DoType text) ->
        exists calls,
          sent_text f = calls_into "pyautogui" calls
          /\ pg = calls_into "pg" calls).
Proof.
  intros i ty f pg d env s B T OK s'. subst s'.
  rewrite (perform_action_thread i ty f pg d env s B T).
  repeat split.
  - unfold recorded. rewrite run_action_recorder, OK.
    cbn [TrajectoryManager.record_action TrajectoryManager.trajectory].
    now rewrite map_app.
  - now rewrite run_action_effects.
  - intros N. exact (alias_of_sent i ty f pg d s B T N).
Qed.

Lemma recorded_text_aliases_sent_text_witness :
  let s' := perform (DoClick 1 2) (fair "frame1") desk in
  recorded s' = ["pg.click(1, 2)"]
  /\ effects s' = [Sent "pyautogui.click(1, 2)" (VMInterface.Response None)]
  /\ exists calls,
       "pyautogui.click(1, 2)" = calls_into "pyautogui" calls
       /\ "pg.click(1, 2)" = calls_into "pg" calls.
Proof.
  destruct (recorded_text_aliases_sent_text
              (DoClick 1 2) "click" (CallClick 1 2) "pg.click(1, 2)"
              (TrajectoryManager.AtPoint 1 2) (fair "frame1") desk
              eq_refl eq_refl eq_refl) as (R & E & A).
  split; [exact R|]. split; [exact E|].
  apply A. intros text H; discriminate H.
Defined.

(** ** The drag command *)

(** C6, as stated, fails: for the drag from (100, 100) to (300, 50) neither
    the command that is sent nor the command that is recorded is the text
    [moveTo(100, 100); drag(200, -50, duration=0.5)]; both name the module
    in front of each call. *)
Lemma drag_command_names_the_module :
  let s := perform (DoDrag 100 100 300 50) (fair "frame1") desk in
  effects s
  = [Sent "pyautogui.moveTo(100, 100); pyautogui.drag(200, -50, duration=0.5)"
          (VMInterface.Response None)]
  /\ recorded s = ["pg.moveTo(100, 100); pg.drag(200, -50, duration=0.5)"]
  /\ "pyautogui.moveTo(100, 100); pyautogui.drag(200, -50, duration=0.5)"
     <> "moveTo(100, 100); drag(200, -50, duration=0.5)"
  /\ "pg.moveTo(100, 100); pg.drag(200, -50, duration=0.5)"
     <> "moveTo(100, 100); drag(200, -50, duration=0.5)".
Proof.
  repeat split; try reflexivity; intros H; discriminate H.
Qed.

(** C6 (amended): for every pair of points (x1, y1) and (x2, y2), carrying
    out a drag intent sends the command
    [pyautogui.moveTo(x1, y1); pyautogui.drag(dx, dy, duration=0.5)] with
    dx = x2 - x1 and dy = y2 - y1 and, when the remote session reports
    success, records [pg.moveTo(x1, y1); pg.drag(dx, dy, duration=0.5)];
    the adapter prints whatever duration it is given after [duration=]. *)
Theorem drag_intent_command :
  forall (x1 y1 x2 y2 : Z) (env : environment) (s : system),
    is_busy (win s) = false ->
    let dx := Py.str_int (x2 - x1) in
    let dy := Py.str_int (y2 - y1) in
    let s' := perform (DoDrag x1 y1 x2 y2) env s in
    effects s'
    = (effects s
       ++ [Sent ("pyautogui.moveTo(" ++ Py.str_int x1 ++ ", " ++ Py.str_int y1
                 ++ "); pyautogui.drag(" ++ dx ++ ", " ++ dy
                 ++ ", duration=0.5)")%string
                (answer env)])%list
    /\ (VMInterface.success
          (VMInterface.execute_drag x1 y1 x2 y2 Py.half (answer env))
        = true ->
        recorded s'
        = (recorded s
           ++ [("pg.moveTo(" ++ Py.str_int x1 ++ ", " ++ Py.str_int y1
                ++ "); pg.drag(" ++ dx ++ ", " ++ dy
                ++ ", duration=0.5)")%string])%list)
    /\ (forall duration r,
          VMInterface.command (VMInterface.execute_drag x1 y1 x2 y2 duration r)
          = "pyautogui.moveTo(" ++ Py.str_int x1 ++ ", " ++ Py.str_int y1
            ++ "); pyautogui.drag(" ++ dx ++ ", " ++ dy ++ ", duration="
            ++ Py.str_num duration ++ ")").
Proof.
  intros x1 y1 x2 y2 env s B dx dy s'. subst s'.
  rewrite (perform_started (DoDrag x1 y1 x2 y2) _ "Executing..." env s
             (execute_action_accepts _ _ _ _ s B)).
  split; [|split].
  - now rewrite run_action_effects.
  - intros OK. unfold recorded. rewrite run_action_recorder.
    cbn [call]. rewrite OK.
    cbn [TrajectoryManager.record_action TrajectoryManager.trajectory].
    now rewrite map_app.
  - intros duration r. apply execute_command_text.
Qed.

Lemma drag_intent_command_witness :
  let s' := perform (DoDrag 100 100 300 50) (fair "frame1") desk in
  effects s'
  = [Sent "pyautogui.moveTo(100, 100); pyautogui.drag(200, -50, duration=0.5)"
          (VMInterface.Response None)]
  /\ recorded s' = ["pg.moveTo(100, 100); pg.drag(200, -50, duration=0.5)"].
Proof.
  destruct (drag_intent_command 100 100 300 50 (fair "frame1") desk eq_refl)
    as (E & R & _).
  split; [exact E | exact (R eq_refl)].
Defined.

(** ** What the text entry can hold *)

Section TextEntry.

Lemma isprintable_append (a b : string) :
  Py.isprintable (a ++ b) = Py.isprintable a && Py.isprintable b.
Proof.
  induction a as [|c a IH]; [reflexivity|].
  cbn [append Py.isprintable]. now rewrite IH, andb_assoc.
Qed.

Lemma isprintable_drop_last (a : string) :
  Py.isprintable a = true -> Py.isprintable (Py.drop_last a) = true.
Proof.
  induction a as [|c a IH]; [reflexivity|].
  cbn [Py.isprintable]. intros P. apply andb_true_iff in P as [Pc Pa].
  destruct a as [|c' a]; [reflexivity|].
  change (Py.drop_last (String c (String c' a)))
    with (String c (Py.drop_last (String c' a))).
  cbn [Py.isprintable] in IH |- *. rewrite Pc. now apply IH.
Qed.

Lemma execute_action_text ty f pg d (s : system) :
  overlay_type_text (win (_execute_action ty f pg d s))
  = overlay_type_text (win s).
Proof.
  unfold _execute_action. destruct (is_busy (win s)); [reflexivity|].
  cbn. now destruct (win s).
Qed.

(** Whatever keys are pressed, the buffer of the text entry holds printable
    characters only, so what it submits can be held by a literal. *)
Lemma keydown_keeps_text_printable (e : key_event) (s : system) :
  Py.isprintable (overlay_type_text (win s)) = true ->
  Py.isprintable (overlay_type_text (win (keydown e s))) = true.
Proof.
  intros P. unfold keydown.
  destruct (key e) eqn:K;
    try (cbn; unfold on_escape;
         destruct (win s) as [g vx vy rn b ov sh ins st la h1 h2 h3 tx ta [p|] dm dp];
         cbn in *; try destruct ov; try destruct ta; try destruct dm; exact P);
    destruct (show_overlay (win s) && overlay_type_active (win s));
    unfold on_typing_key; rewrite ?K; try exact P.
  - cbn. destruct (win s); cbn in *. now apply isprintable_drop_last.
  - destruct (Py.truthy (overlay_type_text (win s))); [|exact P].
    cbn. now destruct (win (_execute_type _ s)).
  - destruct (Py.truthy (unicode e) && Py.isprintable (unicode e)) eqn:U; [|exact P].
    apply andb_true_iff in U as [_ U].
    cbn. destruct (win s); cbn in *. now rewrite isprintable_append, P, U.
  - cbn. unfold on_space.
    destruct (win s) as [g vx vy rn b ov sh ins st la h1 h2 h3 tx ta [p|] dm dp];
      exact P.
  - destruct (Py.truthy (unicode e) && Py.isprintable (unicode e)) eqn:U; [|exact P].
    apply andb_true_iff in U as [_ U].
    cbn. destruct (win s); cbn in *. now rewrite isprintable_append, P, U.
Qed.

(** The text that the window records for typing is the payload as it is,
    between quotes: for the payload [it's "done"] its literal ends at the
    apostrophe. *)
Lemma recorded_typewrite_is_raw :
  let s := perform (DoType its_done) (fair "frame1") desk in
  recorded s = ["pg.typewrite('" ++ its_done ++ "')"]
  /\ PyLiteral.first_literal ("pg.typewrite('" ++ its_done ++ "')") = Some "it".
Proof. split; reflexivity. Qed.

End TextEntry.

(** ** The typing command *)

(** C5, as stated, fails: a payload that is one line feed is embedded as it
    is, so the quoted literal of the command that is sent cannot be read
    back at all; and the command for the payload [it's "done"] is not the
    unqualified [typewrite(...)] text, it names the module. *)
Lemma typewrite_line_feed_is_not_read_back :
  let s := perform (DoType (Py.chr Py.LF)) (fair "frame1") desk in
  let sent := "pyautogui.typewrite('" ++ Py.chr Py.LF ++ "', interval=0.05)" in
  effects s = [Sent sent (VMInterface.Response None)]
  /\ PyLiteral.first_literal sent = None
  /\ sent_text (CallTypewrite its_done)
     <> "typewrite('" ++ its_done_escaped ++ "', interval=0.05)".
Proof.
  repeat split; try reflexivity. intros H; discriminate H.
Qed.

(** C5 (amended): for every text payload without a line feed, a carriage
    return or a null character (so for every payload the text entry can
    hold, which takes printable characters only), carrying out a type
    intent sends exactly
    [pyautogui.typewrite('<escaped text>', interval=0.05)], where the
    escaped text is the payload with a backslash put before each backslash,
    single quote and double quote, and reading the quoted literal of that
    command back as a Python literal gives the payload. *)
Theorem typewrite_command_reads_back :
  forall (text : string) (env : environment) (s : system),
    PyLiteral.representable text = true ->
    is_busy (win s) = false ->
    let sent :=
      "pyautogui.typewrite('" ++ flat backslash_char text ++ "', interval=0.05)" in
    effects (perform (DoType text) env s)
    = (effects s ++ [Sent sent (answer env)])%list
    /\ PyLiteral.first_literal sent = Some text.
Proof.
  intros text env s R B sent. subst sent.
  rewrite (perform_started (DoType text) _ "Executing..." env s
             (execute_action_accepts _ _ _ _ s B)).
  rewrite run_action_effects, <- typewrite_text. split; [reflexivity|].
  exact (typewrite_literal text R).
Qed.

Lemma typewrite_command_reads_back_witness :
  let sent := "pyautogui.typewrite('" ++ its_done_escaped ++ "', interval=0.05)" in
  effects (perform (DoType its_done) (fair "frame1") desk)
  = [Sent sent (VMInterface.Response None)]
  /\ PyLiteral.first_literal sent = Some its_done.
Proof.
  exact (typewrite_command_reads_back its_done (fair "frame1") desk eq_refl eq_refl).
Defined.

(** ** Events of the main loop and runs of threads *)

Section Events.

Lemma with_win_same_record (w : window) (s : system) : same_record s (with_win w s).
Proof. repeat split. Qed.

Lemma submit_main (i : intent) (s : system) :
  same_record s (submit i s) /\ dispatch s (submit i s).
Proof.
  destruct (is_busy (win s)) eqn:B.
  - rewrite (submit_busy i s B). split; [repeat split|].
    now apply dispatch_none.
  - destruct (submit_idle i s B) as [E|(t & status & A & E)]; rewrite E.
    + split; [repeat split|]. now apply dispatch_none.
    + split; [repeat split|].
      apply (dispatch_gated _ _ t); try easy.
      * destruct t; try reflexivity; discriminate A.
      * cbn. now destruct (win s).
Qed.

Lemma refresh_main (s : system) :
  same_record s (_refresh_screenshot s) /\ dispatch s (_refresh_screenshot s).
Proof.
  unfold _refresh_screenshot. destruct (is_busy (win s)) eqn:B.
  - split; [repeat split|]. now apply dispatch_none.
  - split; [repeat split|].
    apply (dispatch_gated _ _ RefreshThread); try easy.
    cbn. now destruct (win s).
Qed.

Lemma finish_main (s : system) :
  same_record s (_on_finish s) /\ dispatch s (_on_finish s).
Proof.
  split; [repeat split|]. apply dispatch_finish; [reflexivity|].
  cbn. now destruct (win s).
Qed.

Lemma dispatch_with_win (w : window) (s s' : system) :
  is_busy w = is_busy (win s') -> dispatch s s' -> dispatch s (with_win w s').
Proof.
  intros E [T B|t B G T B'|T B'].
  - apply dispatch_none; cbn; congruence.
  - apply (dispatch_gated _ _ t); cbn; congruence.
  - apply dispatch_finish; cbn; congruence.
Qed.

Lemma keydown_main (e : key_event) (s : system) :
  same_record s (keydown e s) /\ dispatch s (keydown e s).
Proof.
  unfold keydown.
  assert (Q : forall w, is_busy w = is_busy (win s) ->
                        same_record s (with_win w s) /\ dispatch s (with_win w s)).
  { intros w E. split; [repeat split|]. now apply dispatch_none. }
  assert (N : same_record s s /\ dispatch s s).
  { split; [repeat split|]. now apply dispatch_none. }
  destruct (key e) eqn:K;
    try apply finish_main;
    try (apply Q; unfold on_escape;
         destruct (win s) as [g vx vy rn b ov sh ins st la h1 h2 h3 tx ta [p|] dm dp];
         cbn; destruct ov, ta, dm; reflexivity);
    destruct (show_overlay (win s) && overlay_type_active (win s));
    unfold on_typing_key; rewrite ?K;
    try exact N;
    try (apply Q; now destruct (win s));
    try (destruct (Py.truthy (unicode e) && Py.isprintable (unicode e));
         [apply Q; now destruct (win s) | exact N]).
  - destruct (Py.truthy (overlay_type_text (win s))); [|exact N].
    destruct (submit_main (DoType (overlay_type_text (win s))) s) as [R D].
    cbn [submit] in R, D. split.
    + destruct R as (R1 & R2 & R3). repeat split; cbn; assumption.
    + apply dispatch_with_win; [|exact D]. now destruct (win (_execute_type _ s)).
  - apply Q. unfold on_space.
    destruct (win s) as [g vx vy rn b ov sh ins st la h1 h2 h3 tx ta [p|] dm dp];
      reflexivity.
Qed.

(** An event of the main loop writes neither the recorder nor the world,
    and starts at most one thread. *)
Lemma react_main (e : event) (s : system) :
  (forall n env, e <> Run n env) ->
  same_record s (react e s) /\ dispatch s (react e s).
Proof.
  intros N. destruct e as [i| | |k|p|w|n env]; cbn [react].
  - apply submit_main.
  - apply refresh_main.
  - apply finish_main.
  - apply keydown_main.
  - split; [repeat split|]. apply dispatch_none; [reflexivity|].
    cbn. unfold pan, _update_viewport.
    destruct (win s) as [g vx vy rn b ov sh ins st la h1 h2 h3 tx ta pk dm dp].
    cbn. destruct ov; cbn; [reflexivity|].
    destruct (needs_viewport g); cbn; [|reflexivity].
    destruct p as [mx my].
    repeat match goal with
           | |- context [if ?c then _ else _] => destruct c; cbn
           end; reflexivity.
  - split; [repeat split|]. now apply dispatch_none.
  - now elim (N n env).
Qed.

End Events.

Section Runs.

Lemma successes_snoc (l : list effect) (e : effect) :
  successes (l ++ [e]) = (successes l + if reported_success e then 1 else 0)%nat.
Proof.
  unfold successes. rewrite filter_app, length_app. cbn [filter].
  now destruct (reported_success e).
Qed.

Lemma run_sleep_effects seconds env (s : system) :
  effects (run (SleepThread seconds) env s) = (effects s ++ [Slept seconds])%list.
Proof.
  unfold run, except_finally, sleep_try.
  match goal with
  | |- context [fetch_and_display env ?x] =>
      pose proof (fetch_and_display_frame env x) as F;
      destruct (fetch_and_display env x) as [s1 [m|]]
  end; cbn in F |- *; destruct F as (F & _); exact F.
Qed.

Lemma run_sleep_recorder seconds env (s : system) :
  recorder (run (SleepThread seconds) env s)
  = TrajectoryManager.record_action
      ("pg.sleep(" ++ Py.str_num seconds ++ ")") (before_screenshot env s)
      "sleep" (Some (TrajectoryManager.Seconds seconds)) (clock env) (recorder s).
Proof.
  unfold run, except_finally, sleep_try.
  match goal with
  | |- context [fetch_and_display env ?x] =>
      pose proof (fetch_and_display_frame env x) as F;
      destruct (fetch_and_display env x) as [s1 [m|]]
  end; cbn in F |- *; destruct F as (_ & F & _); exact F.
Qed.

Lemma run_refresh_same env (s : system) :
  recorder (run RefreshThread env s) = recorder s
  /\ effects (run RefreshThread env s) = effects s.
Proof.
  unfold run, refresh_body, fetch, _display_screenshot.
  destruct (VMInterface.get_screenshot_with_retry _ _ _) as [got vm].
  destruct (VMInterface.frame got) as [img|]; [destruct (display_raises env)|];
    split; reflexivity.
Qed.

(** No thread starts another thread. *)
Lemma run_threads (t : thread) env (s : system) :
  threads (run t env s) = threads s.
Proof.
  destruct t; unfold run, except_finally, action_try, sleep_try, refresh_body,
                     finish_body.
  - destruct (VMInterface.success _); [|reflexivity].
    match goal with
    | |- context [fetch_and_display env ?x] =>
        pose proof (fetch_and_display_frame env x) as F;
        destruct (fetch_and_display env x) as [s1 [m|]]
    end; cbn in F |- *; destruct F as (_ & _ & F & _); exact F.
  - match goal with
    | |- context [fetch_and_display env ?x] =>
        pose proof (fetch_and_display_frame env x) as F;
        destruct (fetch_and_display env x) as [s1 [m|]]
    end; cbn in F |- *; destruct F as (_ & _ & F & _); exact F.
  - unfold fetch, _display_screenshot.
    destruct (VMInterface.get_screenshot_with_retry _ _ _) as [got vm].
    destruct (VMInterface.frame got) as [img|]; [destruct (display_raises env)|];
      reflexivity.
  - reflexivity.
Qed.

(** The finish thread leaves [is_busy] as it is. *)
Lemma run_finish_busy env (s : system) :
  is_busy (win (run FinishThread env s)) = is_busy (win s).
Proof. unfold run, finish_body. cbn. now destruct (win s). Qed.

(** A thread writes the world only if it carries out an action. *)
Lemma run_quiet (t : thread) env (s : system) :
  acting t = false ->
  recorder (run t env s) = recorder s /\ effects (run t env s) = effects s.
Proof.
  destruct t; intros A; try discriminate A.
  - apply run_refresh_same.
  - split; reflexivity.
Qed.

Lemma filter_remove_nth {A : Type} (f : A -> bool) (l : list A) (n : nat) (t : A) :
  nth_error l n = Some t ->
  List.length (filter f l)
  = (List.length (filter f (remove_nth n l)) + if f t then 1 else 0)%nat.
Proof.
  revert n; induction l as [|x l IH]; intros [|n] E; try discriminate E.
  - injection E as ->. cbn. destruct (f t); cbn; lia.
  - cbn in E |- *. specialize (IH n E).
    destruct (f x); cbn; lia.
Qed.

End Runs.

(** ** Invariants of every run *)

Section Invariants.

Lemma steps_match_record (a p ty : string) d now (s : system) (e : effect) :
  reported_success e = true ->
  steps_match s ->
  forall s',
    recorder s' = TrajectoryManager.record_action a p ty d now (recorder s) ->
    effects s' = (effects s ++ [e])%list ->
    steps_match s'.
Proof.
  intros OK [L C] s' R E. unfold steps_match.
  rewrite R, E, successes_snoc, OK.
  cbn [TrajectoryManager.record_action TrajectoryManager.trajectory
       TrajectoryManager.step_count].
  rewrite length_app. cbn [List.length]. split; lia.
Qed.

Lemma steps_match_react (e : event) (s : system) :
  steps_match s -> steps_match (react e s).
Proof.
  intros I.
  destruct e as [i| | |k|p|w|n env];
    try (match goal with
         | |- steps_match (react ?e s) =>
             destruct (react_main e s) as [(R & E & _) _];
             [intros ? ? H; discriminate H|];
             unfold steps_match; rewrite R, E; exact I
         end).
  cbn [react]. destruct (nth_error (threads s) n) as [t|]; [|exact I].
  set (s0 := with_threads (remove_nth n (threads s)) s).
  assert (I0 : steps_match s0) by exact I.
  destruct t as [ty f pg d|seconds| |].
  - destruct (VMInterface.success (ViewPortWindow.call f (answer env))) eqn:OK.
    + assert (OK' : reported_success (Sent (sent_text f) (answer env)) = true)
        by (cbn [reported_success]; now rewrite <- call_as_command).
      eapply (steps_match_record _ _ _ _ _ s0 _ OK' I0).
      * rewrite run_action_recorder, OK. reflexivity.
      * apply run_action_effects.
    + destruct I0 as [L C]. unfold steps_match.
      rewrite run_action_recorder, OK, run_action_effects, successes_snoc.
      cbn [reported_success]. rewrite <- call_as_command, OK. split; lia.
  - eapply (steps_match_record _ _ _ _ _ s0 (Slept seconds) eq_refl I0).
    + apply run_sleep_recorder.
    + apply run_sleep_effects.
  - destruct (run_quiet RefreshThread env s0 eq_refl) as [R E].
    unfold steps_match. rewrite R, E. exact I0.
  - destruct (run_quiet FinishThread env s0 eq_refl) as [R E].
    unfold steps_match. rewrite R, E. exact I0.
Qed.

Lemma steps_match_exec (trace : list event) (s : system) :
  steps_match s -> steps_match (exec trace s).
Proof.
  revert s; induction trace as [|e trace IH]; intros s I; [exact I|].
  apply IH, steps_match_react, I.
Qed.

Lemma in_flight_snoc (f : thread -> bool) (t : thread) (s s' : system) :
  threads s' = (threads s ++ [t])%list ->
  in_flight f s' = (in_flight f s + if f t then 1 else 0)%nat.
Proof.
  intros T. unfold in_flight. rewrite T, filter_app, length_app. cbn [filter].
  now destruct (f t).
Qed.

Lemma single_flight_react (e : event) (s : system) :
  single_flight s -> single_flight (react e s).
Proof.
  intros [L B].
  destruct e as [i| | |k|p|w|n env];
    try (match goal with
         | |- single_flight (react ?e s) =>
             destruct (react_main e s) as [_ D];
             [intros ? ? H; discriminate H|];
             destruct D as [T B'|t B0 G T B'|T B'];
             unfold single_flight;
             [ unfold in_flight in *; rewrite T, B'; split; assumption
             | rewrite (in_flight_snoc gated t s _ T), G, B';
               assert (in_flight gated s = 0%nat)
                 by (destruct (in_flight gated s) as [|[|m]] eqn:Q;
                     [reflexivity | rewrite B in B0 by reflexivity; discriminate B0
                     | lia]);
               split; [lia | reflexivity]
             | rewrite (in_flight_snoc gated FinishThread s _ T), B';
               cbn [gated]; split; [lia | reflexivity] ]
         end).
  cbn [react]. destruct (nth_error (threads s) n) as [t|] eqn:N; [|now split].
  pose proof (filter_remove_nth gated (threads s) n t N) as F.
  fold (in_flight gated s) in F.
  unfold single_flight, in_flight. rewrite run_threads.
  cbn [threads with_threads].
  destruct (gated t) eqn:G.
  - split; lia.
  - destruct t; try discriminate G.
    rewrite run_finish_busy. cbn [win with_threads].
    rewrite Nat.add_0_r in F. rewrite <- F. now split.
Qed.

Lemma single_flight_exec (trace : list event) (s : system) :
  single_flight s -> single_flight (exec trace s).
Proof.
  revert s; induction trace as [|e trace IH]; intros s I; [exact I|].
  apply IH, single_flight_react, I.
Qed.

(** The state in which the main loop is entered. *)
Lemma start_invariants size info surface dir config instr recording :
  let s := start recording (created size info surface dir config instr) in
  steps_match s /\ single_flight s.
Proof.
  destruct size, info, surface. cbn. repeat split; try reflexivity; cbn; lia.
Qed.

(** A thread that carries out an action is one that was started behind
    the [is_busy] test. *)
Lemma acting_gated (t : thread) : acting t = true -> gated t = true.
Proof. destruct t; intros A; try reflexivity; discriminate A. Qed.

Lemma in_flight_acting_le (s : system) :
  (in_flight acting s <= in_flight gated s)%nat.
Proof.
  unfold in_flight. induction (threads s) as [|t l IH]; [apply le_n|].
  cbn [filter]. destruct (acting t) eqn:A.
  - rewrite (acting_gated t A). cbn [List.length]. lia.
  - destruct (gated t); cbn [List.length]; lia.
Qed.

End Invariants.

(** ** Steps and successful executions *)

Section Counting.

Import TrajectoryManager.

Lemma record_action_length a p ty d now (tm : state) :
  List.length (trajectory (record_action a p ty d now tm))
  = S (List.length (trajectory tm)).
Proof. cbn. rewrite length_app. cbn. lia. Qed.

(** A thread appends a step exactly when its execution reports success. *)
Lemma run_appends (t : thread) (env : environment) (s : system) :
  List.length (trajectory (recorder (run t env s)))
  = (List.length (trajectory (recorder s))
     + if reports_success t env then 1 else 0)%nat.
Proof.
  destruct t as [ty f pg d|seconds| |]; cbn [reports_success].
  - rewrite run_action_recorder.
    destruct (VMInterface.success (ViewPortWindow.call f (answer env)));
      [rewrite record_action_length|]; lia.
  - rewrite run_sleep_recorder, record_action_length. lia.
  - destruct (run_quiet RefreshThread env s eq_refl) as [R _]. rewrite R. lia.
  - destruct (run_quiet FinishThread env s eq_refl) as [R _]. rewrite R. lia.
Qed.

Lemma run_nth_appends (n : nat) (env : environment) (s : system) :
  List.length (trajectory (recorder (react (Run n env) s)))
  = (List.length (trajectory (recorder s)) + reported n env s)%nat.
Proof.
  cbn [react]. unfold reported.
  destruct (nth_error (threads s) n) as [t|]; [|lia].
  now rewrite run_appends.
Qed.

Lemma react_appends (e : event) (s : system) :
  List.length (trajectory (recorder (react e s)))
  = (List.length (trajectory (recorder s)) + reported_by e s)%nat.
Proof.
  destruct e as [i| | |k|p|w|n env];
    try (match goal with
         | |- context [react ?e s] =>
             destruct (react_main e s) as [(R & _) _];
             [intros ? ? H; discriminate H|];
             rewrite R; cbn [reported_by]; lia
         end).
  apply run_nth_appends.
Qed.

Lemma exec_appends (trace : list event) (s : system) :
  List.length (trajectory (recorder (exec trace s)))
  = (List.length (trajectory (recorder s)) + reported_successes trace s)%nat.
Proof.
  revert s; induction trace as [|e trace IH]; intros s; cbn [reported_successes].
  - cbn. lia.
  - change (exec (e :: trace) s) with (exec trace (react e s)).
    rewrite IH, react_appends. lia.
Qed.

(** What [submit] does when the window is not busy, by the thread the
    intent stands for. *)
Lemma submit_idle_for (i : intent) (s : system) :
  is_busy (win s) = false ->
  match thread_for i with
  | None => submit i s = s
  | Some t =>
      acting t = true
      /\ exists status, submit i s = start_thread t (accepted status s)
  end.
Proof.
  intros B. unfold thread_for.
  destruct i; cbn [submit];
    unfold _execute_click, _execute_right_click, _execute_type, _execute_hotkey,
           _execute_key, _execute_scroll, _execute_drag, _execute_sleep;
    try (rewrite (execute_action_accepts _ _ _ _ s B); cbn;
         split; [reflexivity | eexists; reflexivity]).
  - destruct (hotkey_keys HOTKEY_MAP hotkey) as [|k ks]; [reflexivity|].
    rewrite (execute_action_accepts _ _ _ _ s B). cbn.
    split; [reflexivity | eexists; reflexivity].
  - rewrite B. cbn. split; [reflexivity | eexists; reflexivity].
Qed.

(** A thread that carries out an action clears [is_busy] when it ends. *)
Lemma run_acting_idle (t : thread) (env : environment) (s : system) :
  acting t = true -> is_busy (win (run t env s)) = false.
Proof.
  assert (X : forall o, is_busy (win (except_finally o)) = false).
  { intros [s1 [m|]]; cbn; now destruct (win s1). }
  destruct t; intros A; try discriminate A; apply X.
Qed.

Lemma perform_idle (i : intent) (env : environment) (s : system) :
  is_busy (win s) = false ->
  is_busy (win (perform i env s)) = false
  /\ List.length (trajectory (recorder (perform i env s)))
     = (List.length (trajectory (recorder s))
        + if succeeds (i, env) then 1 else 0)%nat.
Proof.
  intros B. pose proof (submit_idle_for i s B) as S.
  unfold succeeds. cbn [fst snd].
  destruct (thread_for i) as [t|].
  - destruct S as (A & status & E).
    rewrite (perform_started i t status env s E).
    split; [exact (run_acting_idle t env _ A)|].
    now rewrite run_appends.
  - assert (P : perform i env s = s).
    { unfold perform, exec. cbn [fold_left].
      change (react (Submit i) s) with (submit i s). rewrite S.
      cbn [react].
      now rewrite (proj2 (nth_error_None (threads s) (List.length (threads s)))
                     (le_n _)). }
    rewrite P. split; [exact B | lia].
Qed.

Lemma carry_out_appends (todo : list (intent * environment)) (s : system) :
  is_busy (win s) = false ->
  is_busy (win (carry_out todo s)) = false
  /\ List.length (trajectory (recorder (carry_out todo s)))
     = (List.length (trajectory (recorder s))
        + List.length (filter succeeds todo))%nat.
Proof.
  revert s; induction todo as [|[i env] todo IH]; intros s B.
  - cbn. split; [exact B | lia].
  - destruct (perform_idle i env s B) as [B1 L1].
    destruct (IH (perform i env s) B1) as [B2 L2].
    change (carry_out ((i, env) :: todo) s)
      with (carry_out todo (perform i env s)).
    split; [exact B2|]. rewrite L2, L1. cbn [filter].
    destruct (succeeds (i, env)); cbn [List.length]; lia.
Qed.

End Counting.

(** C2: in every run of the program, the number of steps in the trajectory
    is the number of executions that reported success, counted along the
    run from what the controller answered to each action thread that ran
    (a scripted delay, of those the window offers, counts as a success)
    and, equally, from the log of what was sent; the step counter agrees
    with it.  For every sequence of intents carried out one after the
    other from a window that is not busy, the number of steps appended is
    the number of intents that were accepted and whose execution reported
    success.  An accepted intent
    whose remote execution reports success appends exactly one step,
    which carries the next number and the command text, the kind and the
    details the window built, after its command was sent; an accepted
    delay appends one step likewise; an accepted intent whose remote
    execution reports failure leaves the recorder as it was, and of the
    window it changes the status line, which tells the error (the overlay
    is closed as after every action). *)
Theorem steps_count_successful_executions :
  forall size info surface dir config instr recording (trace : list event),
    let s0 := start recording (created size info surface dir config instr) in
    let s := exec trace s0 in
    (offered_delays trace ->
     List.length (TrajectoryManager.trajectory (recorder s))
     = reported_successes trace s0)
    /\ List.length (TrajectoryManager.trajectory (recorder s)) = successes (effects s)
    /\ TrajectoryManager.step_count (recorder s)
       = Z.of_nat (List.length (TrajectoryManager.trajectory (recorder s)))
    /\ (forall (todo : list (intent * environment)),
           is_busy (win s) = false ->
           Forall (fun x => offered_delay (fst x)) todo ->
           List.length (TrajectoryManager.trajectory (recorder (carry_out todo s)))
           = (List.length (TrajectoryManager.trajectory (recorder s))
              + List.length (filter succeeds todo))%nat)
    /\ (forall (i : intent) ty f pg d (env : environment),
           is_busy (win s) = false ->
           threads (submit i s) = (threads s ++ [ActionThread ty f pg d])%list ->
           VMInterface.success (ViewPortWindow.call f (answer env)) = true ->
           let s' := perform i env s in
           exists entry,
             TrajectoryManager.trajectory (recorder s')
             = (TrajectoryManager.trajectory (recorder s) ++ [entry])%list
             /\ TrajectoryManager.step_index entry
                = Z.of_nat (List.length (TrajectoryManager.trajectory (recorder s)))
             /\ TrajectoryManager.action entry = pg
             /\ TrajectoryManager.action_type entry = ty
             /\ TrajectoryManager.action_details entry = Some d
             /\ TrajectoryManager.step_count (recorder s')
                = TrajectoryManager.step_count (recorder s) + 1
             /\ effects s' = (effects s ++ [Sent (sent_text f) (answer env)])%list)
    /\ (forall (seconds : Py.num) (env : environment),
           is_busy (win s) = false ->
           In seconds SLEEP_PRESETS ->
           let s' := perform (DoSleep seconds) env s in
           exists entry,
             TrajectoryManager.trajectory (recorder s')
             = (TrajectoryManager.trajectory (recorder s) ++ [entry])%list
             /\ TrajectoryManager.step_index entry
                = Z.of_nat (List.length (TrajectoryManager.trajectory (recorder s)))
             /\ TrajectoryManager.action entry
                = "pg.sleep(" ++ Py.str_num seconds ++ ")"
             /\ TrajectoryManager.action_type entry = "sleep"
             /\ effects s' = (effects s ++ [Slept seconds])%list)
    /\ forall (i : intent) ty f pg d (env : environment),
         is_busy (win s) = false ->
         threads (submit i s) = (threads s ++ [ActionThread ty f pg d])%list ->
         VMInterface.success (ViewPortWindow.call f (answer env)) = false ->
         let s' := perform i env s in
         recorder s' = recorder s
         /\ successes (effects s') = successes (effects s)
         /\ win s'
            = set_show_overlay false
                (set_status_message
                   ("Error: " ++ error_text (ViewPortWindow.call f (answer env)))
                   (win s)).
Proof.
  intros size info surface dir config instr recording trace s0 s.
  destruct (start_invariants size info surface dir config instr recording) as [M _].
  fold s0 in M.
  pose proof (exec_appends trace s0) as A. fold s in A.
  assert (A0 : TrajectoryManager.trajectory (recorder s0) = [])
    by (unfold s0; destruct size, info, surface; reflexivity).
  rewrite A0 in A. cbn [List.length Nat.add] in A.
  apply (steps_match_exec trace) in M. fold s in M. destruct M as [L C].
  split; [intros _; exact A|]. split; [exact L|]. split; [exact C|].
  split; [intros todo B _; exact (proj2 (carry_out_appends todo s B))|].
  split; [|split].
  - intros i ty f pg d env B T F s'. subst s'.
    rewrite (perform_action_thread i ty f pg d env s B T).
    rewrite run_action_effects, run_action_recorder, F.
    eexists. split; [reflexivity|].
    cbn [TrajectoryManager.step_index TrajectoryManager.action
         TrajectoryManager.action_type TrajectoryManager.action_details
         TrajectoryManager.step_count TrajectoryManager.record_action
         recorder accepted with_win effects].
    repeat split. exact C.
  - intros seconds env B _ s'. subst s'.
    assert (E : perform (DoSleep seconds) env s
                = run (SleepThread seconds) env
                    (accepted ("Waiting " ++ Py.str_num seconds ++ "s...") s)).
    { apply perform_started. cbn [submit]. unfold _execute_sleep.
      now rewrite B. }
    rewrite E, run_sleep_effects, run_sleep_recorder.
    eexists. split; [reflexivity|].
    cbn [TrajectoryManager.step_index TrajectoryManager.action
         TrajectoryManager.action_type TrajectoryManager.record_action
         recorder accepted with_win effects].
    repeat split. exact C.
  - intros i ty f pg d env B T F s'. subst s'.
    rewrite (perform_action_thread i ty f pg d env s B T).
    rewrite (run_action_failure ty f pg d env _ F).
    repeat split.
    + cbn [effects with_win log accepted]. rewrite successes_snoc.
      cbn [reported_success].
      rewrite <- call_as_command.
      rewrite F. lia.
    + cbn. destruct (win s); cbn in B; subst; reflexivity.
Qed.

Lemma steps_count_successful_executions_witness :
  let trace := [Run 0 (fair "frame0"); Submit (DoClick 1 2); Run 0 (fair "frame1")] in
  let s0 := start true (created (1920, 1080) (1280, 720) (1280, 720) "SFT"
                          [] "Crop the image") in
  let s := exec trace s0 in
  let todo := [(DoClick 3 4, rejecting "refused");
               (DoHotkey "Ctrl+Q", fair "frame2");
               (DoKey "enter", fair "frame2");
               (DoSleep Py.half, fair "frame3")] in
  let failed := perform (DoClick 3 4) (rejecting "refused") s in
  let done := perform (DoClick 3 4) (fair "frame2") s in
  (reported_successes trace s0 = 1%nat
   /\ List.length (TrajectoryManager.trajectory (recorder s))
      = reported_successes trace s0
   /\ recorded s = ["pg.click(1, 2)"])
  /\ (List.length (filter succeeds todo) = 2%nat
      /\ List.length (TrajectoryManager.trajectory (recorder (carry_out todo s)))
         = (List.length (TrajectoryManager.trajectory (recorder s))
            + List.length (filter succeeds todo))%nat
      /\ recorded (carry_out todo s)
         = ["pg.click(1, 2)"; "pg.press('enter')"; "pg.sleep(0.5)"])
  /\ (exists entry,
         TrajectoryManager.trajectory (recorder done)
         = (TrajectoryManager.trajectory (recorder s) ++ [entry])%list
         /\ TrajectoryManager.step_index entry = 1
         /\ TrajectoryManager.action entry = "pg.click(3, 4)")
  /\ (exists entry,
         TrajectoryManager.trajectory (recorder (perform (DoSleep (Py.Int 2))
                                                  (fair "frame2") s))
         = (TrajectoryManager.trajectory (recorder s) ++ [entry])%list
         /\ TrajectoryManager.action entry = "pg.sleep(2)")
  /\ recorder failed = recorder s
  /\ successes (effects failed) = successes (effects s)
  /\ win failed = set_show_overlay false (set_status_message "Error: refused" (win s)).
Proof.
  intros trace s0 s todo failed done.
  pose proof (steps_count_successful_executions
                (1920, 1080) (1280, 720) (1280, 720) "SFT" [] "Crop the image"
                true trace) as (A & _ & _ & Q & S & D & F).
  assert (O : offered_delays trace).
  { intros i [H|[H|[H|[]]]]; try discriminate H. now injection H as <-. }
  assert (P : Forall (fun x => offered_delay (fst x)) todo).
  { repeat constructor. }
  split; [|split; [|split; [|split]]].
  - split; [vm_compute; reflexivity|].
    split; [exact (A O) | vm_compute; reflexivity].
  - split; [vm_compute; reflexivity|].
    split; [exact (Q todo eq_refl P) | vm_compute; reflexivity].
  - destruct (S (DoClick 3 4) "click" (CallClick 3 4) "pg.click(3, 4)"
                (TrajectoryManager.AtPoint 3 4) (fair "frame2")
                eq_refl eq_refl eq_refl) as (entry & T & I & C & _).
    exists entry. split; [exact T|]. split; [exact I | exact C].
  - destruct (D (Py.Int 2) (fair "frame2") eq_refl ltac:(cbn; tauto))
      as (entry & T & _ & C & _).
    exists entry. split; [exact T | exact C].
  - exact (F (DoClick 3 4) "click" (CallClick 3 4) "pg.click(3, 4)"
             (TrajectoryManager.AtPoint 3 4) (rejecting "refused")
             eq_refl eq_refl eq_refl).
Defined.

(** ** Single flight *)

(** C3: an intent submitted while [is_busy] holds is dropped, the state is
    left exactly as it was (no thread, no remote call, no step); an intent
    that is accepted raises [is_busy] and starts its thread on the thread
    of the main loop, before anything is sent; and in every run at most one
    action is in flight, the remote session being sent a command only
    while [is_busy] holds. *)
Theorem busy_gates_intents :
  (forall (i : intent) (s : system),
      is_busy (win s) = true -> submit i s = s)
  /\ (forall (i : intent) (s : system),
         is_busy (win s) = false ->
         submit i s = s
         \/ exists t, acting t = true
                      /\ threads (submit i s) = (threads s ++ [t])%list
                      /\ is_busy (win (submit i s)) = true
                      /\ effects (submit i s) = effects s
                      /\ recorder (submit i s) = recorder s)
  /\ (forall size info surface dir config instr recording (trace : list event),
         let s := exec trace (start recording
                                (created size info surface dir config instr)) in
         (in_flight acting s <= 1)%nat
         /\ (in_flight acting s = 1%nat -> is_busy (win s) = true)
         /\ forall e, effects (react e s) <> effects s -> is_busy (win s) = true).
Proof.
  split; [exact submit_busy|]. split.
  - intros i s B. destruct (submit_idle i s B) as [E|(t & status & A & E)].
    + now left.
    + right. exists t. rewrite E. repeat split; try assumption.
      cbn. now destruct (win s).
  - intros size info surface dir config instr recording trace s.
    destruct (start_invariants size info surface dir config instr recording) as [_ I].
    apply (single_flight_exec trace) in I. fold s in I. destruct I as [L B].
    pose proof (in_flight_acting_le s) as A.
    split; [lia|]. split; [intros Q; apply B; lia|].
    intros e N.
    destruct e as [i| | |k|p|w|n env];
      try (match goal with
           | N : effects (react ?e s) <> effects s |- _ =>
               destruct (react_main e s) as [(_ & E & _) _];
               [intros ? ? H; discriminate H | now elim N]
           end).
    cbn [react] in N.
    destruct (nth_error (threads s) n) as [t|] eqn:T; [|now elim N].
    pose proof (filter_remove_nth gated (threads s) n t T) as F.
    fold (in_flight gated s) in F.
    destruct (gated t) eqn:G.
    + apply B. lia.
    + destruct t; try discriminate G. now elim N.
Qed.

Lemma busy_gates_intents_witness :
  let s := exec [Run 0 (fair "frame0"); Submit (DoClick 1 2)]
             (start true (created (1920, 1080) (1280, 720) (1280, 720) "SFT"
                            [] "Crop the image")) in
  submit (DoType "abc") s = s
  /\ (submit (DoClick 1 2) desk = desk
      \/ exists t, acting t = true
                   /\ threads (submit (DoClick 1 2) desk) = (threads desk ++ [t])%list
                   /\ is_busy (win (submit (DoClick 1 2) desk)) = true
                   /\ effects (submit (DoClick 1 2) desk) = effects desk
                   /\ recorder (submit (DoClick 1 2) desk) = recorder desk)
  /\ is_busy (win s) = true
  /\ is_busy (win s) = true.
Proof.
  intros s.
  pose proof (proj2 (proj2 busy_gates_intents)
                (1920, 1080) (1280, 720) (1280, 720) "SFT" []
                "Crop the image" true
                [Run 0 (fair "frame0"); Submit (DoClick 1 2)]) as R.
  split; [|split; [|split]].
  - exact (proj1 busy_gates_intents (DoType "abc") s eq_refl).
  - exact (proj1 (proj2 busy_gates_intents) (DoClick 1 2) desk eq_refl).
  - exact (proj1 (proj2 R) eq_refl).
  - refine (proj2 (proj2 R) (Run 0 (fair "frame1")) _).
    intros H; discriminate H.
Defined.

(** ** Coordinates and panning *)

Section Viewport.

(** Projecting a point of the canvas to the screen and back gives the
    point, whatever the offset. *)
Lemma screen_to_vm_inverts (w : window) (x y : Z) :
  inside_canvas w x y ->
  _screen_to_vm w (fst (_vm_to_screen w x y)) (snd (_vm_to_screen w x y)) = (x, y).
Proof.
  intros [X Y]. unfold _screen_to_vm, _vm_to_screen. cbn [fst snd].
  f_equal; lia.
Qed.

Lemma update_viewport_geom (p : Z * Z) (w : window) :
  geom (_update_viewport p w) = geom w.
Proof.
  unfold _update_viewport.
  destruct w as [g vx vy rn b ov sh ins st la h1 h2 h3 tx ta pk dm dp].
  cbn. destruct (negb (needs_viewport g) || ov); [reflexivity|].
  destruct p as [mx my].
  repeat match goal with
         | |- context [if ?c then _ else _] => destruct c; cbn
         end; reflexivity.
Qed.

(** One pan update keeps the offset within its bounds; the step of a
    pan is not negative ([__init__] sets it to 20). *)
Lemma update_viewport_in_bounds (p : Z * Z) (w : window) :
  0 <= pan_speed (geom w) ->
  viewport_in_bounds w -> viewport_in_bounds (_update_viewport p w).
Proof.
  unfold viewport_in_bounds, _update_viewport.
  destruct w as [g vx vy rn b ov sh ins st la h1 h2 h3 tx ta pk dm dp].
  cbn. intros S [X Y].
  destruct (negb (needs_viewport g) || ov); [cbn; split; assumption|].
  destruct p as [mx my].
  repeat match goal with
         | |- context [if ?c then _ else _] => destruct c; cbn
         end; split; lia.
Qed.

Lemma pans_geom (positions : list (Z * Z)) (w : window) :
  geom (pans positions w) = geom w.
Proof.
  revert w; induction positions as [|p l IH]; intros w; [reflexivity|].
  cbn [pans fold_left]. fold (pans l (_update_viewport p w)).
  now rewrite IH, update_viewport_geom.
Qed.

Lemma pans_in_bounds (positions : list (Z * Z)) (w : window) :
  0 <= pan_speed (geom w) ->
  viewport_in_bounds w -> viewport_in_bounds (pans positions w).
Proof.
  revert w; induction positions as [|p l IH]; intros w S I; [exact I|].
  apply IH.
  - now rewrite update_viewport_geom.
  - now apply update_viewport_in_bounds.
Qed.

Lemma init_pan_speed (size info surface : Z * Z) :
  pan_speed (geom (__init__ size info surface)) = 20.
Proof. now destruct size, info, surface. Qed.

Lemma init_in_bounds (size info surface : Z * Z) :
  viewport_in_bounds (__init__ size info surface).
Proof.
  destruct size, info, surface. unfold viewport_in_bounds. cbn. split; lia.
Qed.

End Viewport.

(** C4: for every point of the canvas (0 <= x < vm_width and
    0 <= y < vm_height) and every offset within its bounds under which the
    point is visible, [_screen_to_vm] applied to the result of
    [_vm_to_screen] gives the point back.  (The proof uses only that the
    point lies on the canvas.) *)
Theorem screen_to_vm_of_vm_to_screen :
  forall (w : window) (x y : Z),
    inside_canvas w x y ->
    viewport_in_bounds w ->
    visible w x y ->
    _screen_to_vm w (fst (_vm_to_screen w x y)) (snd (_vm_to_screen w x y)) = (x, y).
Proof.
  intros w x y C _ _. exact (screen_to_vm_inverts w x y C).
Qed.

Lemma screen_to_vm_of_vm_to_screen_witness :
  let w := pans [(1279, 700); (1279, 700)] (__init__ (1920, 1080) (1280, 720) (1280, 720)) in
  _vm_to_screen w 1000 500 = (960, 500)
  /\ _screen_to_vm w 960 500 = (1000, 500).
Proof.
  intros w. split; [reflexivity|].
  refine (screen_to_vm_of_vm_to_screen w 1000 500 _ _ _);
    unfold inside_canvas, viewport_in_bounds, visible; cbn; lia.
Defined.

(** C7: after any sequence of pan updates from the initial offset, the
    offset satisfies 0 <= viewport_x <= max(0, vm_width - window_width) and
    0 <= viewport_y <= max(0, vm_height - available_height), and one more
    pan update, at any position of the cursor, leaves it within these
    bounds on both axes. *)
Theorem pan_updates_keep_offset_in_bounds :
  forall (size info surface : Z * Z) (positions : list (Z * Z)) (p : Z * Z),
    let w := pans positions (__init__ size info surface) in
    let g := geom w in
    (0 <= viewport_x w <= Z.max 0 (vm_width g - window_width g)
     /\ 0 <= viewport_y w <= Z.max 0 (vm_height g - available_height g))
    /\ viewport_in_bounds (_update_viewport p w).
Proof.
  intros size info surface positions p w g.
  assert (S : 0 <= pan_speed (geom (__init__ size info surface)))
    by (rewrite init_pan_speed; lia).
  assert (I : viewport_in_bounds w)
    by (apply pans_in_bounds; [exact S | apply init_in_bounds]).
  split; [exact I|].
  apply update_viewport_in_bounds; [|exact I].
  unfold w. now rewrite pans_geom.
Qed.

(** ** The escape key *)

(** C8: when the escape key is pressed while a picker is open, text entry
    is active and the overlay is shown, the picker is closed and nothing
    else changes: the text-entry flag, the typed text, the overlay, the
    drag state and [is_running] are as before, and so are the threads, the
    recorder and the world. *)
Theorem escape_closes_only_the_picker :
  forall (s : system) (p : picker) (u : string),
    picker_active (win s) = Some p ->
    overlay_type_active (win s) = true ->
    show_overlay (win s) = true ->
    let s' := keydown {| key := K_ESCAPE; unicode := u |} s in
    s' = with_win (set_picker_active None (win s)) s
    /\ picker_active (win s') = None
    /\ overlay_type_active (win s') = true
    /\ overlay_type_text (win s') = overlay_type_text (win s)
    /\ show_overlay (win s') = true
    /\ drag_mode_active (win s') = drag_mode_active (win s)
    /\ drag_start_point (win s') = drag_start_point (win s)
    /\ is_running (win s') = is_running (win s).
Proof.
  intros s p u P T O s'. subst s'.
  unfold keydown. cbn [key]. unfold on_escape. rewrite P.
  destruct s as [w r a ts es]. cbn in *.
  destruct w; cbn in *. subst. repeat split.
Qed.

Lemma escape_closes_only_the_picker_witness :
  let w := set_picker_active (Some PickKey)
             (set_overlay_type_active true
                (set_overlay_type_text "abc" (set_show_overlay true (win desk)))) in
  let s' := keydown {| key := K_ESCAPE; unicode := EmptyString |} (with_win w desk) in
  picker_active (win s') = None
  /\ overlay_type_active (win s') = true
  /\ overlay_type_text (win s') = "abc"
  /\ show_overlay (win s') = true
  /\ is_running (win s') = true.
Proof.
  intros w s'.
  destruct (escape_closes_only_the_picker (with_win w desk) PickKey EmptyString
              eq_refl eq_refl eq_refl) as (_ & P & A & T & O & _ & _ & R).
  repeat split; assumption.
Defined.

(** ** The transcript *)

Section Transcript.

Import TrajectoryManager.

Lemma notebook_cells_shape (now_iso : string) (tm : state) (cells : list Json.value) :
  notebook_cells now_iso tm = Some cells ->
  exists metadata, cells = metadata :: body_cells tm.
Proof.
  unfold notebook_cells. destruct (_build_metadata_cell now_iso tm) as [m|];
    intros E; [|discriminate E].
  injection E as <-. now eexists.
Qed.

Lemma generate_shape (clock : Z) (now_iso : string) (tm : state)
      (path text : string) :
  generate_colab_notebook clock now_iso tm = Some (path, text) ->
  exists metadata, text = Json.dumps (notebook (metadata :: body_cells tm)).
Proof.
  unfold generate_colab_notebook, _build_notebook.
  destruct (notebook_cells now_iso tm) as [cells|] eqn:C; intros E; [|discriminate E].
  injection E as _ <-.
  destruct (notebook_cells_shape now_iso tm cells C) as [m ->]. now exists m.
Qed.

(** Whether the notebook can be built does not depend on the clock. *)
Lemma generate_defined (clock1 clock2 : Z) (now1 now2 : string) (tm : state) :
  generate_colab_notebook clock1 now1 tm = None ->
  generate_colab_notebook clock2 now2 tm = None.
Proof.
  unfold generate_colab_notebook, _build_notebook, notebook_cells,
         _build_metadata_cell.
  destruct (domain tm); [intros E; discriminate E | reflexivity].
Qed.

Lemma split_lines_nonempty (content : string) : Py.split_lines content <> [].
Proof.
  destruct content as [|c rest]; cbn; [discriminate|].
  destruct (Ascii.eqb c Py.LF); [discriminate|].
  destruct (Py.split_lines rest); discriminate.
Qed.

Lemma join_cons (sep piece : string) (pieces : list string) :
  pieces <> [] ->
  Py.join sep (piece :: pieces) = (piece ++ sep ++ Py.join sep pieces)%string.
Proof. destruct pieces; [intros N; now elim N | reflexivity]. Qed.

Lemma split_lines_join (content : string) :
  Py.join nl (Py.split_lines content) = content.
Proof.
  induction content as [|c rest IH]; [reflexivity|].
  cbn [Py.split_lines]. destruct (Ascii.eqb c Py.LF) eqn:E.
  - apply Ascii.eqb_eq in E as ->.
    rewrite join_cons by apply split_lines_nonempty. now rewrite IH.
  - pose proof (split_lines_nonempty rest) as N.
    destruct (Py.split_lines rest) as [|piece pieces]; [now elim N|].
    destruct pieces as [|p ps].
    + cbn in IH |- *. now rewrite IH.
    + rewrite join_cons in IH |- * by discriminate.
      cbn [append]. now rewrite IH.
Qed.

(** *** Cancellation *)

Lemma append_inv_head (p a b : string) : p ++ a = p ++ b -> a = b.
Proof.
  induction p as [|c p IH]; cbn; [easy|]. intros [= H]. exact (IH H).
Qed.

Lemma length_of_append (a b : string) :
  String.length (a ++ b) = (String.length a + String.length b)%nat.
Proof. induction a as [|c a IH]; cbn; [reflexivity | now rewrite IH]. Qed.

Lemma append_inv_tail (a b s : string) : a ++ s = b ++ s -> a = b.
Proof.
  revert b; induction a as [|c a IH]; intros [|d b] H; cbn in H.
  - reflexivity.
  - apply (f_equal String.length) in H. cbn in H.
    rewrite length_of_append in H. lia.
  - apply (f_equal String.length) in H. cbn in H.
    rewrite length_of_append in H. lia.
  - injection H as -> H. now rewrite (IH _ H).
Qed.

Lemma append_inv_mid (p x y s : string) : p ++ x ++ s = p ++ y ++ s -> x = y.
Proof. intros H. exact (append_inv_tail _ _ _ (append_inv_head _ _ _ H)). Qed.

(** *** String literals *)

Lemma unescape_escape (c : ascii) (rest : string) :
  unescape_char (Json.escape_char c ++ rest) = Some (c, rest).
Proof.
  destruct c as [[|] [|] [|] [|] [|] [|] [|] [|]]; reflexivity.
Qed.

Lemma escape_reads_back (s1 s2 r1 r2 : string) :
  Json.escape s1 ++ String Py.dquote r1 = Json.escape s2 ++ String Py.dquote r2 ->
  s1 = s2 /\ r1 = r2.
Proof.
  revert s2; induction s1 as [|c1 s1 IH]; intros [|c2 s2] H;
    cbn [Json.escape] in H; rewrite ?append_assoc in H.
  - cbn in H. injection H as ->. now split.
  - apply (f_equal unescape_char) in H. rewrite unescape_escape in H.
    discriminate H.
  - apply (f_equal unescape_char) in H. rewrite unescape_escape in H.
    discriminate H.
  - apply (f_equal unescape_char) in H. rewrite !unescape_escape in H.
    injection H as -> H. destruct (IH _ H) as [-> ->]. now split.
Qed.

Lemma encode_str_reads_back (s1 s2 r1 r2 : string) :
  Json.encode_str s1 ++ r1 = Json.encode_str s2 ++ r2 -> s1 = s2 /\ r1 = r2.
Proof.
  unfold Json.encode_str, Py.chr. cbn [append]. rewrite !append_assoc.
  cbn [append]. intros [= H]. exact (escape_reads_back _ _ _ _ H).
Qed.

Lemma join_encoded_inj (sep : string) (l1 l2 : list string) :
  l1 <> [] -> l2 <> [] ->
  Py.join (String "," sep) (map Json.encode_str l1)
  = Py.join (String "," sep) (map Json.encode_str l2) ->
  l1 = l2.
Proof.
  revert l2; induction l1 as [|a l1 IH]; intros [|b l2] N1 N2 H;
    try (now elim N1); try (now elim N2).
  cbn [map] in H.
  destruct l1 as [|a' l1], l2 as [|b' l2].
  - cbn in H. rewrite <- (append_nil_r (Json.encode_str a)) in H.
    rewrite <- (append_nil_r (Json.encode_str b)) in H.
    now destruct (encode_str_reads_back _ _ _ _ H) as [-> _].
  - cbn [map] in H. rewrite (join_cons _ _ (_ :: _)) in H by discriminate.
    rewrite <- (append_nil_r (Json.encode_str a)) in H. cbn [Py.join] in H.
    destruct (encode_str_reads_back _ _ _ _ H) as [_ E]. discriminate E.
  - cbn [map] in H. rewrite (join_cons _ _ (_ :: _)) in H by discriminate.
    rewrite <- (append_nil_r (Json.encode_str b)) in H. cbn [Py.join] in H.
    destruct (encode_str_reads_back _ _ _ _ H) as [_ E]. discriminate E.
  - cbn [map] in H. rewrite !(join_cons _ _ (_ :: _)) in H by discriminate.
    destruct (encode_str_reads_back _ _ _ _ H) as [-> E].
    cbn [append] in E. injection E as E. apply append_inv_head in E.
    f_equal. apply IH; [discriminate | discriminate | exact E].
Qed.

(** *** The layout of [json.dumps] *)

Lemma join_app (sep : string) (xs ys : list string) :
  xs <> [] -> ys <> [] ->
  Py.join sep (xs ++ ys) = Py.join sep xs ++ sep ++ Py.join sep ys.
Proof.
  induction xs as [|x xs IH]; [easy|]. intros _ N.
  destruct xs as [|x' xs].
  - cbn [app]. now rewrite join_cons.
  - change ((x :: x' :: xs) ++ ys)%list with (x :: ((x' :: xs) ++ ys))%list.
    rewrite join_cons by (cbn; discriminate).
    rewrite IH by (discriminate || exact N).
    rewrite (join_cons _ x (x' :: xs)) by discriminate.
    now rewrite !append_assoc.
Qed.

(** A member of an object that is not the first is printed between a
    head and a tail that do not depend on its value. *)
Lemma dumps_obj_member (level : nat) (ms ms' : list (string * Json.value))
      (k : string) :
  ms <> [] ->
  exists head tail, forall v,
    Json.dumps_at level (Json.Obj (ms ++ (k, v) :: ms'))
    = head ++ Json.dumps_at (S level) v ++ tail.
Proof.
  intros N. destruct ms as [|m ms]; [now elim N|].
  set (sep := "," ++ Json.newline_indent (S level)).
  set (f := fun kv : string * Json.value =>
              Json.encode_str (fst kv) ++ ": " ++ Json.dumps_at (S level) (snd kv)).
  assert (U : forall v,
             Json.dumps_at level (Json.Obj ((m :: ms) ++ (k, v) :: ms'))
             = "{" ++ Json.newline_indent (S level)
               ++ Py.join sep (map f ((m :: ms) ++ (k, v) :: ms'))
               ++ Json.newline_indent level ++ "}") by reflexivity.
  destruct ms' as [|m' ms'].
  - exists ("{" ++ Json.newline_indent (S level) ++ Py.join sep (map f (m :: ms))
            ++ sep ++ Json.encode_str k ++ ": "),
           (Json.newline_indent level ++ "}").
    intros v. rewrite U, map_app, join_app by discriminate.
    change (Py.join sep (map f [(k, v)]))
      with (Json.encode_str k ++ ": " ++ Json.dumps_at (S level) v).
    now rewrite !append_assoc.
  - exists ("{" ++ Json.newline_indent (S level) ++ Py.join sep (map f (m :: ms))
            ++ sep ++ Json.encode_str k ++ ": "),
           (sep ++ Py.join sep (map f (m' :: ms'))
            ++ Json.newline_indent level ++ "}").
    intros v. rewrite U, map_app, join_app by discriminate.
    change (map f ((k, v) :: m' :: ms'))
      with ((Json.encode_str k ++ ": " ++ Json.dumps_at (S level) v)
            :: map f (m' :: ms')).
    rewrite (join_cons _ _ (map f (m' :: ms'))) by discriminate.
    now rewrite !append_assoc.
Qed.

(** So is the first item of an array of two items or more. *)
Lemma dumps_arr_first (level : nat) (y : Json.value) (rest : list Json.value) :
  exists head tail, forall x,
    Json.dumps_at level (Json.Arr (x :: y :: rest))
    = head ++ Json.dumps_at (S level) x ++ tail.
Proof.
  set (sep := "," ++ Json.newline_indent (S level)).
  exists ("[" ++ Json.newline_indent (S level)),
         (sep ++ Py.join sep (map (Json.dumps_at (S level)) (y :: rest))
          ++ Json.newline_indent level ++ "]").
  intros x.
  change (Json.dumps_at level (Json.Arr (x :: y :: rest)))
    with ("[" ++ Json.newline_indent (S level)
          ++ Py.join sep (map (Json.dumps_at (S level)) (x :: y :: rest))
          ++ Json.newline_indent level ++ "]").
  cbn [map]. rewrite (join_cons _ _ (_ :: _)) by discriminate.
  now rewrite !append_assoc.
Qed.

(** An array of strings is printed as its literals, joined. *)
Lemma dumps_lines (level : nat) (lines : list string) :
  lines <> [] ->
  Json.dumps_at level (Json.Arr (map Json.Str lines))
  = "[" ++ Json.newline_indent (S level)
    ++ Py.join (String "," (Json.newline_indent (S level)))
               (map Json.encode_str lines)
    ++ Json.newline_indent level ++ "]".
Proof.
  intros N. destruct lines as [|l ls]; [now elim N|].
  change (Json.dumps_at level (Json.Arr (map Json.Str (l :: ls))))
    with ("[" ++ Json.newline_indent (S level)
          ++ Py.join (String "," (Json.newline_indent (S level)))
                     (map (Json.dumps_at (S level)) (map Json.Str (l :: ls)))
          ++ Json.newline_indent level ++ "]").
  now rewrite map_map.
Qed.

(** The content of a markdown cell can be read off its printed form. *)
Lemma dumps_cell_inj (level : nat) (content1 content2 : string) :
  Json.dumps_at level (_create_markdown_cell content1)
  = Json.dumps_at level (_create_markdown_cell content2) ->
  content1 = content2.
Proof.
  unfold _create_markdown_cell. intros H.
  destruct (dumps_obj_member level
              [("cell_type", Json.Str "markdown"); ("metadata", Json.Obj [])]
              [] "source" ltac:(discriminate)) as (head & tail & E).
  pose proof (E (Json.Arr (map Json.Str (Py.split_lines content1)))) as E1.
  pose proof (E (Json.Arr (map Json.Str (Py.split_lines content2)))) as E2.
  cbn [app] in E1, E2. rewrite E1, E2 in H. apply append_inv_mid in H.
  rewrite !dumps_lines in H by apply split_lines_nonempty.
  apply append_inv_head, append_inv_head, append_inv_tail in H.
  apply join_encoded_inj in H; try apply split_lines_nonempty.
  rewrite <- (split_lines_join content1), <- (split_lines_join content2).
  now rewrite H.
Qed.

(** So can the content of the first cell of a notebook. *)
Lemma notebook_text_inj (content1 content2 : string) (cell : Json.value)
      (rest : list Json.value) :
  Json.dumps (notebook (_create_markdown_cell content1 :: cell :: rest))
  = Json.dumps (notebook (_create_markdown_cell content2 :: cell :: rest)) ->
  content1 = content2.
Proof.
  unfold Json.dumps, notebook. intros H.
  match type of H with
  | Json.dumps_at _ (Json.Obj [?a; ?b; ?c; _]) = _ =>
      destruct (dumps_obj_member 0 [a; b; c] [] "cells" ltac:(discriminate))
        as (head & tail & E)
  end.
  pose proof (E (Json.Arr (_create_markdown_cell content1 :: cell :: rest))) as E1.
  pose proof (E (Json.Arr (_create_markdown_cell content2 :: cell :: rest))) as E2.
  cbn [app] in E1, E2. rewrite E1, E2 in H. apply append_inv_mid in H.
  destruct (dumps_arr_first 1 cell rest) as (h & t & A).
  rewrite !A in H. apply append_inv_mid in H.
  exact (dumps_cell_inj _ _ _ H).
Qed.

(** *** Numbers and paths *)

Lemma str_int_inj (a b : Z) : Py.str_int a = Py.str_int b -> a = b.
Proof.
  assert (N : forall n, Z.to_int n <> Decimal.Pos Decimal.Nil
                        /\ Z.to_int n <> Decimal.Neg Decimal.Nil).
  { intros [|p|p]; cbn; split; try discriminate; intros [= E];
      exact (DecimalPos.Unsigned.to_uint_nonnil p E). }
  unfold Py.str_int. intros H.
  apply (f_equal NilZero.int_of_string) in H.
  rewrite !NilZero.isi in H by apply N.
  injection H as H. apply (f_equal Z.of_int) in H.
  now rewrite !DecimalZ.of_to in H.
Qed.

Lemma path_join_inj (dir name1 name2 : string) :
  Py.startswith "/" name1 = false -> Py.startswith "/" name2 = false ->
  path_join dir name1 = path_join dir name2 -> name1 = name2.
Proof.
  unfold path_join. intros -> ->.
  destruct (negb (Py.truthy dir) || Py.endswith "/" dir); intros H.
  - exact (append_inv_head _ _ _ H).
  - apply append_inv_head in H. now injection H.
Qed.

(** *** The metadata cell *)

(** The content of the metadata cell depends on the time of generation
    through its time stamp alone. *)
Lemma metadata_content (tm : state) :
  domain tm <> None ->
  exists head tail, forall now,
    _build_metadata_cell now tm = Some (head ++ Json.encode_str now ++ tail).
Proof.
  intros D. unfold _build_metadata_cell.
  destruct (domain tm) as [dom|]; [|now elim D].
  set (task_id := match Json.get "id" (task_config tm) with
                  | Some v => v
                  | None => unknown
                  end).
  destruct (dumps_obj_member 0
              [("task_id", task_id); ("domain", dom);
               ("instruction", Json.Str (instruction tm));
               ("total_steps", Json.Int (Z.of_nat (List.length (trajectory tm))))]
              [("model_pass_rate",
                 Json.Obj [("claude-sonnet-4-5", Json.Float "0.0")])]
              "timestamp" ltac:(discriminate)) as (head & tail & E).
  exists ("## Task Metadata" ++ nl ++ nl ++ fence ++ "json" ++ nl ++ head),
         (tail ++ nl ++ fence).
  intros now. pose proof (E (Json.Str now)) as E1. cbn [app] in E1.
  unfold Json.dumps. rewrite E1.
  change (Json.dumps_at 1 (Json.Str now)) with (Json.encode_str now).
  now rewrite !append_assoc.
Qed.

(** It is the same for two recorders of one task, instruction and
    trajectory. *)
Lemma metadata_same (now : string) (tm1 tm2 : state) :
  task_config tm1 = task_config tm2 -> instruction tm1 = instruction tm2 ->
  trajectory tm1 = trajectory tm2 ->
  _build_metadata_cell now tm1 = _build_metadata_cell now tm2.
Proof.
  unfold _build_metadata_cell, domain. now intros -> -> ->.
Qed.

Lemma generate_parts (clock : Z) (now_iso : string) (tm : state)
      (path text : string) :
  generate_colab_notebook clock now_iso tm = Some (path, text) ->
  exists content,
    _build_metadata_cell now_iso tm = Some content
    /\ text = Json.dumps (notebook (_create_markdown_cell content :: body_cells tm))
    /\ path = path_join (colab_dir tm)
                ("osw.manual_task." ++ Py.str_int clock ++ ".ipynb").
Proof.
  unfold generate_colab_notebook, _build_notebook, notebook_cells.
  destruct (_build_metadata_cell now_iso tm) as [content|]; intros E;
    [|discriminate E].
  injection E as <- <-. exists content. now repeat split.
Qed.

End Transcript.

(** C9, as stated, fails: two generations of the transcript from one and
    the same trajectory, a tenth of a second apart, differ in content,
    because the metadata cell carries the time of its generation. *)
Lemma transcript_differs_with_the_clock :
  let tm := recorder (perform (DoClick 1 2) (fair "frame1") desk) in
  option_map snd
    (TrajectoryManager.generate_colab_notebook 1700000000 "2026-01-01T10:00:00.100000" tm)
  <> option_map snd
       (TrajectoryManager.generate_colab_notebook 1700000000 "2026-01-01T10:00:00.200000" tm).
Proof.
  intros tm H. vm_compute in H. discriminate H.
Qed.

(** C9 (amended): the transcript is a function of the recorder and of the
    time of generation.  Any two generations from recorders with the same
    trajectory and the same instruction agree on every cell after the
    first: the instruction cell and, for each step in order, the
    screenshot record, the templated description and the literal command.
    The first cell is the metadata; for one task configuration its
    content in the two generations is the same text around the literal
    of the time stamp, and the two transcripts are equal exactly when
    the two time stamps are.  The files have the same name exactly when
    they are generated within the same second of the clock. *)
Theorem transcript_body_depends_on_trajectory :
  forall (tm1 tm2 : TrajectoryManager.state) (clock1 clock2 : Z)
         (now1 now2 path1 path2 text1 text2 : string),
    TrajectoryManager.trajectory tm1 = TrajectoryManager.trajectory tm2 ->
    TrajectoryManager.instruction tm1 = TrajectoryManager.instruction tm2 ->
    TrajectoryManager.generate_colab_notebook clock1 now1 tm1 = Some (path1, text1) ->
    TrajectoryManager.generate_colab_notebook clock2 now2 tm2 = Some (path2, text2) ->
    exists content1 content2 body,
      TrajectoryManager._build_metadata_cell now1 tm1 = Some content1
      /\ TrajectoryManager._build_metadata_cell now2 tm2 = Some content2
      /\ text1
         = Json.dumps
             (TrajectoryManager.notebook
                (TrajectoryManager._create_markdown_cell content1 :: body))
      /\ text2
         = Json.dumps
             (TrajectoryManager.notebook
                (TrajectoryManager._create_markdown_cell content2 :: body))
      /\ body
         = TrajectoryManager._create_markdown_cell
             ("## Task Instruction" ++ TrajectoryManager.nl ++ TrajectoryManager.nl
              ++ TrajectoryManager.instruction tm1)
           :: flat_map TrajectoryManager.step_cells (TrajectoryManager.trajectory tm1)
      /\ (TrajectoryManager.task_config tm1 = TrajectoryManager.task_config tm2 ->
          (exists head tail,
              content1 = head ++ Json.encode_str now1 ++ tail
              /\ content2 = head ++ Json.encode_str now2 ++ tail)
          /\ (text1 = text2 <-> now1 = now2))
      /\ (TrajectoryManager.colab_dir tm1 = TrajectoryManager.colab_dir tm2 ->
          (path1 = path2 <-> clock1 = clock2)).
Proof.
  intros tm1 tm2 clock1 clock2 now1 now2 path1 path2 text1 text2 T I G1 G2.
  destruct (generate_parts _ _ _ _ _ G1) as (c1 & M1 & E1 & P1).
  destruct (generate_parts _ _ _ _ _ G2) as (c2 & M2 & E2 & P2).
  assert (B : body_cells tm2 = body_cells tm1)
    by (unfold body_cells; now rewrite T, I).
  rewrite B in E2.
  exists c1, c2, (body_cells tm1).
  split; [exact M1|]. split; [exact M2|]. split; [exact E1|].
  split; [exact E2|]. split; [reflexivity|]. split.
  - intros C.
    assert (D : TrajectoryManager.domain tm1 <> None).
    { unfold TrajectoryManager._build_metadata_cell in M1.
      destruct (TrajectoryManager.domain tm1); [discriminate | discriminate M1]. }
    destruct (metadata_content tm1 D) as (head & tail & H).
    rewrite <- (metadata_same now2 tm1 tm2 C I T) in M2.
    rewrite H in M1, M2. injection M1 as <-. injection M2 as <-.
    split; [exists head, tail; now split|]. split.
    + intros E. rewrite E1, E2 in E. unfold body_cells in E.
      apply notebook_text_inj, append_inv_head in E.
      exact (proj1 (encode_str_reads_back _ _ _ _ E)).
    + intros <-. now rewrite E1, E2.
  - intros C. rewrite P1, P2, C. split.
    + intros E. apply path_join_inj in E; try reflexivity.
      apply append_inv_mid in E. exact (str_int_inj _ _ E).
    + now intros <-.
Qed.

Lemma transcript_body_depends_on_trajectory_witness :
  let tm := recorder (perform (DoClick 1 2) (fair "frame1") desk) in
  exists path1 text1 path2 text2,
    TrajectoryManager.generate_colab_notebook
      1700000000 "2026-01-01T10:00:00.100000" tm = Some (path1, text1)
    /\ TrajectoryManager.generate_colab_notebook
         1700000060 "2026-01-01T10:01:00.100000" tm = Some (path2, text2)
    /\ text1 <> text2
    /\ path1 <> path2.
Proof.
  intros tm.
  destruct (TrajectoryManager.generate_colab_notebook
              1700000000 "2026-01-01T10:00:00.100000" tm)
    as [[path1 text1]|] eqn:G1; [|vm_compute in G1; discriminate G1].
  destruct (TrajectoryManager.generate_colab_notebook
              1700000060 "2026-01-01T10:01:00.100000" tm)
    as [[path2 text2]|] eqn:G2; [|vm_compute in G2; discriminate G2].
  exists path1, text1, path2, text2.
  split; [reflexivity|]. split; [reflexivity|].
  destruct (transcript_body_depends_on_trajectory tm tm
              1700000000 1700000060
              "2026-01-01T10:00:00.100000" "2026-01-01T10:01:00.100000"
              path1 path2 text1 text2 eq_refl eq_refl G1 G2)
    as (c1 & c2 & body & _ & _ & _ & _ & _ & X & Y).
  split.
  - intros E. apply (proj2 (X eq_refl)) in E. discriminate E.
  - intros E. apply (Y eq_refl) in E. discriminate E.
Defined.

(** ** Screenshots *)

Section Screenshots.

Import VMInterface.

(** [get_screenshot] returns nothing exactly when nothing is cached and
    the observation carries no frame; the state is then as before. *)
Lemma get_screenshot_none (o : observation) (st : state) :
  fst (get_screenshot o st) = None
  <-> _last_screenshot st = None /\ frameless o.
Proof.
  unfold frameless. destruct o; cbn; split;
    try (intros H; split; [exact H | intros img E; discriminate E]);
    try (intros [H _]; exact H).
  - intros H; discriminate H.
  - intros [_ H]. now elim (H img).
Qed.

Lemma get_screenshot_none_state (o : observation) (st : state) :
  fst (get_screenshot o st) = None -> snd (get_screenshot o st) = st.
Proof. destruct o; cbn; intros H; try reflexivity; discriminate H. Qed.

(** The cache is never emptied. *)
Lemma get_screenshot_keeps_cache (o : observation) (st : state) :
  _last_screenshot st <> None ->
  _last_screenshot (snd (get_screenshot o st)) <> None.
Proof. destruct o; cbn; intros H; try exact H. intros E; discriminate E. Qed.

(** With something cached, the first call of the loop returns. *)
Lemma retry_loop_cached obs max_retries k a (st : state) (cached : image) :
  _last_screenshot st = Some cached ->
  retry_loop obs max_retries (S k) a st
  = ({| frame := Some (match obs a with ObsFrame img => img | _ => cached end);
        attempts := 1; sleeps := 0 |},
     snd (get_screenshot (obs a) st)).
Proof.
  intros C. cbn [retry_loop].
  destruct (obs a); cbn; rewrite ?C; reflexivity.
Qed.

Lemma retry_loop_none obs max_retries k a (st : state) :
  frame (fst (retry_loop obs max_retries k a st)) = None
  <-> (k = O
       \/ (_last_screenshot st = None
           /\ forall j, (j < k)%nat -> frameless (obs (a + j)%nat))).
Proof.
  revert a st; induction k as [|k IH]; intros a st.
  - cbn. split; [now left | reflexivity].
  - cbn [retry_loop].
    pose proof (get_screenshot_none (obs a) st) as G.
    pose proof (get_screenshot_none_state (obs a) st) as Gs.
    destruct (get_screenshot (obs a) st) as [[img|] st1]; cbn [fst snd] in G, Gs.
    + cbn. split; [intros H; discriminate H|].
      intros [H|[C F]]; [discriminate H|].
      assert (E : Some img = None).
      { apply G. split; [exact C|]. rewrite <- (Nat.add_0_r a). apply F. lia. }
      discriminate E.
    + specialize (Gs eq_refl). subst st1.
      destruct (proj1 G eq_refl) as [C F0].
      specialize (IH (S a) st).
      destruct (retry_loop obs max_retries k (S a) st) as [r st2].
      cbn [fst frame] in IH |- *. rewrite IH. split.
      * intros [->|[_ F]]; right; (split; [exact C|]); intros j J.
        -- assert (j = 0)%nat as -> by lia. now rewrite Nat.add_0_r.
        -- destruct j as [|j]; [now rewrite Nat.add_0_r|].
           replace (a + S j)%nat with (S a + j)%nat by lia. apply F. lia.
      * intros [H|[_ F]]; [discriminate H|].
        destruct k as [|k]; [now left|]. right. split; [exact C|].
        intros j J. replace (S a + j)%nat with (a + S j)%nat by lia.
        apply F. lia.
Qed.

Lemma retry_loop_keeps_cache obs max_retries k a (st : state) :
  _last_screenshot st <> None ->
  _last_screenshot (snd (retry_loop obs max_retries k a st)) <> None.
Proof.
  revert a st; induction k as [|k IH]; intros a st C; [exact C|].
  cbn [retry_loop].
  pose proof (get_screenshot_keeps_cache (obs a) st C) as C1.
  destruct (get_screenshot (obs a) st) as [[img|] st1]; cbn [snd] in C1 |- *.
  - exact C1.
  - specialize (IH (S a) st1 C1).
    now destruct (retry_loop obs max_retries k (S a) st1).
Qed.

End Screenshots.

Section Cache.

Lemma fetch_cache (env : environment) (s : system) :
  has_cached (adapter s) -> has_cached (adapter (snd (fetch env s))).
Proof.
  intros C. unfold fetch, VMInterface.get_screenshot_with_retry.
  pose proof (retry_loop_keeps_cache (observations env) VMInterface.default_retries
                (Z.to_nat VMInterface.default_retries) 0 (adapter s) C) as K.
  now destruct (VMInterface.retry_loop _ _ _ _ _) as [got vm].
Qed.

Lemma fetch_and_display_cache (env : environment) (s : system) :
  has_cached (adapter s) ->
  has_cached (adapter (fst (fetch_and_display env s))).
Proof.
  intros C. unfold fetch_and_display.
  pose proof (fetch_cache env s C) as K.
  destruct (fetch env s) as [[img|] s1]; cbn [snd] in K; [|exact K].
  unfold _display_screenshot. now destruct (display_raises env).
Qed.

(** No thread empties the cache of the adapter. *)
Lemma run_cache (t : thread) (env : environment) (s : system) :
  has_cached (adapter s) -> has_cached (adapter (run t env s)).
Proof.
  intros C.
  destruct t; unfold run, except_finally, action_try, sleep_try, refresh_body,
                     finish_body.
  - destruct (VMInterface.success _); [|exact C].
    match goal with
    | |- context [fetch_and_display env ?x] =>
        pose proof (fetch_and_display_cache env x C) as K;
        destruct (fetch_and_display env x) as [s1 [m|]]
    end; exact K.
  - match goal with
    | |- context [fetch_and_display env ?x] =>
        pose proof (fetch_and_display_cache env x C) as K;
        destruct (fetch_and_display env x) as [s1 [m|]]
    end; exact K.
  - pose proof (fetch_cache env s C) as K.
    destruct (fetch env s) as [[img|] s1]; cbn [snd] in K; [|exact K].
    unfold _display_screenshot. now destruct (display_raises env).
  - exact C.
Qed.

Lemma react_cache (e : event) (s : system) :
  has_cached (adapter s) -> has_cached (adapter (react e s)).
Proof.
  intros C.
  destruct e as [i| | |k|p|w|n env];
    try (match goal with
         | |- has_cached (adapter (react ?e s)) =>
             destruct (react_main e s) as [(_ & _ & A) _];
             [intros ? ? H; discriminate H | now rewrite A]
         end).
  cbn [react]. destruct (nth_error (threads s) n) as [t|]; [|exact C].
  now apply run_cache.
Qed.

Lemma exec_cache (trace : list event) (s : system) :
  has_cached (adapter s) -> has_cached (adapter (exec trace s)).
Proof.
  revert s; induction trace as [|e trace IH]; intros s C; [exact C|].
  apply IH, react_cache, C.
Qed.

End Cache.

(** C10, as stated, fails: a request that is allowed no attempt returns
    nothing, although a frame has been fetched before and is in the cache
    (and although a fetch would yield a fresh one). *)
Lemma a_request_of_no_attempt_returns_nothing :
  let st := snd (VMInterface.get_screenshot (VMInterface.ObsFrame "frame0")
                   VMInterface.__init__) in
  VMInterface._last_screenshot st = Some "frame0"
  /\ VMInterface.frame
       (fst (VMInterface.get_screenshot_with_retry
               (fun _ => VMInterface.ObsFrame "frame1") 0 st))
     = None.
Proof. split; reflexivity. Qed.

(** C10 (amended): a successful fetch puts its frame in the cache, and
    nothing the program does empties the cache; with a frame in the cache,
    a screenshot request of at least one attempt (as every request the
    program makes is) returns on its first attempt, with the fresh frame or
    else the cached one, and never sleeps; such a request returns nothing
    exactly when the cache is empty and no attempt yields a frame; and a
    request of no attempt ([max_retries] zero or negative) returns nothing
    whatever is cached, without a fetch and without a sleep. *)
Theorem cached_frame_ends_the_retry_loop :
  forall (obs : nat -> VMInterface.observation) (max_retries : Z)
         (st : VMInterface.state),
    let got := fst (VMInterface.get_screenshot_with_retry obs max_retries st) in
    (forall img,
        VMInterface._last_screenshot
          (snd (VMInterface.get_screenshot (VMInterface.ObsFrame img) st))
        = Some img)
    /\ (forall (trace : list event) (s : system),
           VMInterface._last_screenshot (adapter s) <> None ->
           VMInterface._last_screenshot (adapter (exec trace s)) <> None)
    /\ (0 < max_retries ->
        (forall cached,
            VMInterface._last_screenshot st = Some cached ->
            VMInterface.frame got
            = Some (match obs O with
                    | VMInterface.ObsFrame img => img
                    | _ => cached
                    end)
            /\ VMInterface.attempts got = 1%nat
            /\ VMInterface.sleeps got = 0%nat)
        /\ (VMInterface.frame got = None
            <-> VMInterface._last_screenshot st = None
                /\ forall k, (k < Z.to_nat max_retries)%nat -> frameless (obs k)))
    /\ (max_retries <= 0 ->
        VMInterface.frame got = None
        /\ VMInterface.attempts got = 0%nat
        /\ VMInterface.sleeps got = 0%nat
        /\ snd (VMInterface.get_screenshot_with_retry obs max_retries st) = st).
Proof.
  intros obs max_retries st got.
  split; [reflexivity|]. split; [exact exec_cache|].
  unfold got, VMInterface.get_screenshot_with_retry. split.
  - intros M.
    destruct (Z.to_nat max_retries) as [|k] eqn:K; [lia|]. split.
    + intros cached C. rewrite (retry_loop_cached obs max_retries k O st cached C).
      repeat split.
    + rewrite retry_loop_none. cbn [Nat.add]. split.
      * intros [H|H]; [discriminate H | exact H].
      * intros H. now right.
  - intros M. replace (Z.to_nat max_retries) with O by lia.
    repeat split.
Qed.

Lemma cached_frame_ends_the_retry_loop_witness :
  let st := {| VMInterface._is_recording := true;
               VMInterface._last_screenshot := Some "frame0" |} in
  let got := fst (VMInterface.get_screenshot_with_retry
                    (fun _ => VMInterface.ObsRaises) VMInterface.default_retries st) in
  let none := fst (VMInterface.get_screenshot_with_retry
                     (fun _ => VMInterface.ObsRaises) (-1) st) in
  (VMInterface.frame got = Some "frame0"
   /\ VMInterface.attempts got = 1%nat
   /\ VMInterface.sleeps got = 0%nat)
  /\ VMInterface.frame none = None.
Proof.
  intros st got none. split.
  - exact (proj1 (proj1 (proj2 (proj2 (cached_frame_ends_the_retry_loop
                                         (fun _ => VMInterface.ObsRaises)
                                         VMInterface.default_retries st)))
                    eq_refl)
             "frame0" eq_refl).
  - exact (proj1 (proj2 (proj2 (proj2 (cached_frame_ends_the_retry_loop
                                         (fun _ => VMInterface.ObsRaises)
                                         (-1) st)))
                    ltac:(lia))).
Defined.

(** * Further properties of the code *)

(** ** The view: clamping, drawing, panning *)

Section View.

(** Whatever the screen position, [_screen_to_vm] answers with a point
    of the canvas, provided the canvas has a pixel at all. *)
Theorem screen_to_vm_lands_on_canvas :
  forall (w : window) (screen_x screen_y : Z),
    1 <= vm_width (geom w) ->
    1 <= vm_height (geom w) ->
    inside_canvas w (fst (_screen_to_vm w screen_x screen_y))
                    (snd (_screen_to_vm w screen_x screen_y)).
Proof.
  intros w sx sy W H. unfold inside_canvas, _screen_to_vm. cbn [fst snd]. lia.
Qed.

Lemma screen_to_vm_lands_on_canvas_witness :
  _screen_to_vm (win desk) 5000 (-7) = (1919, 0)
  /\ inside_canvas (win desk) 1919 0.
Proof.
  split; [reflexivity|].
  exact (screen_to_vm_lands_on_canvas (win desk) 5000 (-7) ltac:(now vm_compute) ltac:(now vm_compute)).
Defined.

(** X1: what is drawn is what is clicked.  [_draw_vm] copies the pixel at
    offset (i, j) of the source rectangle to offset (i, j) of the
    destination rectangle; for every such offset, [_screen_to_vm] of the
    destination pixel is the source pixel, which lies on the canvas, and
    [_vm_to_screen] leads back. *)
Theorem drawn_pixel_is_clicked_pixel :
  forall (w : window) (i j : Z),
    0 <= viewport_x w ->
    0 <= viewport_y w ->
    let '(src_x, src_y, width, height) := src_rect w in
    let '(dest_x, dest_y, _, _) := dest_rect w in
    0 <= i < width ->
    0 <= j < height ->
    _screen_to_vm w (dest_x + i) (dest_y + j) = (src_x + i, src_y + j)
    /\ inside_canvas w (src_x + i) (src_y + j)
    /\ _vm_to_screen w (src_x + i) (src_y + j) = (dest_x + i, dest_y + j).
Proof.
  intros w i j X Y. unfold dest_rect, src_rect. cbv beta iota zeta.
  intros I J. unfold inside_canvas, _screen_to_vm, _vm_to_screen.
  repeat split; try lia; f_equal; lia.
Qed.

Lemma drawn_pixel_is_clicked_pixel_witness :
  let w := pans [(1279, 719); (1279, 719)] (win desk) in
  src_rect w = (40, 40, 1280, 680)
  /\ _screen_to_vm w (0 + 1279) (40 + 679) = (40 + 1279, 40 + 679).
Proof.
  intros w. split; [reflexivity|].
  exact (proj1 (drawn_pixel_is_clicked_pixel w 1279 679
                  ltac:(now vm_compute) ltac:(now vm_compute) ltac:(now vm_compute) ltac:(now vm_compute))).
Defined.

Lemma update_viewport_overlay (p : Z * Z) (w : window) :
  show_overlay (_update_viewport p w) = show_overlay w.
Proof.
  unfold _update_viewport.
  destruct w as [g vx vy rn b ov sh ins st la h1 h2 h3 tx ta pk dm dp].
  cbn. destruct (negb (needs_viewport g) || ov); [reflexivity|].
  destruct p as [mx my].
  repeat match goal with
         | |- context [if ?c then _ else _] => destruct c; cbn
         end; reflexivity.
Qed.

Lemma update_viewport_left (mx my : Z) (w : window) :
  needs_viewport (geom w) = true -> show_overlay w = false ->
  mx < pan_threshold (geom w) ->
  viewport_x (_update_viewport (mx, my) w)
  = Z.max 0 (viewport_x w - pan_speed (geom w)).
Proof.
  unfold _update_viewport.
  destruct w as [g vx vy rn b ov sh ins st la h1 h2 h3 tx ta pk dm dp].
  cbn. intros -> -> L. cbn.
  destruct (Z.ltb_spec mx (pan_threshold g)); [|lia]. cbn.
  repeat match goal with
         | |- context [if ?c then _ else _] => destruct c; cbn
         end; reflexivity.
Qed.

Lemma update_viewport_right (mx my : Z) (w : window) :
  needs_viewport (geom w) = true -> show_overlay w = false ->
  pan_threshold (geom w) <= mx ->
  window_width (geom w) - pan_threshold (geom w) < mx ->
  viewport_x (_update_viewport (mx, my) w)
  = Z.min (Z.max 0 (vm_width (geom w) - window_width (geom w)))
          (viewport_x w + pan_speed (geom w)).
Proof.
  unfold _update_viewport.
  destruct w as [g vx vy rn b ov sh ins st la h1 h2 h3 tx ta pk dm dp].
  cbn. intros -> -> L R. cbn.
  destruct (Z.ltb_spec mx (pan_threshold g)); [lia|].
  destruct (Z.ltb_spec (window_width g - pan_threshold g) mx); [|lia]. cbn.
  repeat match goal with
         | |- context [if ?c then _ else _] => destruct c; cbn
         end; reflexivity.
Qed.

Lemma hold_succ (p : Z * Z) (n : nat) (w : window) :
  hold p (S n) w = _update_viewport p (hold p n w).
Proof.
  unfold hold, pans. revert w. induction n as [|n IH]; intros w; [reflexivity|].
  cbn [repeat fold_left] in IH |- *. now rewrite IH.
Qed.

Lemma hold_keeps (p : Z * Z) (n : nat) (w : window) :
  geom (hold p n w) = geom w /\ show_overlay (hold p n w) = show_overlay w.
Proof.
  induction n as [|n [G O]]; [now split|].
  rewrite hold_succ, update_viewport_geom, update_viewport_overlay. now split.
Qed.

(** X2: holding the cursor in the left margin for [n] frames takes the
    offset [n] steps to the left and stops it at 0; holding it in the right
    margin takes it [n] steps to the right and stops it at
    max(0, vm_width - window_width). *)
Theorem held_cursor_pans_to_the_edge :
  forall (w : window) (mx my : Z) (n : nat),
    needs_viewport (geom w) = true ->
    show_overlay w = false ->
    0 <= pan_speed (geom w) ->
    viewport_in_bounds w ->
    let g := geom w in
    (mx < pan_threshold g ->
     viewport_x (hold (mx, my) n w)
     = Z.max 0 (viewport_x w - Z.of_nat n * pan_speed g))
    /\ (pan_threshold g <= mx -> window_width g - pan_threshold g < mx ->
        viewport_x (hold (mx, my) n w)
        = Z.min (Z.max 0 (vm_width g - window_width g))
                (viewport_x w + Z.of_nat n * pan_speed g)).
Proof.
  intros w mx my n N O S [[X0 X1] _] g. subst g. split.
  - intros L. induction n as [|n IH]; [cbn; lia|].
    destruct (hold_keeps (mx, my) n w) as [G V].
    rewrite hold_succ, update_viewport_left; rewrite ?G, ?V; try assumption.
    rewrite IH. lia.
  - intros L R. induction n as [|n IH]; [cbn; lia|].
    destruct (hold_keeps (mx, my) n w) as [G V].
    rewrite hold_succ, update_viewport_right; rewrite ?G, ?V; try assumption.
    rewrite IH. lia.
Qed.

Lemma held_cursor_pans_to_the_edge_witness :
  viewport_x (hold (1279, 300) 40 (win desk)) = 640
  /\ viewport_x (hold (0, 300) 3 (hold (1279, 300) 2 (win desk))) = 0.
Proof.
  split.
  - exact (proj2 (held_cursor_pans_to_the_edge (win desk) 1279 300 40
                    eq_refl eq_refl ltac:(now vm_compute)
                    ltac:(now vm_compute))
             ltac:(now vm_compute) ltac:(now vm_compute)).
  - exact (proj1 (held_cursor_pans_to_the_edge
                    (hold (1279, 300) 2 (win desk)) 0 300 3
                    eq_refl eq_refl ltac:(now vm_compute)
                    ltac:(now vm_compute))
             ltac:(now vm_compute)).
Defined.

(** While the overlay is shown, or when the canvas fits the display,
    no sequence of pan updates changes anything. *)
Theorem pans_are_frozen :
  forall (positions : list (Z * Z)) (w : window),
    show_overlay w = true \/ needs_viewport (geom w) = false ->
    pans positions w = w.
Proof.
  induction positions as [|p l IH]; intros w F; [reflexivity|].
  cbn [pans fold_left]. fold (pans l (_update_viewport p w)).
  assert (E : _update_viewport p w = w).
  { unfold _update_viewport. destruct F as [-> | ->]; cbn;
      [now rewrite orb_true_r | reflexivity]. }
  rewrite E. now apply IH.
Qed.

Lemma pans_are_frozen_witness :
  pans [(0, 0); (1279, 719)] (set_show_overlay true (win desk))
  = set_show_overlay true (win desk).
Proof.
  exact (pans_are_frozen [(0, 0); (1279, 719)] (set_show_overlay true (win desk))
           (or_introl eq_refl)).
Defined.

End View.

(** ** The keyboard *)

Section Keyboard.

(** X3: the escape key ends the session only from the plain view (no
    picker, no overlay, no drag armed), and five presses end it from any
    state. *)
Theorem escape_ends_the_session_last :
  forall (w : window),
    is_running (escapes 5 w) = false
    /\ (is_running w = true -> is_running (on_escape w) = false -> plain w).
Proof.
  intros [g vx vy rn b ov sh ins st la h1 h2 h3 tx ta pk dm dp]. unfold plain.
  destruct pk as [p|], ov, ta, dm, rn; cbn; repeat split;
    try reflexivity; try discriminate; intros; discriminate.
Qed.

Lemma escape_ends_the_session_last_witness :
  let w := set_drag_mode_active true (win desk) in
  is_running (on_escape w) = true
  /\ is_running (on_escape (on_escape w)) = false.
Proof.
  intros w. split; [reflexivity|].
  destruct (is_running (on_escape (on_escape w))) eqn:R; [|reflexivity].
  exfalso.
  destruct (proj2 (escape_ends_the_session_last (on_escape w)) eq_refl)
    as (_ & _ & D); [reflexivity|].
  vm_compute in R. discriminate R.
Defined.

Lemma with_win_same (s : system) : with_win (win s) s = s.
Proof. now destruct s. Qed.

Lemma drop_last_snoc (text : string) (c : ascii) :
  Py.drop_last (text ++ Py.chr c) = text.
Proof.
  induction text as [|x text IH]; [reflexivity|].
  cbn [append]. destruct (text ++ Py.chr c) as [|y rest] eqn:E.
  - destruct text; discriminate E.
  - change (Py.drop_last (String x (String y rest)))
      with (String x (Py.drop_last (String y rest))).
    now rewrite IH.
Qed.

Lemma keydown_char (c : ascii) (s : system) :
  entering (win s) -> Py.isprintable_char c = true ->
  keydown (char_key c) s
  = with_win (set_overlay_type_text (overlay_type_text (win s) ++ Py.chr c) (win s)) s.
Proof.
  intros [O T] P. unfold keydown, char_key. cbn [key].
  assert (U : Py.truthy (Py.chr c) && Py.isprintable (Py.chr c) = true)
    by (cbn; now rewrite P).
  destruct (Ascii.eqb c " "); rewrite O, T; cbn [andb];
    unfold on_typing_key; cbn [key unicode]; now rewrite U.
Qed.

(** X4: in text entry, the backspace key undoes the printable character
    typed just before it: the state is exactly what it was. *)
Theorem backspace_undoes_a_character :
  forall (c : ascii) (s : system),
    entering (win s) ->
    Py.isprintable_char c = true ->
    keydown (press K_BACKSPACE) (keydown (char_key c) s) = s.
Proof.
  intros c s E P. rewrite (keydown_char c s E P).
  destruct E as [O T]. unfold keydown, press. cbn [key].
  destruct s as [w r a ts es]. cbn [win with_win] in *.
  destruct w as [g vx vy rn b ov sh ins st la h1 h2 h3 tx ta pk dm dp].
  cbn in O, T. subst ov ta. cbn.
  now rewrite drop_last_snoc.
Qed.

Lemma backspace_undoes_a_character_witness :
  let s := with_win (set_overlay_type_active true
                       (set_overlay_type_text "ab" (set_show_overlay true (win desk))))
             desk in
  overlay_type_text (win (keydown (char_key "c") s)) = "abc"
  /\ keydown (press K_BACKSPACE) (keydown (char_key "c") s) = s.
Proof.
  intros s. split; [reflexivity|].
  exact (backspace_undoes_a_character "c" s (conj eq_refl eq_refl) eq_refl).
Defined.

Lemma typing_appends (text : string) (s : system) :
  entering (win s) -> Py.isprintable text = true ->
  exec (typing text) s
  = with_win (set_overlay_type_text (overlay_type_text (win s) ++ text) (win s)) s.
Proof.
  revert s. induction text as [|c text IH]; intros s E P.
  - cbn. destruct s as [w r a ts es]. cbn.
    destruct w; cbn. now rewrite append_nil_r.
  - cbn [Py.isprintable] in P. apply andb_true_iff in P as [Pc Pt].
    cbn [typing exec fold_left]. cbn [react].
    rewrite (keydown_char c s E Pc).
    fold (exec (typing text)
            (with_win (set_overlay_type_text (overlay_type_text (win s) ++ Py.chr c)
                         (win s)) s)).
    rewrite IH; [|destruct E as [O T]; destruct s as [w r a ts es];
                   destruct w; cbn in *; now split | exact Pt].
    destruct s as [w r a ts es]. destruct w. cbn.
    now rewrite append_assoc.
Qed.

End Keyboard.

(** ** Text entry, from the keys to the command *)

Section Entry.

Lemma exec_app (a b : list event) (s : system) :
  exec (a ++ b) s = exec b (exec a s).
Proof. unfold exec. apply fold_left_app. Qed.

Lemma truthy_printable_nonempty (text : string) :
  text <> EmptyString -> Py.truthy text = true.
Proof. destruct text; [intros H; now elim H | reflexivity]. Qed.

Lemma return_dispatches (s : system) :
  entering (win s) ->
  is_busy (win s) = false ->
  overlay_type_text (win s) <> EmptyString ->
  let text := overlay_type_text (win s) in
  let s1 := start_thread
              (ActionThread "typewrite" (CallTypewrite text)
                 ("pg.typewrite('" ++ text ++ "')") (TrajectoryManager.Text text))
              (accepted "Executing..." s) in
  keydown (press K_RETURN) s
  = with_win (set_overlay_type_text EmptyString (win s1)) s1.
Proof.
  intros [O A] B N text s1. subst text s1.
  unfold keydown, press. cbn [key]. rewrite O, A. cbn [andb].
  unfold on_typing_key. cbn [key].
  rewrite (truthy_printable_nonempty _ N).
  unfold _execute_type. now rewrite execute_action_accepts by exact B.
Qed.

Lemma typed_state (text : string) (s : system) :
  entering (win s) ->
  overlay_type_text (win s) = EmptyString ->
  let s1 := with_win (set_overlay_type_text (overlay_type_text (win s) ++ text)
                        (win s)) s in
  entering (win s1) /\ overlay_type_text (win s1) = text
  /\ is_busy (win s1) = is_busy (win s)
  /\ threads s1 = threads s /\ effects s1 = effects s.
Proof.
  intros [O A] T. destruct s as [w r a ts es]. cbn [win] in *.
  destruct w. cbn in *. subst. repeat split.
Qed.

(** X5: text typed into the empty text entry of an idle window and
    submitted with the return key is what the remote session is asked to
    type: one command is sent, and its quoted literal reads back as the
    text that was typed. *)
Theorem typed_text_is_what_gets_typed :
  forall (text : string) (env : environment) (s : system),
    entering (win s) ->
    overlay_type_text (win s) = EmptyString ->
    is_busy (win s) = false ->
    Py.isprintable text = true ->
    text <> EmptyString ->
    let s' :=
      exec (typing text
            ++ [KeyDown (press K_RETURN); Run (List.length (threads s)) env]) s in
    exists sent,
      effects s' = (effects s ++ [Sent sent (answer env)])%list
      /\ PyLiteral.first_literal sent = Some text
      /\ threads s' = threads s.
Proof.
  intros text env s E T B P N s'. subst s'.
  exists (sent_text (CallTypewrite text)).
  rewrite exec_app, (typing_appends text s E P).
  destruct (typed_state text s E T) as (E1 & T1 & B1 & Th1 & Ef1).
  set (s1 := with_win _ s) in *. rewrite <- Th1, <- Ef1.
  rewrite B in B1.
  unfold exec. cbn [fold_left]. cbn [react].
  rewrite (return_dispatches s1 E1 B1) by (rewrite T1; exact N).
  rewrite T1.
  cbn [start_thread accepted with_threads with_win win threads].
  rewrite nth_error_snoc, remove_nth_snoc.
  split; [|split].
  - now rewrite run_action_effects.
  - exact (typewrite_literal text (printable_representable text P)).
  - now rewrite run_threads.
Qed.

Lemma typed_text_is_what_gets_typed_witness :
  let s := with_win (set_overlay_type_active true (set_show_overlay true (win desk)))
             desk in
  exists sent,
    effects (exec (typing its_done
                   ++ [KeyDown (press K_RETURN); Run 0 (fair "frame1")]) s)
    = [Sent sent (VMInterface.Response None)]
    /\ PyLiteral.first_literal sent = Some its_done
    /\ threads (exec (typing its_done
                      ++ [KeyDown (press K_RETURN); Run 0 (fair "frame1")]) s)
       = [].
Proof.
  intros s.
  exact (typed_text_is_what_gets_typed its_done (fair "frame1") s
           (conj eq_refl eq_refl) eq_refl eq_refl eq_refl
           ltac:(discriminate)).
Defined.

(** X6: the return key pressed in text entry while an action is in flight
    empties the buffer and dispatches nothing: the text is dropped, no
    thread is started and nothing is sent. *)
Theorem return_while_busy_drops_the_text :
  forall (s : system),
    entering (win s) ->
    is_busy (win s) = true ->
    keydown (press K_RETURN) s
    = with_win (set_overlay_type_text EmptyString (win s)) s.
Proof.
  intros s [O A] B.
  unfold keydown, press. cbn [key]. rewrite O, A. cbn [andb].
  unfold on_typing_key. cbn [key].
  destruct (Py.truthy (overlay_type_text (win s))) eqn:T.
  - unfold _execute_type. now rewrite execute_action_drops by exact B.
  - destruct s as [w r a ts es]. cbn in *.
    destruct w as [g vx vy rn b ov sh ins st la h1 h2 h3 tx ta pk dm dp].
    cbn in *. destruct tx; [reflexivity | discriminate T].
Qed.

Lemma return_while_busy_drops_the_text_witness :
  let s := with_win (set_is_busy true
                       (set_overlay_type_text "lost"
                          (set_overlay_type_active true
                             (set_show_overlay true (win desk))))) desk in
  keydown (press K_RETURN) s
  = with_win (set_overlay_type_text EmptyString (win s)) s.
Proof.
  intros s.
  exact (return_while_busy_drops_the_text s (conj eq_refl eq_refl) eq_refl).
Defined.

End Entry.

(** ** The adapter *)

Section Adapter.

Import VMInterface.

Lemma retry_loop_attempts obs max_retries k a (st : state) :
  (attempts (fst (retry_loop obs max_retries k a st)) <= k)%nat
  /\ (k <> O -> attempts (fst (retry_loop obs max_retries k a st)) <> O).
Proof.
  revert a st; induction k as [|k IH]; intros a st; [cbn; split; [lia | intros H; now elim H]|].
  cbn [retry_loop].
  destruct (get_screenshot (obs a) st) as [[img|] st1]; [cbn; split; lia|].
  specialize (IH (S a) st1).
  destruct (retry_loop obs max_retries k (S a) st1) as [r st2].
  cbn in *. split; [lia | discriminate].
Qed.

Lemma retry_loop_sleeps obs max_retries k a (st : state) :
  (k = O \/ Z.of_nat (a + k) = max_retries) ->
  sleeps (fst (retry_loop obs max_retries k a st))
  = pred (attempts (fst (retry_loop obs max_retries k a st))).
Proof.
  revert a st; induction k as [|k IH]; intros a st I; [reflexivity|].
  destruct I as [I|I]; [discriminate I|].
  cbn [retry_loop].
  destruct (get_screenshot (obs a) st) as [[img|] st1]; [reflexivity|].
  destruct k as [|k].
  - cbn. replace (Z.of_nat a <? max_retries - 1) with false
      by (symmetry; apply Z.ltb_ge; lia).
    reflexivity.
  - pose proof (retry_loop_attempts obs max_retries (S k) (S a) st1) as [_ A].
    specialize (IH (S a) st1 ltac:(right; lia)).
    destruct (retry_loop obs max_retries (S k) (S a) st1) as [r st2].
    cbn [fst attempts sleeps frame] in *.
    replace (Z.of_nat a <? max_retries - 1) with true
      by (symmetry; apply Z.ltb_lt; lia).
    rewrite IH.
    specialize (A ltac:(discriminate)).
    destruct (attempts r); [now elim A | reflexivity].
Qed.

Lemma retry_loop_result obs max_retries k a (st : state) :
  let r := fst (retry_loop obs max_retries k a st) in
  let st' := snd (retry_loop obs max_retries k a st) in
  (frame r = None -> attempts r = k /\ st' = st)
  /\ (forall img, frame r = Some img -> _last_screenshot st' = Some img).
Proof.
  revert a st; induction k as [|k IH]; intros a st; cbn zeta.
  - cbn. split; [now split | intros img H; discriminate H].
  - cbn [retry_loop].
    pose proof (get_screenshot_none_state (obs a) st) as Gs.
    assert (G : forall img, fst (get_screenshot (obs a) st) = Some img ->
                            _last_screenshot (snd (get_screenshot (obs a) st)) = Some img)
      by (intros img; destruct (obs a); cbn; intros H; exact H).
    destruct (get_screenshot (obs a) st) as [[img|] st1]; cbn [fst snd] in *.
    + split; [intros H; discriminate H|]. intros i H. now apply G.
    + specialize (IH (S a) st1). cbn zeta in IH.
      destruct (retry_loop obs max_retries k (S a) st1) as [r st2].
      cbn [fst snd frame attempts] in *.
      rewrite (Gs eq_refl) in *. destruct IH as [IH1 IH2].
      split; [|exact IH2].
      intros H. destruct (IH1 H) as [-> ->]. now split.
Qed.

(** X7: the retry loop calls [get_screenshot] at most [max_retries] times,
    sleeps between two calls and never after the last one, gives up only
    after all its calls and then leaves the adapter as it was; a frame it
    returns is the frame the cache holds afterwards. *)
Theorem retries_are_counted :
  forall (obs : nat -> observation) (max_retries : Z) (st : state),
    let r := fst (get_screenshot_with_retry obs max_retries st) in
    let st' := snd (get_screenshot_with_retry obs max_retries st) in
    Z.of_nat (attempts r) <= Z.max 0 max_retries
    /\ sleeps r = pred (attempts r)
    /\ (frame r = None -> Z.of_nat (attempts r) = Z.max 0 max_retries /\ st' = st)
    /\ (forall img, frame r = Some img -> _last_screenshot st' = Some img).
Proof.
  intros obs max_retries st. unfold get_screenshot_with_retry. cbn zeta.
  pose proof (retry_loop_attempts obs max_retries (Z.to_nat max_retries) 0 st) as [A _].
  pose proof (retry_loop_result obs max_retries (Z.to_nat max_retries) 0 st) as [N F].
  repeat split.
  - lia.
  - apply retry_loop_sleeps. destruct (Z.to_nat max_retries) eqn:E; [now left | right; lia].
  - destruct (N H) as [-> _]. lia.
  - now destruct (N H).
  - exact F.
Qed.

(** X8: stopping ends the recording whatever the controller does, keeps
    the cached frame, and hands out a path only if a recording was on and
    the controller returned that path; a second stop returns none and
    changes nothing.  After a start that succeeded, a stop asks the
    controller and returns what it returns; a start that failed leaves
    the adapter as it was. *)
Theorem recording_stops_once :
  forall (e e' : ending) (started : bool) (st : state),
    let st0 := snd (start_recording started st) in
    let st1 := snd (stop_recording e st0) in
    _is_recording st1 = false
    /\ _last_screenshot st1 = _last_screenshot st
    /\ stop_recording e' st1 = (None, st1)
    /\ (forall path, fst (stop_recording e st0) = Some path ->
          (started = true \/ _is_recording st = true)
          /\ e = EndReturns (Some path))
    /\ (started = true ->
        fst (stop_recording e st0)
        = match e with EndReturns video_path => video_path | EndRaises => None end)
    /\ (started = false -> st0 = st).
Proof.
  intros e e' started [rec cache]. unfold stop_recording, start_recording. cbn.
  destruct started, rec, e as [|[p|]]; cbn; repeat split;
    try discriminate; try congruence; try tauto;
    intros path [= <-]; tauto.
Qed.

(** X9: when the execution of an action fails, the status line tells
    why: it is [Error: ] followed by the message of the exception the
    controller raised or by the error entry of its response (the fallback
    text is never shown); the window is no longer busy, the overlay is
    closed and nothing is recorded. *)
Theorem failure_is_reported_with_its_cause :
  forall ty (f : closure) pg d (env : environment) (s : system),
    success (ViewPortWindow.call f (answer env)) = false ->
    let s' := run (ActionThread ty f pg d) env s in
    exists message,
      (answer env = Raises message \/ answer env = Response (Some message))
      /\ status_message (win s') = "Error: " ++ message
      /\ is_busy (win s') = false
      /\ show_overlay (win s') = false
      /\ recorder s' = recorder s.
Proof.
  intros ty f pg d env s F s'. subst s'.
  rewrite (run_action_failure ty f pg d env s F).
  rewrite call_as_command in F |- *.
  unfold _execute_command in *.
  destruct (answer env) as [m| |[e|]]; try discriminate F.
  - exists m. cbn. destruct (win s); cbn. repeat split. now left.
  - destruct (Py.truthy e); [|discriminate F].
    exists e. cbn. destruct (win s); cbn. repeat split. now right.
Qed.

Lemma failure_is_reported_with_its_cause_witness :
  let s' := run (ActionThread "click" (CallClick 1 2) "pg.click(1, 2)"
                   (TrajectoryManager.AtPoint 1 2)) (rejecting "no display") desk in
  exists message,
    (answer (rejecting "no display") = Raises message
     \/ answer (rejecting "no display") = Response (Some message))
    /\ status_message (win s') = "Error: " ++ message
    /\ is_busy (win s') = false
    /\ show_overlay (win s') = false
    /\ recorder s' = recorder desk.
Proof.
  exact (failure_is_reported_with_its_cause "click" (CallClick 1 2) "pg.click(1, 2)"
           (TrajectoryManager.AtPoint 1 2) (rejecting "no display") desk eq_refl).
Defined.

End Adapter.

(** ** The mouse *)

Section Mouse.

Lemma between_spec (a x b : Z) : between a x b = true <-> a <= x <= b.
Proof. unfold between. rewrite andb_true_iff, !Z.leb_le. tauto. Qed.

Lemma main_step_refl (s : system) : main_step s s.
Proof. split; [repeat split | now apply dispatch_none]. Qed.

Lemma quiet_with_win (w : window) (s : system) :
  is_busy w = is_busy (win s) -> quiet s (with_win w s).
Proof. intros B. repeat split. exact B. Qed.

Lemma quiet_main_step (s s' : system) : quiet s s' -> main_step s s'.
Proof. intros (R & T & B). split; [exact R | now apply dispatch_none]. Qed.

Lemma quiet_then (s s1 s2 : system) :
  quiet s s1 -> main_step s1 s2 -> main_step s s2.
Proof.
  intros ((R1 & R2 & R3) & T & B) [(Q1 & Q2 & Q3) D]. split.
  - repeat split; congruence.
  - destruct D as [T' B'|t B0 G T' B'|T' B'].
    + apply dispatch_none; congruence.
    + apply (dispatch_gated _ _ t); congruence.
    + apply dispatch_finish; congruence.
Qed.

Lemma then_quiet (s s1 s2 : system) :
  main_step s s1 -> quiet s1 s2 -> main_step s s2.
Proof.
  intros [(Q1 & Q2 & Q3) D] ((R1 & R2 & R3) & T & B). split.
  - repeat split; congruence.
  - destruct D as [T' B'|t B0 G T' B'|T' B'].
    + apply dispatch_none; congruence.
    + apply (dispatch_gated _ _ t); congruence.
    + apply dispatch_finish; congruence.
Qed.

Lemma submit_step (i : intent) (s : system) : main_step s (submit i s).
Proof. apply submit_main. Qed.

Lemma submit_selections (i : intent) (s : system) :
  selections (win (submit i s)) = selections (win s).
Proof.
  destruct (is_busy (win s)) eqn:B.
  - now rewrite submit_busy.
  - destruct (submit_idle i s B) as [E|(t & status & _ & E)]; rewrite E; [reflexivity|].
    cbn. now destruct (win s).
Qed.

Lemma in_section_range (w : window) (mx my y : Z) :
  in_section w (mx, my) y = true -> y <= my <= y + 50.
Proof.
  unfold in_section. destruct (panel w) as [px py].
  rewrite andb_true_iff, !between_spec. tauto.
Qed.

Lemma on_button_range (mx my x y w h : Z) :
  on_button (mx, my) x y w h = true -> x <= mx <= x + w /\ y <= my <= y + h.
Proof. unfold on_button. now rewrite andb_true_iff, !between_spec. Qed.

(** Each row of the overlay either leaves the state alone or, the click
    being on its line, does one step. *)
Lemma type_section_cases (mx my y : Z) (s : system) :
  let s' := type_section (mx, my) y s in
  s' = s
  \/ (y <= my <= y + 50 /\ main_step s s' /\ selections (win s') = selections (win s)).
Proof.
  cbn zeta. unfold type_section.
  destruct (in_section (win s) (mx, my) y) eqn:I; [|now left].
  right. split; [exact (in_section_range _ _ _ _ I)|].
  destruct (on_go_button (win s) (mx, my) y).
  - destruct (Py.truthy (overlay_type_text (win s))).
    + split.
      * apply (then_quiet _ (submit (DoType (overlay_type_text (win s))) s)).
        -- apply submit_step.
        -- apply quiet_with_win. cbn [submit].
           now destruct (win (_execute_type _ s)).
      * pose proof (submit_selections (DoType (overlay_type_text (win s))) s) as E.
        cbn [submit] in E. rewrite <- E.
        cbn. now destruct (win (_execute_type _ s)).
    + split; [apply main_step_refl | reflexivity].
  - split.
    + apply quiet_main_step, quiet_with_win. now destruct (win s).
    + cbn. now destruct (win s).
Qed.

Lemma picker_section_cases {A : Type} (mx my y : Z) (p : picker)
      (presets : list A) (selected : nat) (go : A -> system -> system)
      (s : system) :
  (forall preset s, main_step s (go preset s)
                    /\ selections (win (go preset s)) = selections (win s)) ->
  let r := picker_section (mx, my) y p presets selected go s in
  r = Some s
  \/ (y <= my <= y + 50
      /\ match r with
         | Some s' => main_step s s' /\ selections (win s') = selections (win s)
         | None => (List.length presets <= selected)%nat
         end).
Proof.
  intros G. cbn zeta. unfold picker_section.
  destruct (in_section (win s) (mx, my) y) eqn:I; [|now left].
  right. split; [exact (in_section_range _ _ _ _ I)|].
  destruct (on_go_button (win s) (mx, my) y).
  - destruct (nth_error presets selected) as [preset|] eqn:N.
    + apply G.
    + now apply nth_error_None.
  - split.
    + apply quiet_main_step, quiet_with_win. now destruct (win s).
    + cbn. now destruct (win s).
Qed.

Lemma go_hotkey (preset : string) (s : system) :
  main_step s (_execute_hotkey preset s)
  /\ selections (win (_execute_hotkey preset s)) = selections (win s).
Proof.
  split; [apply (submit_step (DoHotkey preset)) | apply (submit_selections (DoHotkey preset))].
Qed.

Lemma go_key (preset : string) (s : system) :
  main_step s (_execute_key preset s)
  /\ selections (win (_execute_key preset s)) = selections (win s).
Proof.
  split; [apply (submit_step (DoKey preset)) | apply (submit_selections (DoKey preset))].
Qed.

Lemma go_sleep (preset : Py.num) (s : system) :
  main_step s (_execute_sleep preset s)
  /\ selections (win (_execute_sleep preset s)) = selections (win s).
Proof.
  split; [apply (submit_step (DoSleep preset)) | apply (submit_selections (DoSleep preset))].
Qed.

Lemma picker_section_off {A : Type} (mx my y : Z) (p : picker)
      (presets : list A) (selected : nat) (go : A -> system -> system)
      (s : system) :
  ~ (y <= my <= y + 50) ->
  picker_section (mx, my) y p presets selected go s = Some s.
Proof.
  intros N. unfold picker_section.
  destruct (in_section (win s) (mx, my) y) eqn:I; [|reflexivity].
  now elim N; apply (in_section_range _ _ _ _ I).
Qed.

Lemma refresh_selections (s : system) :
  selections (win (_refresh_screenshot s)) = selections (win s).
Proof.
  unfold _refresh_screenshot. destruct (is_busy (win s)); [reflexivity|].
  cbn. now destruct (win s).
Qed.

Lemma buttons_row_cases (mx my y : Z) (s : system) :
  let s' := buttons_row (mx, my) y s in
  s' = s
  \/ (y <= my <= y + 38 /\ main_step s s' /\ selections (win s') = selections (win s)).
Proof.
  cbn zeta. unfold buttons_row. destruct (panel (win s)) as [px py]. cbv zeta.
  destruct (on_button (mx, my) (px + 25) y 140 38) eqn:B1.
  - apply on_button_range in B1.
    replace (on_button (mx, my) (px + 25 + 140 + 15) y 140 38) with false
      by (symmetry; unfold on_button; apply andb_false_iff; left;
          apply not_true_is_false; rewrite between_spec; lia).
    replace (on_button (mx, my) (px + 25 + (140 + 15) * 2) y 140 38) with false
      by (symmetry; unfold on_button; apply andb_false_iff; left;
          apply not_true_is_false; rewrite between_spec; lia).
    right. split; [lia|]. split.
    + apply (submit_step (DoScroll 3)).
    + apply (submit_selections (DoScroll 3)).
  - destruct (on_button (mx, my) (px + 25 + 140 + 15) y 140 38) eqn:B2.
    + apply on_button_range in B2.
      replace (on_button (mx, my) (px + 25 + (140 + 15) * 2) y 140 38) with false
        by (symmetry; unfold on_button; apply andb_false_iff; left;
            apply not_true_is_false; rewrite between_spec; lia).
      right. split; [lia|]. split.
      * apply (submit_step (DoScroll (-3))).
      * apply (submit_selections (DoScroll (-3))).
    + destruct (on_button (mx, my) (px + 25 + (140 + 15) * 2) y 140 38) eqn:B3;
        [|now left].
      apply on_button_range in B3.
      right. split; [lia|]. split.
      * apply refresh_main.
      * apply refresh_selections.
Qed.

Lemma drag_row_cases (mx my y : Z) (s : system) :
  let s' := drag_row (mx, my) y s in
  s' = s
  \/ (y <= my <= y + 38 /\ main_step s s' /\ selections (win s') = selections (win s)).
Proof.
  cbn zeta. unfold drag_row. destruct (panel (win s)) as [px py]. cbv zeta.
  destruct (on_button (mx, my) (px + 25) y (140 * 2 + 15) 38) eqn:B; [|now left].
  apply on_button_range in B. right. split; [lia|].
  destruct (drag_mode_active (win s)); split;
    try (apply quiet_main_step, quiet_with_win; now destruct (win s));
    cbn; now destruct (win s).
Qed.

Lemma finish_row_cases (mx my y : Z) (s : system) :
  let s' := finish_row (mx, my) y s in
  s' = s
  \/ (y <= my <= y + 45 /\ main_step s s' /\ selections (win s') = selections (win s)).
Proof.
  cbn zeta. unfold finish_row. destruct (panel (win s)) as [px py]. cbv zeta.
  destruct (on_button (mx, my) (px + 25) y (520 - 25 * 2) 45) eqn:B; [|now left].
  apply on_button_range in B. right. split; [lia|]. split.
  - apply finish_main.
  - cbn. now destruct (win s).
Qed.

Lemma buttons_row_off (mx my y : Z) (s : system) :
  ~ (y <= my <= y + 38) -> buttons_row (mx, my) y s = s.
Proof.
  intros N. destruct (buttons_row_cases mx my y s) as [E|(R & _)];
    [exact E | now elim N].
Qed.

Lemma drag_row_off (mx my y : Z) (s : system) :
  ~ (y <= my <= y + 38) -> drag_row (mx, my) y s = s.
Proof.
  intros N. destruct (drag_row_cases mx my y s) as [E|(R & _)];
    [exact E | now elim N].
Qed.

Lemma finish_row_off (mx my y : Z) (s : system) :
  ~ (y <= my <= y + 45) -> finish_row (mx, my) y s = s.
Proof.
  intros N. destruct (finish_row_cases mx my y s) as [E|(R & _)];
    [exact E | now elim N].
Qed.

Lemma first_item_range (hit : nat -> bool) (i n k : nat) :
  first_item hit i n = Some k ->
  (i <= k < i + n)%nat /\ hit k = true
  /\ forall j, (i <= j < k)%nat -> hit j = false.
Proof.
  revert i; induction n as [|n IH]; intros i E; [discriminate E|].
  cbn [first_item] in E. destruct (hit i) eqn:H.
  - injection E as <-. repeat split; try lia. exact H.
  - destruct (IH (S i) E) as (R & T & F). repeat split; try lia; [exact T|].
    intros j J. destruct (Nat.eq_dec j i) as [->|N]; [exact H | apply F; lia].
Qed.

Lemma selections_in_range_same (w w' : window) :
  selections w' = selections w -> selections_in_range w -> selections_in_range w'.
Proof.
  unfold selections, selections_in_range. intros E. injection E as -> -> ->. tauto.
Qed.

Lemma picker_click_keeps (pos : Z * Z) (w : window) :
  let w' := _handle_picker_click pos w in
  is_busy w' = is_busy w
  /\ (selections_in_range w -> selections_in_range w').
Proof.
  cbn zeta. unfold _handle_picker_click.
  destruct (picker_active w) as [p|] eqn:P.
  - destruct pos as [mx my]. destruct (popup w p) as [[[px py] pw] ph].
    destruct (negb _).
    + split; [now destruct w|]. apply selections_in_range_same. now destruct w.
    + destruct (first_item (on_item w p (mx, my)) 0 (picker_items p)) as [i|] eqn:F;
        [|now split].
      apply first_item_range in F as (R & _).
      split; [now destruct p, w|].
      unfold selections_in_range.
      destruct p, w; cbn in *; intros (H1 & H2 & H3); repeat split; lia.
  - split; [now destruct w|]. apply selections_in_range_same. now destruct w.
Qed.

Ltac rows_off :=
  repeat first
    [ rewrite picker_section_off by lia
    | rewrite buttons_row_off by lia
    | rewrite drag_row_off by lia
    | rewrite finish_row_off by lia
    | progress cbn [and_then] ].

(** A click on the overlay does one step of the main loop, and it raises
    only if a selection is not a position of its presets. *)
Lemma overlay_click_cases (pos : Z * Z) (s : system) :
  match _handle_overlay_click pos s with
  | Some s' =>
      main_step s s'
      /\ (selections_in_range (win s) -> selections_in_range (win s'))
  | None => ~ selections_in_range (win s)
  end.
Proof.
  unfold _handle_overlay_click.
  destruct (picker_active (win s)) as [p|] eqn:P.
  - destruct (picker_click_keeps pos (win s)) as [B S].
    split; [|exact S]. now apply quiet_main_step, quiet_with_win.
  - destruct pos as [mx my]. destruct (panel (win s)) as [px py] eqn:PN.
    destruct (negb _).
    + split.
      * apply quiet_main_step, quiet_with_win. now destruct (win s).
      * apply selections_in_range_same. cbn. now destruct (win s).
    + set (s0 := with_win (set_overlay_type_active false (win s)) s).
      assert (Q0 : quiet s s0) by (apply quiet_with_win; now destruct (win s)).
      assert (S0 : selections (win s0) = selections (win s))
        by (cbn; now destruct (win s)).
      assert (K : forall s', main_step s0 s' ->
                    selections (win s') = selections (win s0) ->
                    main_step s s'
                    /\ (selections_in_range (win s) -> selections_in_range (win s'))).
      { intros s' M E. split; [exact (quiet_then _ _ _ Q0 M)|].
        apply selections_in_range_same. congruence. }
      cbv zeta.
      destruct (type_section_cases mx my (py + 70 + 45) s0) as [E|(R & M & S)].
      2:{ rows_off. now apply K. }
      rewrite E.
      destruct (picker_section_cases mx my (py + 70 + 45 + (50 + 12)) PickHotkey
                  HOTKEY_PRESETS (overlay_selected_hotkey (win s0)) _execute_hotkey
                  s0 go_hotkey) as [E1|(R1 & C1)].
      2:{ destruct (picker_section _ _ PickHotkey _ _ _ _) as [s1|].
          - rows_off. now apply K.
          - cbn [and_then]. unfold selections_in_range.
            replace (overlay_selected_hotkey (win s))
              with (overlay_selected_hotkey (win s0)) by (cbn; now destruct (win s)).
            lia. }
      rewrite E1. cbn [and_then].
      destruct (picker_section_cases mx my (py + 70 + 45 + (50 + 12) + (50 + 12))
                  PickKey SPECIAL_KEYS (overlay_selected_key (win s0)) _execute_key
                  s0 go_key) as [E2|(R2 & C2)].
      2:{ destruct (picker_section _ _ PickKey _ _ _ _) as [s1|].
          - rows_off. now apply K.
          - cbn [and_then]. unfold selections_in_range.
            replace (overlay_selected_key (win s))
              with (overlay_selected_key (win s0)) by (cbn; now destruct (win s)).
            lia. }
      rewrite E2. cbn [and_then].
      destruct (picker_section_cases mx my
                  (py + 70 + 45 + (50 + 12) + (50 + 12) + (50 + 12))
                  PickSleep SLEEP_PRESETS (overlay_selected_sleep (win s0))
                  _execute_sleep s0 go_sleep) as [E3|(R3 & C3)].
      2:{ destruct (picker_section _ _ PickSleep _ _ _ _) as [s1|].
          - rows_off. now apply K.
          - cbn [and_then]. unfold selections_in_range.
            replace (overlay_selected_sleep (win s))
              with (overlay_selected_sleep (win s0)) by (cbn; now destruct (win s)).
            lia. }
      rewrite E3. cbn [and_then].
      match goal with
      | |- context [buttons_row (mx, my) ?y s0] =>
          destruct (buttons_row_cases mx my y s0) as [E4|(R4 & M4 & S4)]
      end.
      2:{ rows_off. now apply K. }
      rewrite E4.
      match goal with
      | |- context [drag_row (mx, my) ?y s0] =>
          destruct (drag_row_cases mx my y s0) as [E5|(R5 & M5 & S5)]
      end.
      2:{ rows_off. now apply K. }
      rewrite E5.
      match goal with
      | |- context [finish_row (mx, my) ?y s0] =>
          destruct (finish_row_cases mx my y s0) as [E6|(R6 & M6 & S6)]
      end.
      * rewrite E6. apply K; [apply main_step_refl | reflexivity].
      * now apply K.
Qed.

Lemma left_click_cases (pos : Z * Z) (s : system) :
  match left_click pos s with
  | Some s' =>
      main_step s s'
      /\ (selections_in_range (win s) -> selections_in_range (win s'))
  | None => ~ selections_in_range (win s)
  end.
Proof.
  unfold left_click. destruct (show_overlay (win s)); [apply overlay_click_cases|].
  destruct (_is_on_vm (win s) pos && negb (is_busy (win s)));
    [|split; [apply main_step_refl | tauto]].
  destruct (_screen_to_vm (win s) (fst pos) (snd pos)) as [vm_x vm_y].
  destruct (drag_mode_active (win s)).
  - destruct (drag_start_point (win s)) as [[start_x start_y]|].
    + split.
      * apply (then_quiet _ (submit (DoDrag start_x start_y vm_x vm_y) s)).
        -- apply submit_step.
        -- apply quiet_with_win. cbn [submit].
           now destruct (win (_execute_drag _ _ _ _ s)).
      * apply selections_in_range_same.
        rewrite <- (submit_selections (DoDrag start_x start_y vm_x vm_y) s).
        cbn [submit]. cbn. now destruct (win (_execute_drag _ _ _ _ s)).
    + split.
      * apply quiet_main_step, quiet_with_win. now destruct (win s).
      * apply selections_in_range_same. cbn. now destruct (win s).
  - split.
    + apply (submit_step (DoClick vm_x vm_y)).
    + apply selections_in_range_same, (submit_selections (DoClick vm_x vm_y)).
Qed.

Lemma right_click_step (pos : Z * Z) (s : system) :
  main_step s (right_click pos s)
  /\ selections (win (right_click pos s)) = selections (win s).
Proof.
  unfold right_click.
  destruct (_is_on_vm (win s) pos && negb (is_busy (win s))
            && negb (show_overlay (win s)));
    [|split; [apply main_step_refl | reflexivity]].
  destruct (drag_mode_active (win s)).
  - split.
    + apply quiet_main_step, quiet_with_win. now destruct (win s).
    + cbn. now destruct (win s).
  - destruct (_screen_to_vm (win s) (fst pos) (snd pos)) as [vm_x vm_y].
    split.
    + apply (submit_step (DoRightClick vm_x vm_y)).
    + apply (submit_selections (DoRightClick vm_x vm_y)).
Qed.

Lemma mouse_down_cases (button : Z) (pos : Z * Z) (s : system) :
  match mouse_down button pos s with
  | Some s' =>
      main_step s s'
      /\ (selections_in_range (win s) -> selections_in_range (win s'))
  | None => ~ selections_in_range (win s)
  end.
Proof.
  unfold mouse_down. destruct (button =? 1); [apply left_click_cases|].
  destruct (button =? 3).
  - destruct (right_click_step pos s) as [M S]. split; [exact M|].
    now apply selections_in_range_same.
  - split; [apply main_step_refl | tauto].
Qed.

(** X10: a click of the mouse, wherever it lands, does at most one thing:
    it starts no thread or one thread (one that carries out an action or
    a refresh only from a window that is not busy), and it writes neither
    the recorder, nor the adapter, nor anything outside the program. *)
Theorem a_click_starts_at_most_one_thread :
  forall (button : Z) (pos : Z * Z) (s s' : system),
    mouse_down button pos s = Some s' ->
    same_record s s' /\ dispatch s s'.
Proof.
  intros button pos s s' E.
  pose proof (mouse_down_cases button pos s) as C. rewrite E in C.
  exact (proj1 C).
Qed.

Lemma a_click_starts_at_most_one_thread_witness :
  exists s',
    mouse_down 1 (640, 400) desk = Some s'
    /\ same_record desk s' /\ dispatch desk s'
    /\ threads s'
       = [ActionThread "click" (CallClick 640 360) "pg.click(640, 360)"
            (TrajectoryManager.AtPoint 640 360)].
Proof.
  eexists. split; [reflexivity|].
  split; [|split; [|reflexivity]];
    apply (a_click_starts_at_most_one_thread 1 (640, 400) desk _ eq_refl).
Defined.

End Mouse.

(** ** Handlers as sequences of steps *)

Section Steps.

Lemma steps_step (s s' : system) : step s s' -> steps s s'.
Proof. intros H. exact (steps_more s s s' (steps_none s) H). Qed.

Lemma steps_trans (s s1 s2 : system) : steps s s1 -> steps s1 s2 -> steps s s2.
Proof.
  intros A B. induction B as [|s2 s3 B IH C]; [exact A|].
  exact (steps_more s s2 s3 IH C).
Qed.

Lemma steps_assign (w : window) (s : system) :
  assigns (win s) w -> steps s (with_win w s).
Proof. intros A. apply steps_step, step_assign, A. Qed.

Lemma steps_submit (i : intent) (s : system) :
  offered (win s) i -> steps s (submit i s).
Proof. intros O. apply steps_step, step_submit, O. Qed.

Lemma truthy_nonempty (text : string) :
  Py.truthy text = true -> text <> EmptyString.
Proof. destruct text; [discriminate | intros _ H; discriminate H]. Qed.

Lemma on_escape_steps (s : system) : steps s (with_win (on_escape (win s)) s).
Proof.
  unfold on_escape.
  destruct (picker_active (win s)); [apply steps_assign, assign_picker|].
  destruct (show_overlay (win s) && overlay_type_active (win s));
    [apply steps_assign, assign_type_active|].
  destruct (show_overlay (win s)).
  - apply (steps_trans _ (with_win (set_show_overlay false (win s)) s)).
    + apply steps_assign, assign_show_overlay.
    + apply (steps_assign (set_picker_active None (set_show_overlay false (win s)))
               (with_win (set_show_overlay false (win s)) s)), assign_picker.
  - destruct (drag_mode_active (win s)).
    + apply (steps_trans _ (with_win (set_drag_mode_active false (win s)) s));
        [apply steps_assign, assign_drag_mode|].
      apply (steps_trans _ (with_win (set_drag_start_point None
                                        (set_drag_mode_active false (win s))) s)).
      * apply (steps_assign _ (with_win (set_drag_mode_active false (win s)) s)),
          assign_drag_start_none.
      * apply (steps_assign _ (with_win (set_drag_start_point None
                                           (set_drag_mode_active false (win s))) s)),
          assign_status.
    + apply steps_assign, assign_is_running.
Qed.

Lemma steps_win_same (s : system) : steps s (with_win (win s) s).
Proof. rewrite with_win_same. apply steps_none. Qed.

Lemma steps_with_win (w1 w2 : window) (s s0 : system) :
  assigns w1 w2 -> steps s0 (with_win w1 s) -> steps s0 (with_win w2 s).
Proof.
  intros A S. apply (steps_more _ _ _ S).
  exact (step_assign (with_win w1 s) w2 A).
Qed.

Ltac assigning :=
  repeat first
    [ apply steps_none
    | apply steps_win_same
    | eapply steps_with_win; [solve [econstructor; eauto]|] ].

Lemma steps_then_assign (w2 : window) (s0 s : system) :
  assigns (win s) w2 -> steps s0 s -> steps s0 (with_win w2 s).
Proof.
  intros A S. apply (steps_more _ _ _ S). exact (step_assign s w2 A).
Qed.

Lemma type_go_steps (s0 s : system) :
  steps s0 s ->
  Py.truthy (overlay_type_text (win s)) = true ->
  let s1 := _execute_type (overlay_type_text (win s)) s in
  steps s0 (with_win (set_overlay_type_text EmptyString (win s1)) s1).
Proof.
  intros S T s1. apply steps_then_assign; [apply assign_text_empty|].
  apply (steps_more _ _ _ S).
  apply (step_submit s (DoType (overlay_type_text (win s)))).
  split; [reflexivity | now apply truthy_nonempty].
Qed.

Lemma keydown_steps (e : key_event) (s : system) : steps s (keydown e s).
Proof.
  unfold keydown.
  destruct (key e) eqn:K;
    try (apply steps_step, step_finish);
    try apply on_escape_steps;
    destruct (show_overlay (win s) && overlay_type_active (win s));
    unfold on_typing_key; rewrite ?K; try apply steps_none;
    try (destruct (Py.truthy (unicode e) && Py.isprintable (unicode e)) eqn:U;
         [|apply steps_none];
         apply andb_true_iff in U as [_ U];
         apply steps_assign, assign_text_more, U).
  - apply steps_assign, assign_text_less.
  - destruct (Py.truthy (overlay_type_text (win s))) eqn:T; [|apply steps_none].
    apply type_go_steps; [apply steps_none | exact T].
  - unfold on_space. destruct (picker_active (win s)); assigning.
Qed.

Lemma pan_steps (mouse_pos : Z * Z) (s : system) :
  steps s (with_win (pan mouse_pos (win s)) s).
Proof.
  unfold pan. destruct (negb (show_overlay (win s))); [|apply steps_win_same].
  apply steps_assign, assign_viewport.
Qed.

Lemma picker_click_steps (pos : Z * Z) (s : system) :
  steps s (with_win (_handle_picker_click pos (win s)) s).
Proof.
  unfold _handle_picker_click.
  destruct (picker_active (win s)) as [p|]; [|assigning].
  destruct pos as [mx my]. destruct (popup (win s) p) as [[[px py] pw] ph].
  destruct (negb _); [assigning|].
  destruct (first_item (on_item (win s) p (mx, my)) 0 (picker_items p)) as [i|] eqn:F;
    [|assigning].
  apply first_item_range in F as (R & _).
  eapply steps_with_win; [apply assign_picker|].
  apply steps_assign, assign_selection. lia.
Qed.

Lemma type_section_steps (pos : Z * Z) (y : Z) (s0 s : system) :
  steps s0 s -> steps s0 (type_section pos y s).
Proof.
  intros S. unfold type_section.
  destruct (in_section (win s) pos y); [|exact S].
  destruct (on_go_button (win s) pos y).
  - destruct (Py.truthy (overlay_type_text (win s))) eqn:T; [|exact S].
    now apply type_go_steps.
  - apply steps_then_assign; [apply assign_type_active | exact S].
Qed.

Lemma picker_section_steps {A : Type} (pos : Z * Z) (y : Z) (p : picker)
      (presets : list A) (selected : nat) (go : A -> intent)
      (s0 s s' : system) :
  (forall preset s, In preset presets -> offered (win s) (go preset)) ->
  steps s0 s ->
  picker_section pos y p presets selected (fun preset => submit (go preset)) s
  = Some s' ->
  steps s0 s'.
Proof.
  intros G S. unfold picker_section.
  destruct (in_section (win s) pos y); [|now intros [= <-]].
  destruct (on_go_button (win s) pos y).
  - destruct (nth_error presets selected) as [preset|] eqn:N; [|discriminate].
    intros [= <-]. apply (steps_more _ _ _ S), step_submit, G.
    exact (nth_error_In _ _ N).
  - intros [= <-]. apply steps_then_assign; [apply assign_picker | exact S].
Qed.

Lemma buttons_row_steps (pos : Z * Z) (y : Z) (s0 s : system) :
  steps s0 s -> steps s0 (buttons_row pos y s).
Proof.
  intros S. unfold buttons_row. destruct (panel (win s)) as [px py]. cbv zeta.
  match goal with
  | |- steps s0 (if ?c then _refresh_screenshot ?x else ?x) =>
      assert (X : steps s0 x); [|destruct c; [|exact X];
                                  exact (steps_more _ _ _ X (step_refresh x))]
  end.
  match goal with
  | |- steps s0 (if ?c then _execute_scroll ?n ?x else ?x) =>
      assert (X : steps s0 x);
        [|destruct c; [|exact X];
          apply (steps_more _ _ _ X), (step_submit x (DoScroll n)); now right]
  end.
  destruct (on_button pos (px + 25) y 140 38); [|exact S].
  apply (steps_more _ _ _ S), (step_submit s (DoScroll 3)). now left.
Qed.

Lemma drag_row_steps (pos : Z * Z) (y : Z) (s0 s : system) :
  steps s0 s -> steps s0 (drag_row pos y s).
Proof.
  intros S. unfold drag_row. destruct (panel (win s)) as [px py]. cbv zeta.
  destruct (on_button pos (px + 25) y (140 * 2 + 15) 38); [|exact S].
  apply (steps_trans _ _ _ S).
  destruct (drag_mode_active (win s)); assigning.
Qed.

Lemma finish_row_steps (pos : Z * Z) (y : Z) (s0 s : system) :
  steps s0 s -> steps s0 (finish_row pos y s).
Proof.
  intros S. unfold finish_row. destruct (panel (win s)) as [px py]. cbv zeta.
  destruct (on_button pos (px + 25) y (520 - 25 * 2) 45); [|exact S].
  exact (steps_more _ _ _ S (step_finish s)).
Qed.

Lemma overlay_click_steps (pos : Z * Z) (s s' : system) :
  _handle_overlay_click pos s = Some s' -> steps s s'.
Proof.
  unfold _handle_overlay_click.
  destruct (picker_active (win s)) as [p|].
  - intros [= <-]. apply picker_click_steps.
  - destruct pos as [mx my]. destruct (panel (win s)) as [px py].
    destruct (negb _); [intros [= <-]; assigning|].
    cbv zeta.
    set (s1 := type_section _ _ _).
    assert (S1 : steps s s1).
    { apply type_section_steps. assigning. }
    clearbody s1.
    destruct (picker_section _ _ PickHotkey _ _ _ s1) as [s2|] eqn:E2; [|discriminate].
    assert (S2 : steps s s2).
    { refine (picker_section_steps _ _ _ _ _ DoHotkey s s1 s2 _ S1 E2).
      intros preset ? I. exact I. }
    cbn [and_then].
    destruct (picker_section _ _ PickKey _ _ _ s2) as [s3|] eqn:E3; [|discriminate].
    assert (S3 : steps s s3).
    { refine (picker_section_steps _ _ _ _ _ DoKey s s2 s3 _ S2 E3).
      intros preset ? I. exact I. }
    cbn [and_then].
    destruct (picker_section _ _ PickSleep _ _ _ s3) as [s4|] eqn:E4; [|discriminate].
    assert (S4 : steps s s4).
    { refine (picker_section_steps _ _ _ _ _ DoSleep s s3 s4 _ S3 E4).
      intros preset ? I. exact I. }
    cbn [and_then]. intros [= <-].
    now apply finish_row_steps, drag_row_steps, buttons_row_steps.
Qed.

Lemma left_click_steps (pos : Z * Z) (s s' : system) :
  left_click pos s = Some s' -> steps s s'.
Proof.
  unfold left_click. destruct (show_overlay (win s)); [apply overlay_click_steps|].
  destruct (_is_on_vm (win s) pos && negb (is_busy (win s)));
    [|intros [= <-]; apply steps_none].
  destruct (_screen_to_vm (win s) (fst pos) (snd pos)) as [vm_x vm_y] eqn:V.
  destruct (drag_mode_active (win s)).
  - destruct (drag_start_point (win s)) as [[start_x start_y]|] eqn:D;
      intros [= <-].
    + eapply steps_with_win; [apply assign_drag_start_none|].
      apply steps_then_assign; [apply assign_drag_mode|].
      apply (steps_submit (DoDrag start_x start_y vm_x vm_y)).
      split; [exact D | now exists (fst pos), (snd pos)].
    + eapply steps_with_win; [apply assign_status|].
      rewrite <- V. apply steps_assign, assign_drag_start.
  - intros [= <-]. apply (steps_submit (DoClick vm_x vm_y)).
    now exists (fst pos), (snd pos).
Qed.

Lemma right_click_steps (pos : Z * Z) (s : system) : steps s (right_click pos s).
Proof.
  unfold right_click.
  destruct (_is_on_vm (win s) pos && negb (is_busy (win s))
            && negb (show_overlay (win s))); [|apply steps_none].
  destruct (drag_mode_active (win s)); [assigning|].
  destruct (_screen_to_vm (win s) (fst pos) (snd pos)) as [vm_x vm_y] eqn:V.
  apply (steps_submit (DoRightClick vm_x vm_y)).
  now exists (fst pos), (snd pos).
Qed.

Lemma handle_steps (i : input) (s s' : system) :
  handle i s = Some s' -> steps s s'.
Proof.
  destruct i as [|e|button pos|mouse_pos|n env]; cbn [handle].
  - intros [= <-]. assigning.
  - intros [= <-]. apply keydown_steps.
  - unfold mouse_down. destruct (button =? 1); [apply left_click_steps|].
    destruct (button =? 3); intros [= <-];
      [apply right_click_steps | apply steps_none].
  - intros [= <-]. apply pan_steps.
  - intros [= <-]. apply steps_step, step_run.
Qed.

Lemma main_loop_steps (inputs : list input) (s s' : system) :
  main_loop inputs s = Some s' -> steps s s'.
Proof.
  revert s; induction inputs as [|i inputs IH]; intros s; cbn [main_loop].
  - intros [= <-]. apply steps_none.
  - destruct (handle i s) as [s1|] eqn:H; [|discriminate].
    intros E. exact (steps_trans _ _ _ (handle_steps _ _ _ H) (IH _ E)).
Qed.

End Steps.

(** ** What threads and intents leave alone *)

Section Footprint.

Lemma fetch_and_display_window (env : environment) (s : system) :
  let w' := win (fst (fetch_and_display env s)) in
  same_view (win s) w' /\ same_entry (win s) w'.
Proof.
  unfold fetch_and_display, fetch, _display_screenshot.
  destruct (VMInterface.get_screenshot_with_retry _ _ _) as [got vm].
  destruct (VMInterface.frame got) as [img|]; [destruct (display_raises env)|];
    cbn; destruct (win s); repeat split.
Qed.

(** Of the window, a thread writes the flags, the status line, the last
    action and the frame only. *)
Lemma run_window (t : thread) (env : environment) (s : system) :
  same_view (win s) (win (run t env s))
  /\ same_entry (win s) (win (run t env s)).
Proof.
  destruct t as [ty f pg d|seconds| |];
    unfold run, except_finally, action_try, sleep_try, refresh_body, finish_body.
  - destruct (VMInterface.success _).
    + match goal with
      | |- context [fetch_and_display env ?x] =>
          pose proof (fetch_and_display_window env x) as F;
          destruct (fetch_and_display env x) as [s1 [m|]]
      end; cbn [fst] in F; cbn [win with_win with_recorder log] in F |- *;
        destruct F as [(V1 & V2 & V3) (E1 & E2 & E3 & E4 & E5 & E6 & E7)];
        destruct (win s1), (win s); cbn in *; repeat split; assumption.
    + cbn. destruct (win s); repeat split.
  - match goal with
    | |- context [fetch_and_display env ?x] =>
        pose proof (fetch_and_display_window env x) as F;
        destruct (fetch_and_display env x) as [s1 [m|]]
    end; cbn [fst] in F; cbn [win with_win with_recorder log] in F |- *;
      destruct F as [(V1 & V2 & V3) (E1 & E2 & E3 & E4 & E5 & E6 & E7)];
      destruct (win s1), (win s); cbn in *; repeat split; assumption.
  - unfold fetch, _display_screenshot.
    destruct (VMInterface.get_screenshot_with_retry _ _ _) as [got vm].
    destruct (VMInterface.frame got) as [img|]; [destruct (display_raises env)|];
      cbn; destruct (win s); repeat split.
  - cbn. destruct (win s); repeat split.
Qed.

(** X11: a thread, whatever it runs, leaves the view (geometry and
    viewport offset) and what the operator edits (selections, text entry,
    picker, drag mode, instruction) as they are: of the window it writes
    the flags, the status line, the last action and the frame only. *)
Theorem threads_leave_view_and_entry :
  forall (n : nat) (env : environment) (s : system),
    same_view (win s) (win (react (Run n env) s))
    /\ same_entry (win s) (win (react (Run n env) s)).
Proof.
  intros n env s. cbn [react].
  destruct (nth_error (threads s) n) as [t|]; [|repeat split].
  exact (run_window t env (with_threads (remove_nth n (threads s)) s)).
Qed.

End Footprint.

(** ** Sessions *)

Section Sessions.

Lemma react_run_window (n : nat) (env : environment) (s : system) :
  same_view (win s) (win (react (Run n env) s))
  /\ same_entry (win s) (win (react (Run n env) s)).
Proof.
  cbn [react].
  destruct (nth_error (threads s) n) as [t|]; [|repeat split].
  exact (run_window t env (with_threads (remove_nth n (threads s)) s)).
Qed.

Lemma submit_window (i : intent) (s : system) :
  same_view (win s) (win (submit i s)) /\ same_entry (win s) (win (submit i s)).
Proof.
  destruct (is_busy (win s)) eqn:B.
  - rewrite submit_busy by exact B. repeat split.
  - destruct (submit_idle i s B) as [E|(t & status & _ & E)]; rewrite E;
      [repeat split|].
    cbn. destruct (win s); repeat split.
Qed.

Lemma refresh_window (s : system) :
  same_view (win s) (win (_refresh_screenshot s))
  /\ same_entry (win s) (win (_refresh_screenshot s)).
Proof.
  unfold _refresh_screenshot. destruct (is_busy (win s)); [repeat split|].
  cbn. destruct (win s); repeat split.
Qed.

Lemma finish_window (s : system) :
  same_view (win s) (win (_on_finish s))
  /\ same_entry (win s) (win (_on_finish s)).
Proof. cbn. destruct (win s); repeat split. Qed.

(** A step either is one of the assignments or leaves view and entry
    alone. *)
Lemma step_window (s s' : system) :
  step s s' ->
  assigns (win s) (win s')
  \/ (same_view (win s) (win s') /\ same_entry (win s) (win s')).
Proof.
  intros [w A|i O| | |n env].
  - now left.
  - right. apply submit_window.
  - right. apply refresh_window.
  - right. apply finish_window.
  - right. apply react_run_window.
Qed.

Lemma update_viewport_entry (mouse_pos : Z * Z) (w : window) :
  geom (_update_viewport mouse_pos w) = geom w
  /\ is_busy (_update_viewport mouse_pos w) = is_busy w
  /\ same_entry w (_update_viewport mouse_pos w).
Proof.
  unfold _update_viewport.
  destruct (negb (needs_viewport (geom w)) || show_overlay w); [repeat split|].
  destruct mouse_pos as [mx my].
  destruct w as [g vx vy rn b ov sh ins st la h1 h2 h3 tx ta pk dm dp]. cbn.
  repeat match goal with
         | |- context [if ?c then _ else _] => destruct c; cbn
         end; repeat split.
Qed.

Lemma assigns_geom (w w' : window) : assigns w w' -> geom w' = geom w.
Proof.
  intros []; try (now destruct w); [now destruct p, w|].
  apply update_viewport_entry.
Qed.

Lemma assigns_busy (w w' : window) : assigns w w' -> is_busy w' = is_busy w.
Proof.
  intros []; try (now destruct w); [now destruct p, w|].
  apply update_viewport_entry.
Qed.

Lemma step_geom (s s' : system) : step s s' -> geom (win s') = geom (win s).
Proof.
  intros S. destruct (step_window s s' S) as [A|[(G & _) _]];
    [now apply assigns_geom | exact G].
Qed.

Lemma steps_geom (s s' : system) : steps s s' -> geom (win s') = geom (win s).
Proof.
  induction 1 as [|s1 s2 _ IH S]; [reflexivity|].
  now rewrite (step_geom _ _ S).
Qed.

Lemma tidy_same (w w' : window) :
  same_view w w' -> same_entry w w' -> tidy w -> tidy w'.
Proof.
  intros (G & X & Y) (S & T & _) (I1 & I2 & I3). split; [|split].
  - exact (selections_in_range_same _ _ S I1).
  - now rewrite T.
  - unfold viewport_in_bounds in *. now rewrite G, X, Y.
Qed.

Lemma tidy_fields (w w' : window) :
  selections_in_range w' ->
  Py.isprintable (overlay_type_text w') = true ->
  geom w' = geom w -> viewport_x w' = viewport_x w ->
  viewport_y w' = viewport_y w ->
  viewport_in_bounds w -> tidy w'.
Proof.
  intros S T G X Y I. split; [exact S|]. split; [exact T|].
  unfold viewport_in_bounds in *. now rewrite G, X, Y.
Qed.

Lemma assigns_tidy (w w' : window) :
  0 <= pan_speed (geom w) -> assigns w w' -> tidy w -> tidy w'.
Proof.
  intros P A (I1 & I2 & I3).
  destruct A as [|b|b|p| |u U| |p i R|b| |sx sy|m|mouse_pos];
    try (apply (tidy_fields w); try exact I3; destruct w; try reflexivity;
         solve [exact I1 | exact I2]).
  - apply (tidy_fields w); try exact I3; destruct w; try reflexivity;
      [exact I1|]. cbn in *. now rewrite isprintable_append, I2, U.
  - apply (tidy_fields w); try exact I3; destruct w; try reflexivity;
      [exact I1|]. cbn in *. now apply isprintable_drop_last.
  - apply (tidy_fields w); try exact I3; unfold selections_in_range in *;
      destruct p, w; cbn in *; try reflexivity; try exact I2;
      repeat split; lia.
  - destruct (update_viewport_entry mouse_pos w) as (G & _ & S & T & _).
    split; [|split].
    + exact (selections_in_range_same _ _ S I1).
    + now rewrite T.
    + exact (update_viewport_in_bounds mouse_pos w P I3).
Qed.

Lemma steps_tidy (s s' : system) :
  0 <= pan_speed (geom (win s)) ->
  steps s s' -> tidy (win s) -> tidy (win s').
Proof.
  intros P S I. induction S as [|s1 s2 S IH X]; [exact I|].
  destruct (step_window s1 s2 X) as [A|[V E]].
  - apply (assigns_tidy (win s1)); [now rewrite (steps_geom _ _ S) | exact A | exact IH].
  - exact (tidy_same _ _ V E IH).
Qed.

Lemma step_counts (s s' : system) :
  step s s' ->
  steps_match s /\ single_flight s -> steps_match s' /\ single_flight s'.
Proof.
  intros [w A|i O| | |n env] [M F].
  - pose proof (assigns_busy _ _ A) as B. split.
    + exact M.
    + unfold single_flight, in_flight in *. cbn [threads win with_win].
      now rewrite B.
  - split; [exact (steps_match_react (Submit i) s M)
           | exact (single_flight_react (Submit i) s F)].
  - split; [exact (steps_match_react Refresh s M)
           | exact (single_flight_react Refresh s F)].
  - split; [exact (steps_match_react Finish s M)
           | exact (single_flight_react Finish s F)].
  - split; [exact (steps_match_react (Run n env) s M)
           | exact (single_flight_react (Run n env) s F)].
Qed.

Lemma steps_counts (s s' : system) :
  steps s s' ->
  steps_match s /\ single_flight s -> steps_match s' /\ single_flight s'.
Proof.
  intros S I. induction S as [|s1 s2 S IH X]; [exact I|].
  exact (step_counts _ _ X IH).
Qed.

Lemma start_window size info surface dir config instr recording :
  let s := start recording (created size info surface dir config instr) in
  geom (win s) = geom (__init__ size info surface)
  /\ tidy (win s)
  /\ drag_start_point (win s) = None.
Proof.
  cbn zeta. pose proof (init_in_bounds size info surface) as I.
  destruct size, info, surface. unfold viewport_in_bounds in *. cbn in *.
  repeat split; try reflexivity; try lia; cbn; lia.
Qed.

Lemma handle_total (i : input) (s : system) :
  selections_in_range (win s) -> exists s', handle i s = Some s'.
Proof.
  intros R. destruct i as [|e|button pos|mouse_pos|n env]; cbn [handle];
    try (eexists; reflexivity).
  pose proof (mouse_down_cases button pos s) as C.
  destruct (mouse_down button pos s) as [s'|]; [now exists s' | now elim C].
Qed.

Lemma main_loop_total (inputs : list input) (s : system) :
  0 <= pan_speed (geom (win s)) ->
  tidy (win s) -> exists s', main_loop inputs s = Some s'.
Proof.
  revert s; induction inputs as [|i inputs IH]; intros s P T; cbn [main_loop].
  - now exists s.
  - destruct (handle_total i s (proj1 T)) as [s1 H]. rewrite H.
    pose proof (handle_steps _ _ _ H) as S.
    apply IH.
    + now rewrite (steps_geom _ _ S).
    + exact (steps_tidy _ _ P S T).
Qed.

(** X12: no session fails on a selection.  The one statement of the
    handlers that can raise is the indexing of a list of presets by the
    selection of its picker; whatever the operator does with keys and
    mouse and however the threads interleave, it never does, and every
    input is handled.  All along, the geometry is the one [__init__]
    computed, the selections of the pickers are positions of their
    presets, the text entry holds printable characters only and the
    viewport offset is within its bounds. *)
Theorem sessions_never_raise :
  forall size info surface dir config instr recording (inputs : list input),
    exists s,
      main_loop inputs (start recording (created size info surface dir config instr))
      = Some s
      /\ geom (win s) = geom (__init__ size info surface)
      /\ selections_in_range (win s)
      /\ Py.isprintable (overlay_type_text (win s)) = true
      /\ viewport_in_bounds (win s).
Proof.
  intros size info surface dir config instr recording inputs.
  destruct (start_window size info surface dir config instr recording)
    as (G & T & _).
  set (s0 := start recording (created size info surface dir config instr)) in *.
  assert (P : 0 <= pan_speed (geom (win s0)))
    by (rewrite G, init_pan_speed; lia).
  destruct (main_loop_total inputs s0 P T) as [s E].
  exists s. split; [exact E|].
  pose proof (main_loop_steps _ _ _ E) as S.
  split; [now rewrite (steps_geom _ _ S)|].
  exact (steps_tidy _ _ P S T).
Qed.

(** An input of the operator leaves the recorder; a thread that runs
    appends a step exactly when its execution reports success. *)
Lemma handle_appends (i : input) (s s' : system) :
  handle i s = Some s' ->
  List.length (TrajectoryManager.trajectory (recorder s'))
  = (List.length (TrajectoryManager.trajectory (recorder s))
     + match i with
       | ThreadRuns n env => reported n env s
       | _ => 0
       end)%nat.
Proof.
  destruct i as [|e|button pos|mouse_pos|n env]; cbn [handle].
  - intros [= <-]. cbn. lia.
  - intros [= <-]. destruct (keydown_main e s) as [(R & _) _]. rewrite R. lia.
  - intros E. pose proof (mouse_down_cases button pos s) as C. rewrite E in C.
    destruct C as [[(R & _) _] _]. rewrite R. lia.
  - intros [= <-]. cbn. lia.
  - intros [= <-]. apply run_nth_appends.
Qed.

Lemma main_loop_appends (inputs : list input) (s s' : system) :
  main_loop inputs s = Some s' ->
  List.length (TrajectoryManager.trajectory (recorder s'))
  = (List.length (TrajectoryManager.trajectory (recorder s))
     + session_successes inputs s)%nat.
Proof.
  revert s; induction inputs as [|i inputs IH]; intros s;
    cbn [main_loop session_successes].
  - intros [= <-]. lia.
  - destruct (handle i s) as [s1|] eqn:H; [|discriminate].
    intros E. rewrite (IH _ E), (handle_appends _ _ _ H). lia.
Qed.

Lemma start_trajectory size info surface dir config instr recording :
  TrajectoryManager.trajectory
    (recorder (start recording (created size info surface dir config instr)))
  = [].
Proof. destruct size, info, surface; reflexivity. Qed.

(** X13: in every session, with the mouse and the keys as they are
    handled, the number of steps on record is the number of executions
    that reported success, counted along the session from what the
    controller answered to each action thread that ran (a delay counts as
    a success), and it is also the number of successful executions in the
    log of what was sent; the step counter agrees with it, at most one
    thread started behind the [is_busy] test is alive and [is_busy] holds
    while one is. *)
Theorem sessions_count_what_succeeded :
  forall size info surface dir config instr recording (inputs : list input)
         (s : system),
    let s0 := start recording (created size info surface dir config instr) in
    main_loop inputs s0 = Some s ->
    List.length (TrajectoryManager.trajectory (recorder s))
    = session_successes inputs s0
    /\ steps_match s /\ single_flight s.
Proof.
  intros size info surface dir config instr recording inputs s s0 E.
  split.
  - rewrite (main_loop_appends _ _ _ E). unfold s0.
    now rewrite start_trajectory.
  - apply (steps_counts _ _ (main_loop_steps _ _ _ E)).
    apply start_invariants.
Qed.

Lemma sessions_count_what_succeeded_witness :
  let inputs := [ThreadRuns 0 (fair "frame0"); OnMouse 1 (640, 400);
                 ThreadRuns 0 (rejecting "refused"); OnMouse 1 (640, 400);
                 ThreadRuns 0 (fair "frame1"); OnKey (press K_SPACE);
                 OnMouse 1 (640, 360)] in
  let s0 := start true
              (created (1920, 1080) (1280, 720) (1280, 720) "SFT/gimp/task" []
                 "Crop the image") in
  exists s,
    main_loop inputs s0 = Some s
    /\ session_successes inputs s0 = 1%nat
    /\ recorded s = ["pg.click(640, 360)"]
    /\ List.length (TrajectoryManager.trajectory (recorder s))
       = session_successes inputs s0
    /\ steps_match s /\ single_flight s.
Proof.
  intros inputs s0.
  eexists. split; [vm_compute; reflexivity|].
  split; [vm_compute; reflexivity|]. split; [vm_compute; reflexivity|].
  apply (sessions_count_what_succeeded (1920, 1080) (1280, 720) (1280, 720)
           "SFT/gimp/task" [] "Crop the image" true inputs).
  vm_compute; reflexivity.
Defined.

End Sessions.

(** ** The trajectory and the executions *)

Section Mirror.

Lemma submit_threads (i : intent) (s : system) :
  is_busy (win s) = false ->
  threads (submit i s)
  = (threads s ++ match thread_for i with Some t => [t] | None => [] end)%list.
Proof.
  intros B. unfold thread_for.
  destruct i; cbn [submit];
    unfold _execute_click, _execute_right_click, _execute_type, _execute_hotkey,
           _execute_key, _execute_scroll, _execute_drag, _execute_sleep,
           _execute_action;
    try (rewrite B; reflexivity).
  destruct (hotkey_keys HOTKEY_MAP hotkey) as [|k ks].
  - cbn. now rewrite app_nil_r.
  - rewrite B. reflexivity.
Qed.

Lemma thread_for_acting (i : intent) (t : thread) :
  thread_for i = Some t -> acting t = true.
Proof.
  unfold thread_for.
  destruct i; cbn [submit];
    unfold _execute_click, _execute_right_click, _execute_type, _execute_hotkey,
           _execute_key, _execute_scroll, _execute_drag, _execute_sleep,
           _execute_action;
    try (cbn; intros [= <-]; reflexivity).
  destruct (hotkey_keys HOTKEY_MAP hotkey) as [|k ks]; cbn;
    [discriminate | intros [= <-]; reflexivity].
Qed.

Lemma screen_to_vm_canvas (w : window) (screen_x screen_y x y : Z) :
  1 <= vm_width (geom w) -> 1 <= vm_height (geom w) ->
  _screen_to_vm w screen_x screen_y = (x, y) ->
  0 <= x < vm_width (geom w) /\ 0 <= y < vm_height (geom w).
Proof.
  unfold _screen_to_vm. intros W H [= <- <-]. lia.
Qed.

Lemma offered_sound (w : window) (i : intent) :
  1 <= vm_width (geom w) -> 1 <= vm_height (geom w) ->
  tidy w -> drag_start_on_canvas w ->
  offered w i -> sound (geom w) i.
Proof.
  intros W H (_ & T & _) D O.
  destruct i as [x y|x y|text|hotkey|k|clicks|x1 y1 x2 y2|seconds];
    cbn [offered sound] in *; try exact O.
  - destruct O as (sx & sy & E). exact (screen_to_vm_canvas w sx sy x y W H E).
  - destruct O as (sx & sy & E). exact (screen_to_vm_canvas w sx sy x y W H E).
  - destruct O as [-> N]. now split.
  - destruct O as (S & sx & sy & E). split.
    + exact (D _ _ S).
    + exact (screen_to_vm_canvas w sx sy x2 y2 W H E).
Qed.

Lemma drag_start_same (w w' : window) :
  same_view w w' -> same_entry w w' ->
  drag_start_on_canvas w -> drag_start_on_canvas w'.
Proof.
  intros (G & _) (_ & _ & _ & _ & _ & D & _) I x y E.
  unfold inside_canvas. rewrite G. apply I. now rewrite <- D.
Qed.

Lemma assigns_drag_start (w w' : window) :
  1 <= vm_width (geom w) -> 1 <= vm_height (geom w) ->
  assigns w w' -> drag_start_on_canvas w -> drag_start_on_canvas w'.
Proof.
  intros W H A I.
  destruct A as [|b|b|p| |u U| |p i R|b| |sx sy|m|mouse_pos];
    try (destruct w; exact I).
  - destruct p, w; exact I.
  - intros x y E. destruct w; discriminate E.
  - intros x y E.
    assert (E' : _screen_to_vm w sx sy = (x, y)) by (destruct w; cbn in *; congruence).
    pose proof (screen_to_vm_canvas w sx sy x y W H E') as C.
    unfold inside_canvas. now destruct w.
  - destruct (update_viewport_entry mouse_pos w) as (G & _ & _ & _ & _ & _ & _ & D & _).
    intros x y E. unfold inside_canvas. rewrite G. apply I. now rewrite <- D.
Qed.

Lemma Forall_remove_nth {A : Type} (P : A -> Prop) (n : nat) (l : list A) :
  Forall P l -> Forall P (remove_nth n l).
Proof.
  intros F. revert n; induction F as [|x l X F IH]; intros [|n]; cbn;
    try constructor; auto.
Qed.

Lemma threads_sound_same (s s' : system) :
  geom (win s') = geom (win s) -> threads s' = threads s ->
  threads_sound s -> threads_sound s'.
Proof. unfold threads_sound. now intros -> ->. Qed.

Lemma threads_sound_snoc (t : thread) (s s' : system) :
  geom (win s') = geom (win s) -> threads s' = (threads s ++ [t])%list ->
  (acting t = true -> exists i, sound (geom (win s)) i /\ thread_for i = Some t) ->
  threads_sound s -> threads_sound s'.
Proof.
  unfold threads_sound. intros -> -> T F.
  apply Forall_app. split; [exact F|]. now constructor.
Qed.

Lemma explained_same (done : list execution) (s s' : system) :
  geom (win s') = geom (win s) -> recorder s' = recorder s ->
  effects s' = effects s ->
  explained done s -> explained done s'.
Proof. unfold explained. now intros -> -> ->. Qed.

Lemma submit_geom (i : intent) (s : system) :
  geom (win (submit i s)) = geom (win s).
Proof. apply submit_window. Qed.

Lemma step_threads_sound (s s' : system) :
  1 <= vm_width (geom (win s)) -> 1 <= vm_height (geom (win s)) ->
  tidy (win s) -> drag_start_on_canvas (win s) ->
  step s s' -> threads_sound s -> threads_sound s'.
Proof.
  intros W H T D X F. pose proof (step_geom _ _ X) as G.
  destruct X as [w A|i O| | |n env].
  - exact (threads_sound_same _ _ G eq_refl F).
  - destruct (is_busy (win s)) eqn:B.
    + now rewrite submit_busy.
    + pose proof (submit_threads i s B) as E.
      destruct (thread_for i) as [t|] eqn:TF.
      * apply (threads_sound_snoc t s _ G E); [|exact F].
        intros _. exists i. split; [|exact TF].
        now apply offered_sound.
      * rewrite app_nil_r in E. exact (threads_sound_same _ _ G E F).
  - unfold _refresh_screenshot in *. destruct (is_busy (win s)); [exact F|].
    apply (threads_sound_snoc RefreshThread s _ G eq_refl); [discriminate | exact F].
  - apply (threads_sound_snoc FinishThread s _ G eq_refl); [discriminate | exact F].
  - cbn [react] in *. destruct (nth_error (threads s) n) as [t|]; [|exact F].
    unfold threads_sound in *. rewrite G, run_threads. cbn [threads with_threads].
    now apply Forall_remove_nth.
Qed.

Lemma explained_snoc (done : list execution) (x : execution)
      (entry : TrajectoryManager.step) (e : effect) (s s' : system) :
  geom (win s') = geom (win s) ->
  sound (geom (win s)) (fst x) ->
  effect_of x = [e] ->
  effects s' = (effects s ++ [e])%list ->
  (if reported_success e
   then TrajectoryManager.trajectory (recorder s')
        = (TrajectoryManager.trajectory (recorder s) ++ [entry])%list
        /\ recorded_as (fst x) entry
   else recorder s' = recorder s) ->
  explained done s -> explained (done ++ [x]) s'.
Proof.
  intros G S E Ef R (F & X & Y). unfold explained. rewrite G. split; [|split].
  - apply Forall_app. split; [exact F | now constructor].
  - rewrite flat_map_app, Ef, X. cbn [flat_map]. now rewrite E, app_nil_r.
  - rewrite filter_app, map_app. cbn [filter]. unfold succeeded at 2. rewrite E.
    destruct (reported_success e).
    + destruct R as [-> R]. apply Forall2_app; [exact Y|].
      constructor; [exact R | constructor].
    + rewrite R. cbn [map]. now rewrite app_nil_r.
Qed.

Lemma step_explained (s s' : system) :
  step s s' -> threads_sound s ->
  (exists done, explained done s) -> exists done, explained done s'.
Proof.
  intros X F [done E]. pose proof (step_geom _ _ X) as G.
  destruct X as [w A|i O| | |n env].
  - exists done. exact (explained_same _ _ _ G eq_refl eq_refl E).
  - exists done. destruct (submit_main i s) as [(R1 & R2 & _) _].
    exact (explained_same _ _ _ G R1 R2 E).
  - exists done. destruct (refresh_main s) as [(R1 & R2 & _) _].
    exact (explained_same _ _ _ G R1 R2 E).
  - exists done. exact (explained_same _ _ _ G eq_refl eq_refl E).
  - cbn [react] in *. destruct (nth_error (threads s) n) as [t|] eqn:N;
      [|now exists done].
    set (s0 := with_threads (remove_nth n (threads s)) s) in *.
    assert (E0 : explained done s0) by exact E.
    assert (G0 : geom (win (run t env s0)) = geom (win s0)) by exact G.
    pose proof (proj1 (Forall_forall _ _) F t (nth_error_In _ _ N)) as Ft.
    destruct t as [ty f pg d|seconds| |].
    + destruct (Ft eq_refl) as (i & S & TF).
      exists (done ++ [(i, answer env)])%list.
      apply (explained_snoc done (i, answer env)
               {| TrajectoryManager.step_index :=
                    TrajectoryManager.step_count (recorder s0);
                  TrajectoryManager.screenshot := before_screenshot env s0;
                  TrajectoryManager.step_instruction :=
                    TrajectoryManager.instruction (recorder s0);
                  TrajectoryManager.action := pg;
                  TrajectoryManager.action_type := ty;
                  TrajectoryManager.timestamp := clock env;
                  TrajectoryManager.action_details := Some d |}
               (Sent (sent_text f) (answer env)) s0 _ G0 S).
      * unfold effect_of. cbn [fst snd]. now rewrite TF.
      * apply run_action_effects.
      * cbn [reported_success]. rewrite <- call_as_command.
        rewrite run_action_recorder.
        destruct (VMInterface.success (ViewPortWindow.call f (answer env)));
          [|reflexivity].
        split; [reflexivity|]. unfold recorded_as. cbn [fst]. rewrite TF.
        repeat split.
      * exact E0.
    + destruct (Ft eq_refl) as (i & S & TF).
      exists (done ++ [(i, answer env)])%list.
      apply (explained_snoc done (i, answer env)
               {| TrajectoryManager.step_index :=
                    TrajectoryManager.step_count (recorder s0);
                  TrajectoryManager.screenshot := before_screenshot env s0;
                  TrajectoryManager.step_instruction :=
                    TrajectoryManager.instruction (recorder s0);
                  TrajectoryManager.action :=
                    "pg.sleep(" ++ Py.str_num seconds ++ ")";
                  TrajectoryManager.action_type := "sleep";
                  TrajectoryManager.timestamp := clock env;
                  TrajectoryManager.action_details :=
                    Some (TrajectoryManager.Seconds seconds) |}
               (Slept seconds) s0 _ G0 S).
      * unfold effect_of. cbn [fst snd]. now rewrite TF.
      * apply run_sleep_effects.
      * cbn [reported_success]. rewrite run_sleep_recorder.
        split; [reflexivity|]. unfold recorded_as. cbn [fst]. rewrite TF.
        repeat split.
      * exact E0.
    + exists done. destruct (run_quiet RefreshThread env s0 eq_refl) as [R1 R2].
      exact (explained_same _ _ _ G0 R1 R2 E0).
    + exists done. destruct (run_quiet FinishThread env s0 eq_refl) as [R1 R2].
      exact (explained_same _ _ _ G0 R1 R2 E0).
Qed.

Lemma step_well_run (s s' : system) :
  1 <= vm_width (geom (win s)) -> 1 <= vm_height (geom (win s)) ->
  0 <= pan_speed (geom (win s)) ->
  step s s' -> well_run s -> well_run s'.
Proof.
  intros W H P X (T & D & F & E). split; [|split; [|split]].
  - destruct (step_window s s' X) as [A|[V Y]];
      [exact (assigns_tidy _ _ P A T) | exact (tidy_same _ _ V Y T)].
  - destruct (step_window s s' X) as [A|[V Y]];
      [exact (assigns_drag_start _ _ W H A D) | exact (drag_start_same _ _ V Y D)].
  - exact (step_threads_sound s s' W H T D X F).
  - exact (step_explained s s' X F E).
Qed.

Lemma steps_well_run (s s' : system) :
  1 <= vm_width (geom (win s)) -> 1 <= vm_height (geom (win s)) ->
  0 <= pan_speed (geom (win s)) ->
  steps s s' -> well_run s -> well_run s'.
Proof.
  intros W H P S I. induction S as [|s1 s2 S IH X]; [exact I|].
  pose proof (steps_geom _ _ S) as G.
  apply (step_well_run s1 s2); try rewrite G; assumption.
Qed.

Lemma start_well_run size info surface dir config instr recording :
  well_run (start recording (created size info surface dir config instr)).
Proof.
  destruct (start_window size info surface dir config instr recording)
    as (G & T & D).
  split; [exact T|]. split; [|split].
  - intros x y E. rewrite D in E. discriminate E.
  - destruct size, info, surface. cbn. constructor; [discriminate | constructor].
  - exists []. destruct size, info, surface. repeat split; constructor.
Qed.

Lemma session_well_run size info surface dir config instr recording inputs s :
  1 <= fst size -> 1 <= snd size ->
  main_loop inputs (start recording (created size info surface dir config instr))
  = Some s ->
  well_run s.
Proof.
  intros W H E.
  destruct (start_window size info surface dir config instr recording)
    as (G & _).
  refine (steps_well_run _ _ _ _ _ (main_loop_steps _ _ _ E) _);
    try (rewrite G; destruct size, info, surface; cbn in *; lia).
  apply start_well_run.
Qed.

(** X14: in every session on a remote screen of at least one pixel there
    is a list of executions (intents whose thread ran, each with the
    answer of the controller) that explains what the session did: every
    intent is sound (clicks and drags at points of the remote screen,
    printable text, presets), the effects are the commands and delays of
    these intents, in order, and the trajectory is, in order, the record
    of those executions that reported success: text, kind and details as
    the window built them. *)
Theorem trajectory_mirrors_the_executions :
  forall size info surface dir config instr recording (inputs : list input)
         (s : system),
    1 <= fst size -> 1 <= snd size ->
    main_loop inputs (start recording (created size info surface dir config instr))
    = Some s ->
    exists done : list execution,
      Forall (fun x => sound (geom (win s)) (fst x)) done
      /\ effects s = flat_map effect_of done
      /\ Forall2 recorded_as (map fst (filter succeeded done))
           (TrajectoryManager.trajectory (recorder s)).
Proof.
  intros size info surface dir config instr recording inputs s W H E.
  exact (proj2 (proj2 (proj2
           (session_well_run size info surface dir config instr recording
              inputs s W H E)))).
Qed.

Lemma trajectory_mirrors_the_executions_witness :
  exists s,
    main_loop [ThreadRuns 0 (fair "frame0"); OnMouse 1 (640, 400);
               ThreadRuns 0 (rejecting "no display"); OnMouse 3 (10, 50);
               ThreadRuns 0 (fair "frame1")]
      (start true
         (created (1920, 1080) (1280, 720) (1280, 720) "SFT/gimp/task" []
            "Crop the image"))
    = Some s
    /\ recorded s = ["pg.rightClick(10, 10)"]
    /\ exists done : list execution,
         Forall (fun x => sound (geom (win s)) (fst x)) done
         /\ effects s = flat_map effect_of done
         /\ Forall2 recorded_as (map fst (filter succeeded done))
              (TrajectoryManager.trajectory (recorder s)).
Proof.
  eexists. split; [vm_compute; reflexivity|]. split; [vm_compute; reflexivity|].
  apply (trajectory_mirrors_the_executions (1920, 1080) (1280, 720) (1280, 720)
           "SFT/gimp/task" [] "Crop the image" true
           [ThreadRuns 0 (fair "frame0"); OnMouse 1 (640, 400);
            ThreadRuns 0 (rejecting "no display"); OnMouse 3 (10, 50);
            ThreadRuns 0 (fair "frame1")]).
  - cbn; lia.
  - cbn; lia.
  - vm_compute; reflexivity.
Defined.

Lemma presets_have_keys (hotkey : string) :
  In hotkey HOTKEY_PRESETS -> hotkey_keys HOTKEY_MAP hotkey <> [].
Proof.
  intros I. cbn in I.
  repeat (destruct I as [<-|I]; [cbn; discriminate|]). now elim I.
Qed.

Lemma sound_whitelisted (g : geometry) (i : intent) ty f pg d :
  sound g i -> thread_for i = Some (ActionThread ty f pg d) -> whitelisted g f.
Proof.
  unfold thread_for.
  destruct i as [x y|x y|text|hotkey|k|clicks|x1 y1 x2 y2|seconds];
    cbn [submit sound];
    unfold _execute_click, _execute_right_click, _execute_type, _execute_hotkey,
           _execute_key, _execute_scroll, _execute_drag, _execute_sleep,
           _execute_action;
    intros S;
    try (cbn; intros [= <- <- <- <-]; cbn [whitelisted];
         first [exact S | solve [intuition]]).
  - pose proof (presets_have_keys hotkey S) as N.
    destruct (hotkey_keys HOTKEY_MAP hotkey) as [|k ks] eqn:K; [now elim N|].
    cbn. intros [= <- <- <- <-]. cbn [whitelisted]. split; [discriminate|].
    now exists hotkey.
Qed.

(** X15: nothing reaches the remote session but the calls of the
    whitelist: in every session on a remote screen of at least one pixel,
    each command that was sent is the command of a call that clicks or
    drags at points of the remote screen, types a printable text, presses
    the keys of a preset or a special key, or scrolls by three clicks; the
    literal of a typing command reads back as the text, so that the text
    cannot end the literal; and each delay is a preset. *)
Theorem only_whitelisted_commands_are_sent :
  forall size info surface dir config instr recording (inputs : list input)
         (s : system) (e : effect),
    1 <= fst size -> 1 <= snd size ->
    main_loop inputs (start recording (created size info surface dir config instr))
    = Some s ->
    In e (effects s) ->
    match e with
    | Sent command _ =>
        exists execute_fn,
          whitelisted (geom (win s)) execute_fn
          /\ command = sent_text execute_fn
          /\ forall text, execute_fn = CallTypewrite text ->
                PyLiteral.first_literal command = Some text
    | Slept seconds => In seconds SLEEP_PRESETS
    end.
Proof.
  intros size info surface dir config instr recording inputs s e W H E I.
  destruct (session_well_run size info surface dir config instr recording
              inputs s W H E) as (_ & _ & _ & done & F & X & _).
  rewrite X in I. apply in_flat_map in I as ([i r] & D & I).
  pose proof (proj1 (Forall_forall _ _) F _ D) as S. cbn [fst] in S.
  unfold effect_of in I. cbn [fst snd] in I.
  destruct (thread_for i) as [[ty f pg d|seconds| |]|] eqn:TF;
    try now elim I.
  - destruct I as [<-|[]].
    pose proof (sound_whitelisted _ i ty f pg d S TF) as WL.
    exists f. split; [exact WL|]. split; [reflexivity|].
    intros text ->. apply typewrite_literal, printable_representable, WL.
  - destruct I as [<-|[]].
    unfold thread_for in TF.
    destruct i as [x y|x y|text|hotkey|k|clicks|x1 y1 x2 y2|sec];
      cbn [submit] in TF;
      unfold _execute_click, _execute_right_click, _execute_type, _execute_hotkey,
             _execute_key, _execute_scroll, _execute_drag, _execute_sleep,
             _execute_action in TF;
      try (cbn in TF; discriminate TF).
    + destruct (hotkey_keys HOTKEY_MAP hotkey); cbn in TF; discriminate TF.
    + cbn in TF. injection TF as <-. exact S.
Qed.

Lemma only_whitelisted_commands_are_sent_witness :
  exists s,
    main_loop [ThreadRuns 0 (fair "frame0"); OnMouse 1 (640, 400);
               ThreadRuns 0 (fair "frame1")]
      (start true
         (created (1920, 1080) (1280, 720) (1280, 720) "SFT/gimp/task" []
            "Crop the image"))
    = Some s
    /\ effects s = [Sent "pyautogui.click(640, 360)" (VMInterface.Response None)]
    /\ exists execute_fn,
         whitelisted (geom (win s)) execute_fn
         /\ "pyautogui.click(640, 360)" = sent_text execute_fn
         /\ forall text, execute_fn = CallTypewrite text ->
               PyLiteral.first_literal "pyautogui.click(640, 360)" = Some text.
Proof.
  eexists. split; [vm_compute; reflexivity|]. split; [vm_compute; reflexivity|].
  apply (only_whitelisted_commands_are_sent (1920, 1080) (1280, 720) (1280, 720)
           "SFT/gimp/task" [] "Crop the image" true
           [ThreadRuns 0 (fair "frame0"); OnMouse 1 (640, 400);
            ThreadRuns 0 (fair "frame1")] _
           (Sent "pyautogui.click(640, 360)" (VMInterface.Response None))).
  - cbn; lia.
  - cbn; lia.
  - vm_compute; reflexivity.
  - vm_compute. left. reflexivity.
Defined.

End Mirror.

(** ** The numbering of the trajectory *)

Section Numbering.

Lemma numbered_record (a p ty : string) d now (tm : TrajectoryManager.state) :
  TrajectoryManager.step_count tm
  = Z.of_nat (List.length (TrajectoryManager.trajectory tm)) ->
  (p = EmptyString \/ p = TrajectoryManager.save_before_screenshot true tm) ->
  numbered tm ->
  numbered (TrajectoryManager.record_action a p ty d now tm).
Proof.
  intros C P N k entry E.
  cbn [TrajectoryManager.record_action TrajectoryManager.trajectory
       TrajectoryManager.instruction TrajectoryManager.trajectory_dir] in *.
  destruct (Nat.lt_ge_cases k (List.length (TrajectoryManager.trajectory tm)))
    as [L|L].
  - rewrite nth_error_app1 in E by exact L. exact (N k entry E).
  - rewrite nth_error_app2 in E by exact L.
    destruct (k - List.length (TrajectoryManager.trajectory tm))%nat as [|m] eqn:K;
      [|destruct m; discriminate E].
    injection E as <-. cbn.
    assert (K' : k = List.length (TrajectoryManager.trajectory tm)) by lia.
    rewrite C, <- K'. repeat split.
    destruct P as [->| ->]; [now left | right].
    unfold TrajectoryManager.save_before_screenshot. now rewrite C, <- K'.
Qed.

Lemma before_screenshot_cases (env : environment) (s : system) :
  before_screenshot env s = EmptyString
  \/ before_screenshot env s
     = TrajectoryManager.save_before_screenshot true (recorder s).
Proof.
  unfold before_screenshot. destruct (current_screenshot (win s)); [|now left].
  unfold TrajectoryManager.save_before_screenshot.
  destruct (image_saved env); [now right | now left].
Qed.

Lemma step_numbered (s s' : system) :
  step s s' -> steps_match s -> numbered (recorder s) -> numbered (recorder s').
Proof.
  intros X [_ C] N.
  destruct X as [w A|i O| | |n env].
  - exact N.
  - destruct (submit_main i s) as [(R & _) _]. now rewrite R.
  - destruct (refresh_main s) as [(R & _) _]. now rewrite R.
  - exact N.
  - cbn [react]. destruct (nth_error (threads s) n) as [t|]; [|exact N].
    set (s0 := with_threads (remove_nth n (threads s)) s).
    destruct t as [ty f pg d|seconds| |].
    + rewrite run_action_recorder.
      destruct (VMInterface.success _); [|exact N].
      apply numbered_record; [exact C | apply (before_screenshot_cases env s0) | exact N].
    + rewrite run_sleep_recorder.
      apply numbered_record; [exact C | apply (before_screenshot_cases env s0) | exact N].
    + destruct (run_quiet RefreshThread env s0 eq_refl) as [R _]. now rewrite R.
    + destruct (run_quiet FinishThread env s0 eq_refl) as [R _]. now rewrite R.
Qed.

Lemma record_action_task (a p ty : string) d now (tm : TrajectoryManager.state) :
  TrajectoryManager.instruction (TrajectoryManager.record_action a p ty d now tm)
  = TrajectoryManager.instruction tm
  /\ TrajectoryManager.trajectory_dir (TrajectoryManager.record_action a p ty d now tm)
     = TrajectoryManager.trajectory_dir tm.
Proof. split; reflexivity. Qed.

Lemma step_task (s s' : system) :
  step s s' ->
  TrajectoryManager.instruction (recorder s')
  = TrajectoryManager.instruction (recorder s)
  /\ TrajectoryManager.trajectory_dir (recorder s')
     = TrajectoryManager.trajectory_dir (recorder s).
Proof.
  intros [w A|i O| | |n env].
  - split; reflexivity.
  - destruct (submit_main i s) as [(R & _) _]. now rewrite R.
  - destruct (refresh_main s) as [(R & _) _]. now rewrite R.
  - split; reflexivity.
  - cbn [react]. destruct (nth_error (threads s) n) as [t|]; [|split; reflexivity].
    set (s0 := with_threads (remove_nth n (threads s)) s).
    destruct t as [ty f pg d|seconds| |].
    + rewrite run_action_recorder.
      destruct (VMInterface.success _); split; reflexivity.
    + rewrite run_sleep_recorder. split; reflexivity.
    + destruct (run_quiet RefreshThread env s0 eq_refl) as [R _]. now rewrite R.
    + destruct (run_quiet FinishThread env s0 eq_refl) as [R _]. now rewrite R.
Qed.

Lemma steps_numbered (s s' : system) :
  steps s s' ->
  steps_match s /\ single_flight s -> numbered (recorder s) ->
  numbered (recorder s')
  /\ TrajectoryManager.instruction (recorder s')
     = TrajectoryManager.instruction (recorder s)
  /\ TrajectoryManager.trajectory_dir (recorder s')
     = TrajectoryManager.trajectory_dir (recorder s).
Proof.
  intros S I N. induction S as [|s1 s2 S IH X];
    [split; [exact N | split; reflexivity]|].
  destruct IH as (N1 & I1 & D1).
  destruct (step_task _ _ X) as [I2 D2].
  split; [|split; congruence].
  apply (step_numbered s1 s2 X); [|exact N1].
  exact (proj1 (steps_counts _ _ S I)).
Qed.

(** X16: in every session the entries of the trajectory are numbered
    0, 1, 2, ... in the order in which they were recorded, each carries the
    instruction of the task, and each names either no screenshot or the
    file [step_<its number>_before.png] in the trajectory directory. *)
Theorem entries_are_numbered_in_order :
  forall size info surface dir config instr recording (inputs : list input)
         (s : system) (k : nat) (entry : TrajectoryManager.step),
    main_loop inputs (start recording (created size info surface dir config instr))
    = Some s ->
    nth_error (TrajectoryManager.trajectory (recorder s)) k = Some entry ->
    TrajectoryManager.step_index entry = Z.of_nat k
    /\ TrajectoryManager.step_instruction entry = instr
    /\ (TrajectoryManager.screenshot entry = EmptyString
        \/ TrajectoryManager.screenshot entry
           = TrajectoryManager.path_join
               (TrajectoryManager.path_join dir "Trajectory and Screenshot")
               ("step_" ++ Py.str_int (Z.of_nat k) ++ "_before.png")).
Proof.
  intros size info surface dir config instr recording inputs s k entry E K.
  set (s0 := start recording (created size info surface dir config instr)) in *.
  assert (N0 : numbered (recorder s0)).
  { intros j e J. destruct size, info, surface. cbn in J.
    destruct j; discriminate J. }
  destruct (steps_numbered s0 s (main_loop_steps _ _ _ E)
              (start_invariants size info surface dir config instr recording) N0)
    as (N & I & D).
  destruct (N k entry K) as (A & B & C).
  assert (I0 : TrajectoryManager.instruction (recorder s0) = instr)
    by (destruct size, info, surface; reflexivity).
  assert (D0 : TrajectoryManager.trajectory_dir (recorder s0)
               = TrajectoryManager.path_join dir "Trajectory and Screenshot")
    by (destruct size, info, surface; reflexivity).
  rewrite I, I0 in B. rewrite D, D0 in C. now repeat split.
Qed.

Lemma entries_are_numbered_in_order_witness :
  exists s entry,
    main_loop [ThreadRuns 0 (fair "frame0"); OnMouse 1 (640, 400);
               ThreadRuns 0 (fair "frame1"); OnMouse 3 (10, 50);
               ThreadRuns 0 (fair "frame2")]
      (start true
         (created (1920, 1080) (1280, 720) (1280, 720) EmptyString []
            "Crop the image"))
    = Some s
    /\ nth_error (TrajectoryManager.trajectory (recorder s)) 1 = Some entry
    /\ TrajectoryManager.screenshot entry
       = "Trajectory and Screenshot/step_1_before.png"
    /\ TrajectoryManager.step_index entry = 1
    /\ TrajectoryManager.step_instruction entry = "Crop the image".
Proof.
  eexists. eexists. split; [vm_compute; reflexivity|].
  split; [vm_compute; reflexivity|]. split; [vm_compute; reflexivity|].
  match goal with
  | |- TrajectoryManager.step_index ?e = _ /\ _ =>
      pose proof (entries_are_numbered_in_order (1920, 1080) (1280, 720) (1280, 720)
           EmptyString [] "Crop the image" true
           [ThreadRuns 0 (fair "frame0"); OnMouse 1 (640, 400);
            ThreadRuns 0 (fair "frame1"); OnMouse 3 (10, 50);
            ThreadRuns 0 (fair "frame2")] _ 1%nat e
           ltac:(vm_compute; reflexivity) ltac:(vm_compute; reflexivity)) as (A & B & _)
  end.
  split; [exact A | exact B].
Defined.

End Numbering.

(** ** A window that stays busy *)

Section Wedge.

Lemma step_wedged (s s' : system) :
  step s s' -> wedged s ->
  wedged s' /\ recorder s' = recorder s /\ effects s' = effects s.
Proof.
  intros X [B G].
  destruct X as [w A|i O| | |n env].
  - split; [|split; reflexivity]. split.
    + cbn. now rewrite (assigns_busy _ _ A).
    + exact G.
  - rewrite submit_busy by exact B. now repeat split.
  - unfold _refresh_screenshot. rewrite B. now repeat split.
  - split; [|split; reflexivity]. split.
    + cbn. now destruct (win s).
    + rewrite (in_flight_snoc gated FinishThread s (_on_finish s) eq_refl).
      cbn [gated]. lia.
  - cbn [react]. destruct (nth_error (threads s) n) as [t|] eqn:N;
      [|now repeat split].
    pose proof (filter_remove_nth gated (threads s) n t N) as F.
    fold (in_flight gated s) in F. rewrite G in F.
    destruct (gated t) eqn:Gt; [lia|].
    destruct t; try discriminate Gt.
    set (s0 := with_threads (remove_nth n (threads s)) s).
    destruct (run_quiet FinishThread env s0 eq_refl) as [R E].
    split; [|split; assumption]. split.
    + now rewrite run_finish_busy.
    + unfold in_flight. rewrite run_threads. cbn [threads with_threads s0]. lia.
Qed.

Lemma steps_wedged (s s' : system) :
  steps s s' -> wedged s ->
  wedged s' /\ recorder s' = recorder s /\ effects s' = effects s.
Proof.
  intros S W. induction S as [|s1 s2 S IH X];
    [split; [exact W | split; reflexivity]|].
  destruct IH as (W1 & R1 & E1).
  destruct (step_wedged _ _ X W1) as (W2 & R2 & E2).
  split; [exact W2|]. split; congruence.
Qed.

(** X17: a window that is busy while no thread is alive that would clear
    the flag stays so for the rest of the session: whatever the operator
    does, nothing more is executed and nothing more is recorded.  A
    refresh whose frame cannot be displayed leaves the window in this
    state, since the thread ends before it clears the flag. *)
Theorem a_wedged_window_executes_nothing :
  forall (inputs : list input) (s s' : system),
    wedged s ->
    main_loop inputs s = Some s' ->
    wedged s' /\ recorder s' = recorder s /\ effects s' = effects s.
Proof.
  intros inputs s s' W E.
  exact (steps_wedged _ _ (main_loop_steps _ _ _ E) W).
Qed.

Lemma a_wedged_window_executes_nothing_witness :
  exists s s',
    main_loop [ThreadRuns 0 (broken_display "frame0" "unknown raw mode")]
      (start true
         (created (1920, 1080) (1280, 720) (1280, 720) "SFT/gimp/task" []
            "Crop the image"))
    = Some s
    /\ threads s = []
    /\ main_loop [OnMouse 1 (640, 400); ThreadRuns 0 (fair "frame1");
                  OnKey (press K_SPACE); OnMouse 1 (400, 400)] s
       = Some s'
    /\ wedged s' /\ recorder s' = recorder s /\ effects s' = effects s.
Proof.
  eexists. eexists. split; [vm_compute; reflexivity|].
  split; [vm_compute; reflexivity|]. split; [vm_compute; reflexivity|].
  apply (a_wedged_window_executes_nothing
           [OnMouse 1 (640, 400); ThreadRuns 0 (fair "frame1");
            OnKey (press K_SPACE); OnMouse 1 (400, 400)]).
  - split; vm_compute; reflexivity.
  - vm_compute; reflexivity.
Defined.

End Wedge.

(** ** The files of the recorder *)

Section Files.

Import TrajectoryManager.

Lemma split_lines_concat (content : string) :
  String.concat EmptyString (Py.split_lines content)
  = flat (subst Py.LF EmptyString) content.
Proof.
  induction content as [|c rest IH]; [reflexivity|].
  cbn [Py.split_lines flat]. unfold subst at 1.
  destruct (Ascii.eqb c Py.LF) eqn:E.
  - pose proof (split_lines_nonempty rest) as N. rewrite <- IH.
    destruct (Py.split_lines rest) as [|piece pieces]; [now elim N|].
    reflexivity.
  - pose proof (split_lines_nonempty rest) as N. rewrite <- IH.
    destruct (Py.split_lines rest) as [|piece pieces]; [now elim N|].
    destruct pieces; reflexivity.
Qed.

Lemma cell_source_lines (content : string) :
  cell_source (_create_markdown_cell content) = Py.split_lines content.
Proof.
  unfold cell_source, _create_markdown_cell. cbn [Json.get String.eqb].
  cbn. induction (Py.split_lines content) as [|l ls IH]; [reflexivity|].
  cbn. now rewrite IH.
Qed.

(** X18: the lines of a markdown cell are the pieces of its content
    between line feeds, without the line feeds: joined by line feeds they
    give the content back, but put one after the other with nothing in
    between they give the content with every line feed removed. *)
Theorem cell_lines_carry_no_line_feed :
  forall (content : string),
    let lines := cell_source (_create_markdown_cell content) in
    Py.join nl lines = content
    /\ String.concat EmptyString lines = flat (subst Py.LF EmptyString) content
    /\ Forall (fun line => one_line line = true) lines.
Proof.
  intros content. cbn zeta. rewrite cell_source_lines.
  split; [apply split_lines_join|]. split; [apply split_lines_concat|].
  induction content as [|c rest IH]; [repeat constructor|].
  cbn [Py.split_lines]. destruct (Ascii.eqb c Py.LF) eqn:E.
  - now constructor.
  - pose proof (split_lines_nonempty rest) as N.
    destruct (Py.split_lines rest) as [|piece pieces]; [now elim N|].
    inversion IH as [|? ? P Ps]; subst. constructor; [|exact Ps].
    cbn [one_line]. now rewrite E, P.
Qed.

Lemma one_line_append (a b : string) :
  one_line (a ++ b) = one_line a && one_line b.
Proof.
  induction a as [|c a IH]; [reflexivity|].
  cbn [append one_line]. now rewrite IH, andb_assoc.
Qed.

Lemma escape_char_one_line (c : ascii) : one_line (Json.escape_char c) = true.
Proof. destruct c as [[] [] [] [] [] [] [] []]; reflexivity. Qed.

Lemma encode_str_one_line (text : string) : one_line (Json.encode_str text) = true.
Proof.
  unfold Json.encode_str. cbn [one_line]. rewrite one_line_append.
  replace (one_line (Py.chr Py.dquote)) with true by reflexivity.
  rewrite andb_true_r. cbn [negb Ascii.eqb Py.dquote Py.LF]. cbn.
  induction text as [|c text IH]; [reflexivity|].
  cbn [Json.escape]. now rewrite one_line_append, escape_char_one_line, IH.
Qed.

Lemma uint_one_line (d : Decimal.uint) :
  one_line (NilEmpty.string_of_uint d) = true.
Proof. induction d; cbn; assumption || reflexivity. Qed.

Lemma str_int_one_line (n : Z) : one_line (Py.str_int n) = true.
Proof.
  unfold Py.str_int, NilZero.string_of_int.
  destruct (Z.to_int n) as [d|d]; unfold NilZero.string_of_uint.
  - destruct d; try reflexivity; apply (uint_one_line (_ d)).
  - cbn [one_line]. destruct d; try reflexivity; apply (uint_one_line (_ d)).
Qed.

Lemma join_one_line (sep : string) (parts : list string) :
  one_line sep = true ->
  Forall (fun part => one_line part = true) parts ->
  one_line (Py.join sep parts) = true.
Proof.
  intros S F. induction F as [|part parts P F IH]; [reflexivity|].
  destruct parts as [|q parts]; [exact P|].
  rewrite join_cons by discriminate.
  now rewrite !one_line_append, P, S, IH.
Qed.

Lemma dumps_compact_obj (members : list (string * Json.value)) :
  Json.dumps_compact (Json.Obj members)
  = ("{" ++ Py.join ", "
              (map (fun kv => Json.encode_str (fst kv) ++ ": "
                              ++ Json.dumps_compact (snd kv)) members)
     ++ "}")%string.
Proof. reflexivity. Qed.

Lemma dumps_compact_arr (items : list Json.value) :
  Json.dumps_compact (Json.Arr items)
  = ("[" ++ Py.join ", " (map Json.dumps_compact items) ++ "]")%string.
Proof. reflexivity. Qed.

Lemma bracket_one_line (opening body closing : string) :
  one_line opening = true -> one_line closing = true ->
  one_line body = true ->
  one_line (opening ++ body ++ closing) = true.
Proof. intros A B C. now rewrite !one_line_append, A, B, C. Qed.

Lemma member_one_line (key : string) (v : Json.value) :
  one_line (Json.dumps_compact v) = true ->
  one_line (Json.encode_str key ++ ": " ++ Json.dumps_compact v) = true.
Proof.
  intros V. now rewrite !one_line_append, encode_str_one_line, V.
Qed.

Lemma members_one_line (d : details) :
  (forall r, d = Seconds (Py.Float r) -> one_line r = true) ->
  one_line (Json.dumps_compact (Json.Obj (members d))) = true.
Proof.
  intros R. rewrite dumps_compact_obj.
  apply bracket_one_line; try reflexivity.
  apply join_one_line; [reflexivity|].
  destruct d as [x y|text|keys|k|clicks|x1 y1 x2 y2|seconds];
    cbn [members map fst snd];
    repeat (constructor; [apply member_one_line|]); try constructor;
    try apply str_int_one_line; try apply encode_str_one_line.
  - rewrite dumps_compact_arr. apply bracket_one_line; try reflexivity.
    apply join_one_line; [reflexivity|].
    clear R. induction keys as [|key keys IH]; cbn [map]; constructor;
      [|exact IH].
    apply encode_str_one_line.
  - destruct seconds as [n|r]; cbn [Json.dumps_compact].
    + apply str_int_one_line.
    + exact (R r eq_refl).
Qed.

Lemma step_log_one_line (entry : step) :
  plain_numbers entry -> one_line (Json.dumps_compact (step_log entry)) = true.
Proof.
  intros [T D]. unfold step_log. rewrite dumps_compact_obj.
  apply bracket_one_line; try reflexivity.
  apply join_one_line; [reflexivity|].
  rewrite map_app. apply Forall_app. split.
  - cbn [map fst snd].
    repeat (constructor; [apply member_one_line|]); try constructor;
      try apply str_int_one_line; try apply encode_str_one_line;
      try exact T.
    rewrite dumps_compact_obj. apply bracket_one_line; try reflexivity.
    cbn [map fst snd Py.join]. apply member_one_line, encode_str_one_line.
  - destruct (action_details entry) as [d|]; [|constructor].
    cbn [map fst snd]. constructor; [|constructor].
    apply member_one_line, members_one_line. intros r ->. now apply D.
Qed.

Lemma split_lines_line (line rest : string) :
  one_line line = true ->
  Py.split_lines (line ++ nl ++ rest) = line :: Py.split_lines rest.
Proof.
  induction line as [|c line IH]; [reflexivity|].
  cbn [one_line]. intros P. apply andb_true_iff in P as [Pc Pl].
  cbn [append Py.split_lines]. apply negb_true_iff in Pc. rewrite Pc.
  now rewrite (IH Pl).
Qed.

(** X19: the trajectory file has one line per entry, in order, and each
    line is the JSON text of its entry: whatever the instruction, the
    typed text and the key names contain, line feeds included, they do
    not break a line, because the encoder escapes them.  (Numbers are
    taken to be printed on one line, as Python prints them.) *)
Theorem trajectory_file_has_a_line_per_entry :
  forall (tm : state),
    Forall plain_numbers (trajectory tm) ->
    Py.split_lines (snd (save_trajectory tm))
    = (map (fun entry => Json.dumps_compact (step_log entry)) (trajectory tm)
       ++ [EmptyString])%list.
Proof.
  intros tm F. unfold save_trajectory. cbn [snd].
  induction F as [|entry entries P F IH]; [reflexivity|].
  cbn [jsonl map app].
  now rewrite (split_lines_line _ _ (step_log_one_line entry P)), IH.
Qed.

Lemma trajectory_file_has_a_line_per_entry_witness :
  let tm :=
    record_action ("pg.typewrite('a" ++ nl ++ "b')") EmptyString "typewrite"
      (Some (Text ("a" ++ nl ++ "b"))) "1700000000.5"
      (record_action "pg.sleep(0.5)" EmptyString "sleep"
         (Some (Seconds Py.half)) "1700000000.0"
         (__init__ "SFT/gimp/task" [] ("Crop" ++ nl ++ "the image"))) in
  List.length (Py.split_lines (snd (save_trajectory tm))) = 3%nat
  /\ Py.split_lines (snd (save_trajectory tm))
     = (map (fun entry => Json.dumps_compact (step_log entry)) (trajectory tm)
        ++ [EmptyString])%list.
Proof.
  intros tm. split; [vm_compute; reflexivity|].
  apply (trajectory_file_has_a_line_per_entry tm).
  repeat constructor; cbn; intros r [= <-]; reflexivity.
Defined.

End Files.

(** ** The pickers *)

Section Pickers.

Lemma first_item_found (hit : nat -> bool) (i n k : nat) :
  hit k = true ->
  (forall j, (i <= j < k)%nat -> hit j = false) ->
  (i <= k < i + n)%nat ->
  first_item hit i n = Some k.
Proof.
  revert i; induction n as [|n IH]; intros i H F R; [lia|].
  cbn [first_item]. destruct (Nat.eq_dec i k) as [->|N].
  - now rewrite H.
  - rewrite (F i) by lia. apply IH; [exact H | intros j J; apply F; lia | lia].
Qed.

Lemma picker_sizes (p : picker) :
  (picker_items p
   = match p with PickHotkey => 15 | PickKey => 14 | PickSleep => 6 end)%nat.
Proof. now destruct p. Qed.

(** The areas of the items that react lie inside the popup and do not
    overlap. *)
Lemma picker_click_on_item (w : window) (p : picker) (i : nat) (mx my : Z) :
  picker_active w = Some p ->
  (i < picker_items p)%nat ->
  on_item w p (mx, my) i = true ->
  _handle_picker_click (mx, my) w = set_picker_active None (select p i w)
  /\ forall j, (j < picker_items p)%nat -> j <> i ->
               on_item w p (mx, my) j = false.
Proof.
  intros P I H.
  assert (D : forall j, (j < picker_items p)%nat -> j <> i ->
                        on_item w p (mx, my) j = false).
  { intros j J N. apply not_true_is_false. intros Hj.
    unfold on_item, popup in H, Hj. cbv beta iota zeta in H, Hj.
    rewrite andb_true_iff, !between_spec in H, Hj.
    rewrite picker_sizes in I, J.
    destruct p; cbn [picker_cols] in *; Z.div_mod_to_equations; lia. }
  split; [|exact D].
  unfold _handle_picker_click. rewrite P.
  rewrite (first_item_found _ 0 (picker_items p) i H);
    [|intros j J; apply D; lia | lia].
  unfold on_item, popup in H |- *. cbv beta iota zeta in H |- *.
  rewrite andb_true_iff, !between_spec in H.
  rewrite picker_sizes in *.
  match goal with
  | |- (if negb ?c then _ else _) = _ => assert (C : c = true)
  end.
  { rewrite andb_true_iff, !between_spec.
    destruct p; cbn [picker_cols] in *; Z.div_mod_to_equations; lia. }
  now rewrite C.
Qed.

End Pickers.

(** ** From the mouse to the remote session *)

Section Clicks.

Lemma click_on_view (s : system) (pos : Z * Z) :
  show_overlay (win s) = false ->
  is_busy (win s) = false ->
  drag_mode_active (win s) = false ->
  hud_height (geom (win s)) <= snd pos ->
  let '(vm_x, vm_y) := _screen_to_vm (win s) (fst pos) (snd pos) in
  mouse_down 1 pos s
  = Some (start_thread
            (ActionThread "click" (CallClick vm_x vm_y)
               ("pg.click(" ++ Py.str_int vm_x ++ ", " ++ Py.str_int vm_y ++ ")")
               (TrajectoryManager.AtPoint vm_x vm_y))
            (accepted "Executing..." s)).
Proof.
  intros O B D Y.
  destruct (_screen_to_vm (win s) (fst pos) (snd pos)) as [vm_x vm_y] eqn:V.
  unfold mouse_down. cbn [Z.eqb Pos.eqb]. unfold left_click.
  rewrite O. unfold _is_on_vm. destruct pos as [x y]. cbn [fst snd] in *.
  rewrite O, B, V, D. replace (hud_height (geom (win s)) <=? y) with true
    by (symmetry; now apply Z.leb_le).
  cbn [negb andb]. unfold _execute_click.
  now rewrite execute_action_accepts by exact B.
Qed.

(** X20: what is shown is what gets clicked.  On an idle window without
    overlay and drag mode, a left click on the pixel at offset (i, j) of
    the rectangle into which [_draw_vm] copies the frame is handled, and
    the thread it starts sends [pyautogui.click(x, y)] for exactly the
    pixel (x, y) of the frame that is drawn there, whatever the viewport
    offset. *)
Theorem a_click_reaches_the_pixel_that_is_shown :
  forall (s : system) (env : environment) (i j : Z),
    show_overlay (win s) = false ->
    is_busy (win s) = false ->
    drag_mode_active (win s) = false ->
    0 <= viewport_x (win s) ->
    0 <= viewport_y (win s) ->
    let '(src_x, src_y, width, height) := src_rect (win s) in
    let '(dest_x, dest_y, _, _) := dest_rect (win s) in
    0 <= i < width ->
    0 <= j < height ->
    exists s1,
      mouse_down 1 (dest_x + i, dest_y + j) s = Some s1
      /\ effects (react (Run (List.length (threads s)) env) s1)
         = (effects s
            ++ [Sent ("pyautogui.click(" ++ Py.str_int (src_x + i) ++ ", "
                      ++ Py.str_int (src_y + j) ++ ")") (answer env)])%list.
Proof.
  intros s env i j O B D X Y. unfold dest_rect, src_rect. cbv beta iota zeta.
  intros I J.
  pose proof (click_on_view s (0 + i, hud_height (geom (win s)) + j) O B D) as C.
  cbn [fst snd] in C.
  assert (V : _screen_to_vm (win s) (0 + i) (hud_height (geom (win s)) + j)
              = (viewport_x (win s) + i, viewport_y (win s) + j))
    by (unfold _screen_to_vm; f_equal; lia).
  rewrite V in C. eexists. split; [apply C; lia|].
  rewrite run_started, run_action_effects. reflexivity.
Qed.

Lemma a_click_reaches_the_pixel_that_is_shown_witness :
  let s := with_win (pans [(1279, 719); (1279, 719)] (win desk)) desk in
  exists s1,
    mouse_down 1 (0 + 1279, 40 + 679) s = Some s1
    /\ effects (react (Run 0 (fair "frame1")) s1)
       = [Sent "pyautogui.click(1319, 719)" (VMInterface.Response None)].
Proof.
  intros s.
  exact (a_click_reaches_the_pixel_that_is_shown s (fair "frame1") 1279 679
           eq_refl eq_refl eq_refl ltac:(now vm_compute) ltac:(now vm_compute)
           ltac:(now vm_compute) ltac:(now vm_compute)).
Defined.

Lemma update_viewport_view (mouse_pos : Z * Z) (w w' : window) :
  same_view w w' -> show_overlay w' = show_overlay w ->
  same_view (_update_viewport mouse_pos w) (_update_viewport mouse_pos w').
Proof.
  intros (G & X & Y) O. unfold _update_viewport.
  destruct w as [g vx vy rn b ov sh ins st la h1 h2 h3 tx ta pk dm dp].
  destruct w' as [g' vx' vy' rn' b' ov' sh' ins' st' la' h1' h2' h3' tx' ta' pk' dm' dp'].
  cbn in *. subst g' vx' vy' ov'.
  destruct (negb (needs_viewport g) || ov); [now repeat split|].
  destruct mouse_pos as [mx my].
  repeat match goal with
         | |- context [if ?c then _ else _] => destruct c; cbn
         end; repeat split.
Qed.

Lemma pans_view (positions : list (Z * Z)) (w w' : window) :
  same_view w w' -> show_overlay w' = show_overlay w ->
  same_view (pans positions w) (pans positions w').
Proof.
  revert w w'; induction positions as [|p l IH]; intros w w' V O; [exact V|].
  cbn [pans fold_left]. fold (pans l (_update_viewport p w)).
  fold (pans l (_update_viewport p w')).
  apply IH; [now apply update_viewport_view|].
  now rewrite !update_viewport_overlay.
Qed.

Lemma pans_entry (positions : list (Z * Z)) (w : window) :
  is_busy (pans positions w) = is_busy w
  /\ show_overlay (pans positions w) = show_overlay w
  /\ same_entry w (pans positions w).
Proof.
  revert w; induction positions as [|p l IH]; intros w; [repeat split|].
  cbn [pans fold_left]. fold (pans l (_update_viewport p w)).
  destruct (IH (_update_viewport p w)) as (B & O & E1 & E2 & E3 & E4 & E5 & E6 & E7).
  destruct (update_viewport_entry p w) as (_ & B' & F1 & F2 & F3 & F4 & F5 & F6 & F7).
  rewrite update_viewport_overlay in O.
  repeat split; congruence.
Qed.

Lemma pans_loop (positions : list (Z * Z)) (rest : list input) (s : system) :
  show_overlay (win s) = false ->
  main_loop (map EndOfPass positions ++ rest) s
  = main_loop rest (with_win (pans positions (win s)) s).
Proof.
  revert s; induction positions as [|p l IH]; intros s O.
  - cbn [map app pans fold_left]. now rewrite with_win_same.
  - cbn [map app main_loop handle]. rewrite IH.
    + cbn [win with_win pans fold_left]. unfold pan. now rewrite O.
    + cbn [win with_win]. unfold pan. rewrite O. cbn [negb].
      now rewrite update_viewport_overlay.
Qed.

(** X21: a drag can span more than the view.  With the drag mode armed
    on an idle window without overlay, a click on the view, any panning
    of the view, and a second click start one thread, which sends
    [pyautogui.moveTo] to the point under the first click (as the view
    was then) and [pyautogui.drag] by the distance to the point under the
    second click (as the view is then); the drag mode is left. *)
Theorem a_drag_spans_the_pans_between_its_clicks :
  forall (s : system) (env : environment) (p1 p2 : Z * Z)
         (positions : list (Z * Z)),
    show_overlay (win s) = false ->
    is_busy (win s) = false ->
    drag_mode_active (win s) = true ->
    drag_start_point (win s) = None ->
    hud_height (geom (win s)) <= snd p1 ->
    hud_height (geom (win s)) <= snd p2 ->
    let '(x1, y1) := _screen_to_vm (win s) (fst p1) (snd p1) in
    let '(x2, y2) := _screen_to_vm (pans positions (win s)) (fst p2) (snd p2) in
    exists s',
      main_loop (OnMouse 1 p1
                 :: map EndOfPass positions
                 ++ [OnMouse 1 p2; ThreadRuns (List.length (threads s)) env]) s
      = Some s'
      /\ effects s'
         = (effects s
            ++ [Sent ("pyautogui.moveTo(" ++ Py.str_int x1 ++ ", " ++ Py.str_int y1
                      ++ "); pyautogui.drag(" ++ Py.str_int (x2 - x1) ++ ", "
                      ++ Py.str_int (y2 - y1) ++ ", duration=0.5)")
                 (answer env)])%list
      /\ drag_mode_active (win s') = false
      /\ drag_start_point (win s') = None.
Proof.
  intros s env [sx1 sy1] [sx2 sy2] positions O B D S Y1 Y2. cbn [fst snd] in *.
  destruct (_screen_to_vm (win s) sx1 sy1) as [x1 y1] eqn:V1.
  destruct (_screen_to_vm (pans positions (win s)) sx2 sy2) as [x2 y2] eqn:V2.
  cbn [main_loop handle]. unfold mouse_down at 1. cbn [Z.eqb Pos.eqb].
  unfold left_click at 1. rewrite O. unfold _is_on_vm. rewrite O, B.
  replace (hud_height (geom (win s)) <=? sy1) with true
    by (symmetry; now apply Z.leb_le).
  cbn [negb andb fst snd]. rewrite V1, D, S.
  set (w1 := set_status_message _ _).
  rewrite pans_loop by (cbn; subst w1; now destruct (win s)).
  cbn [win with_win].
  set (w2 := pans positions w1).
  assert (V : same_view (win s) w1) by (subst w1; destruct (win s); repeat split).
  assert (O1 : show_overlay w1 = show_overlay (win s))
    by (subst w1; now destruct (win s)).
  destruct (pans_view positions _ _ V O1) as (G2 & X2 & Z2). fold w2 in G2, X2, Z2.
  destruct (pans_entry positions (win s)) as (_ & _ & _ & _ & _ & _ & _ & _ & _).
  destruct (pans_entry positions w1) as (B2 & O2 & _ & _ & _ & _ & D2 & S2 & _).
  fold w2 in B2, O2, D2, S2.
  assert (G : geom w2 = geom (win s)).
  { rewrite G2. apply pans_geom. }
  assert (V2' : _screen_to_vm w2 sx2 sy2 = (x2, y2)).
  { rewrite <- V2. unfold _screen_to_vm. now rewrite G2, X2, Z2. }
  assert (Bw : is_busy w2 = false) by (rewrite B2; subst w1; now destruct (win s)).
  assert (Ow : show_overlay w2 = false) by (rewrite O2, O1; exact O).
  assert (Dw : drag_mode_active w2 = true)
    by (rewrite D2; subst w1; destruct (win s); exact D).
  assert (Sw : drag_start_point w2 = Some (x1, y1))
    by (rewrite S2; subst w1; now destruct (win s)).
  cbn [main_loop handle]. unfold mouse_down. cbn [Z.eqb Pos.eqb].
  unfold left_click. cbn [win with_win]. rewrite Ow. unfold _is_on_vm.
  rewrite Ow, Bw, G.
  replace (hud_height (geom (win s)) <=? sy2) with true
    by (symmetry; now apply Z.leb_le).
  cbn [negb andb fst snd]. rewrite V2', Dw, Sw.
  unfold _execute_drag. rewrite execute_action_accepts by exact Bw.
  cbn [react threads start_thread accepted with_threads with_win win].
  rewrite nth_error_snoc, remove_nth_snoc.
  eexists. split; [reflexivity|]. split; [|split].
  - now rewrite run_action_effects.
  - match goal with
    | |- drag_mode_active (win (run ?t env ?x)) = _ =>
        destruct (run_window t env x) as (_ & _ & _ & _ & _ & E & _);
        rewrite E
    end. cbn. now destruct w2.
  - match goal with
    | |- drag_start_point (win (run ?t env ?x)) = _ =>
        destruct (run_window t env x) as (_ & _ & _ & _ & _ & _ & E & _);
        rewrite E
    end. cbn. now destruct w2.
Qed.

Lemma a_drag_spans_the_pans_between_its_clicks_witness :
  let s := with_win (set_drag_mode_active true (win desk)) desk in
  exists s',
    main_loop (OnMouse 1 (100, 140)
               :: map EndOfPass [(1279, 300); (1279, 300)]
               ++ [OnMouse 1 (1200, 140); ThreadRuns 0 (fair "frame1")]) s
    = Some s'
    /\ effects s'
       = [Sent "pyautogui.moveTo(100, 100); pyautogui.drag(1140, 0, duration=0.5)"
            (VMInterface.Response None)]
    /\ drag_mode_active (win s') = false
    /\ drag_start_point (win s') = None.
Proof.
  intros s.
  exact (a_drag_spans_the_pans_between_its_clicks s (fair "frame1")
           (100, 140) (1200, 140) [(1279, 300); (1279, 300)]
           eq_refl eq_refl eq_refl eq_refl
           ltac:(now vm_compute) ltac:(now vm_compute)).
Defined.

End Clicks.

(** ** Releasing the window *)

Section Release.

Lemma except_finally_releases (o : outcome) :
  is_busy (win (except_finally o)) = false
  /\ show_overlay (win (except_finally o)) = false.
Proof.
  destruct o as [s [m|]]; cbn; destruct (win s); split; reflexivity.
Qed.

(** X22: every thread that carries out an action releases the window
    when it ends, whether the command succeeded, failed or something
    raised: [is_busy] is cleared and the overlay is closed.  A window can
    be left busy by the finish thread, which never clears the flag, and by
    a refresh thread only if it fetched a frame that could not be
    displayed. *)
Theorem action_threads_release_the_window :
  forall (t : thread) (env : environment) (s : system),
    (acting t = true ->
     is_busy (win (run t env s)) = false
     /\ show_overlay (win (run t env s)) = false)
    /\ (is_busy (win (run t env s)) = true ->
        t = FinishThread
        \/ (t = RefreshThread
            /\ fst (fetch env s) <> None
            /\ display_raises env <> None)).
Proof.
  intros t env s. split.
  - destruct t; intros A; try discriminate A; apply except_finally_releases.
  - destruct t as [ty f pg d|seconds| |]; intros B.
    + unfold run in B. now rewrite (proj1 (except_finally_releases _)) in B.
    + unfold run in B. now rewrite (proj1 (except_finally_releases _)) in B.
    + right. split; [reflexivity|].
      unfold run, refresh_body in B.
      destruct (fetch env s) as [[img|] s1]; cbn [fst].
      * split; [discriminate|].
        unfold _display_screenshot in B.
        destruct (display_raises env) as [m|]; [discriminate|].
        cbn in B. destruct (win s1); discriminate B.
      * cbn in B. destruct (win s1); discriminate B.
    + now left.
Qed.

End Release.

(** ** What is drawn and what reacts *)

Section Layout.

Lemma type_section_off (mx my y : Z) (s : system) :
  ~ (y <= my <= y + 50) -> type_section (mx, my) y s = s.
Proof.
  intros N. destruct (type_section_cases mx my y s) as [E|(R & _)];
    [exact E | now elim N].
Qed.

Lemma covers_spec (x y w h mx my : Z) :
  covers (x, y, w, h) (mx, my) = true
  <-> (x <= mx < x + w /\ y <= my < y + h).
Proof.
  unfold covers. rewrite !andb_true_iff, !Z.leb_le, !Z.ltb_lt. tauto.
Qed.

Ltac decide_between :=
  repeat match goal with
         | |- context [between ?a ?x ?b] =>
             first
               [ replace (between a x b) with true
                   by (symmetry; apply between_spec; lia)
               | replace (between a x b) with false
                   by (symmetry; apply not_true_is_false; rewrite between_spec; lia) ]
         end.

Ltac refute_go :=
  match goal with
  | |- context [between ?a ?x ?b && between ?c ?y ?d] =>
      replace (between a x b && between c y d) with false
        by (symmetry; apply not_true_is_false;
            rewrite andb_true_iff, !between_spec; lia)
  end.

Ltac all_rows_off :=
  repeat first
    [ rewrite type_section_off by lia
    | rewrite picker_section_off by lia
    | rewrite buttons_row_off by lia
    | rewrite drag_row_off by lia
    | rewrite finish_row_off by lia
    | progress cbn [and_then] ].

(** X23: what is drawn is what reacts.  With no picker open, a click on
    a pixel that the rectangle of a button of the overlay covers (a Go
    button, a scroll button, refresh, drag, finish) does what the button
    is there for; a click on a pixel of a card does what the card is there
    for, unless the pixel is one of the Go button of the card or of the
    column right of it or the row below it, which react as the button:
    the handler takes both edges of a rectangle as inside. *)
Theorem a_drawn_control_reacts_as_itself :
  forall (s : system) (c : control) (r : rect) (pos : Z * Z),
    picker_active (win s) = None ->
    In (c, r) (_draw_overlay (win s)) ->
    covers r pos = true ->
    (is_card c = true ->
     forall button r',
       In (button, r') (_draw_overlay (win s)) -> is_card button = false ->
       covers (grown r') pos = false) ->
    _handle_overlay_click pos s = reaction c s.
Proof.
  intros s c r [mx my] P I C K.
  unfold _draw_overlay in I, K.
  destruct (show_overlay (win s)); [|now elim I]. cbn [negb] in I, K.
  cbv zeta in I, K. unfold _draw_section_card, _draw_modern_button in I, K.
  cbn [app] in I, K.
  unfold _handle_overlay_click. rewrite P. unfold panel.
  set (px := (window_width (geom (win s)) - 520) / 2) in *.
  set (py := (window_height (geom (win s)) - 580) / 2) in *.
  assert (G : forall x y w h, covers (grown (x, y, w, h)) (mx, my) = false ->
                ~ (x <= mx <= x + w /\ y <= my <= y + h)).
  { intros x y w h F N. unfold grown in F.
    rewrite (proj2 (covers_spec x y (w + 1) (h + 1) mx my)) in F by lia.
    discriminate F. }
  assert (P0 : panel (set_overlay_type_active false (win s)) = (px, py))
    by (subst px py; unfold panel; now destruct (win s)).
  cbn [In] in I.
  repeat (destruct I as [I|I]; [|try (now elim I)]);
    injection I as <- <-; apply covers_spec in C;
    cbn [is_card] in K;
    (replace (between px mx (px + 520) && between py my (py + 580)) with true
      by (symmetry; apply andb_true_iff; rewrite !between_spec; lia));
    cbn [negb]; cbv zeta; unfold reaction; cbv zeta.
  - (* the card of the text entry *)
    pose proof (G _ _ _ _ (K eq_refl TypeGo (px + 25 + (520 - 25 * 2) - 65,
                                             py + 70 + 45 + 10, 55, 50 - 20)
                             ltac:(cbn [In]; tauto) eq_refl)) as N.
    all_rows_off. unfold type_section, in_section, on_go_button.
    cbn [win with_win]. rewrite P0. decide_between.
    replace (between (px + 25 + (520 - 25 * 2) - 65) mx
               (px + 25 + (520 - 25 * 2) - 65 + 55)
             && between (py + 70 + 45 + 10) my (py + 70 + 45 + 10 + (50 - 20)))
      with false
      by (symmetry; apply not_true_is_false; rewrite andb_true_iff, !between_spec; lia).
    reflexivity.
  - (* its Go button *)
    all_rows_off. unfold type_section, in_section, on_go_button.
    cbn [win with_win]. rewrite P0. decide_between. cbn [andb].
    now destruct (Py.truthy _).
  - (* the card of the hotkeys *)
    pose proof (G _ _ _ _ (K eq_refl HotkeyGo
                             (px + 25 + (520 - 25 * 2) - 65,
                              py + 70 + 45 + (50 + 12) + 10, 55, 50 - 20)
                             ltac:(cbn [In]; tauto) eq_refl)) as N.
    all_rows_off. unfold picker_section at 1, in_section, on_go_button.
    cbn [win with_win]. rewrite P0. decide_between. refute_go.
    cbn [andb and_then]. all_rows_off. reflexivity.
  - (* its Go button *)
    all_rows_off. unfold picker_section at 1, in_section, on_go_button.
    cbn [win with_win]. rewrite P0. decide_between. cbn [andb].
    destruct (nth_error HOTKEY_PRESETS _); cbn [and_then option_map];
      [all_rows_off|]; reflexivity.
  - (* the card of the keys *)
    pose proof (G _ _ _ _ (K eq_refl KeyGo
                             (px + 25 + (520 - 25 * 2) - 65,
                              py + 70 + 45 + (50 + 12) + (50 + 12) + 10,
                              55, 50 - 20)
                             ltac:(cbn [In]; tauto) eq_refl)) as N.
    all_rows_off. unfold picker_section at 1, in_section, on_go_button.
    cbn [win with_win]. rewrite P0. decide_between. refute_go.
    cbn [andb and_then]. all_rows_off. reflexivity.
  - (* its Go button *)
    all_rows_off. unfold picker_section at 1, in_section, on_go_button.
    cbn [win with_win]. rewrite P0. decide_between. cbn [andb].
    destruct (nth_error SPECIAL_KEYS _); cbn [and_then option_map];
      [all_rows_off|]; reflexivity.
  - (* the card of the delays *)
    pose proof (G _ _ _ _ (K eq_refl SleepGo
                             (px + 25 + (520 - 25 * 2) - 65,
                              py + 70 + 45 + (50 + 12) + (50 + 12) + (50 + 12) + 10,
                              55, 50 - 20)
                             ltac:(cbn [In]; tauto) eq_refl)) as N.
    all_rows_off. unfold picker_section at 1, in_section, on_go_button.
    cbn [win with_win]. rewrite P0. decide_between. refute_go.
    cbn [andb and_then]. all_rows_off. reflexivity.
  - (* its Go button *)
    all_rows_off. unfold picker_section at 1, in_section, on_go_button.
    cbn [win with_win]. rewrite P0. decide_between. cbn [andb].
    destruct (nth_error SLEEP_PRESETS _); cbn [and_then option_map];
      [all_rows_off|]; reflexivity.
  - (* scroll up *)
    all_rows_off. unfold buttons_row, on_button.
    cbn [win with_win]. rewrite P0. cbv zeta. decide_between. reflexivity.
  - (* scroll down *)
    all_rows_off. unfold buttons_row, on_button.
    cbn [win with_win]. rewrite P0. cbv zeta. decide_between. reflexivity.
  - (* refresh *)
    all_rows_off. unfold buttons_row, on_button.
    cbn [win with_win]. rewrite P0. cbv zeta. decide_between. reflexivity.
  - (* drag *)
    all_rows_off. unfold drag_row, on_button.
    cbn [win with_win]. rewrite P0. cbv zeta. decide_between. cbn [andb].
    now destruct (drag_mode_active _).
  - (* finish *)
    all_rows_off. unfold finish_row, on_button.
    cbn [win with_win]. rewrite P0. cbv zeta. decide_between. reflexivity.
Qed.

Lemma a_drawn_control_reacts_as_itself_witness :
  let s := with_win (set_show_overlay true (win desk)) desk in
  In (RefreshButton, (715, 441, 140, 38)) (_draw_overlay (win s))
  /\ _handle_overlay_click (854, 478) s = reaction RefreshButton s
  /\ threads (_refresh_screenshot s) = [RefreshThread].
Proof.
  intros s. split; [vm_compute; tauto|]. split; [|reflexivity].
  apply (a_drawn_control_reacts_as_itself s RefreshButton (715, 441, 140, 38)
           (854, 478) eq_refl).
  - vm_compute; tauto.
  - reflexivity.
  - intros H; discriminate H.
Defined.

(** The pixel right of a Go button is a pixel of the card, yet it reacts
    as the button. *)
Lemma the_edge_of_a_button_reacts_as_the_button :
  let s := with_win (set_overlay_type_text "abc"
                       (set_show_overlay true (win desk))) desk in
  In (TypeGo, (810, 195, 55, 30)) (_draw_overlay (win s))
  /\ In (TypeCard, (405, 185, 470, 50)) (_draw_overlay (win s))
  /\ covers (810, 195, 55, 30) (865, 200) = false
  /\ covers (405, 185, 470, 50) (865, 200) = true
  /\ _handle_overlay_click (865, 200) s = reaction TypeGo s.
Proof.
  intros s. repeat split; try reflexivity; vm_compute; tauto.
Qed.

End Layout.

(** ** The items of a picker *)

Section Items.

Lemma nth_error_map_seq {A : Type} (f : nat -> A) (a n i : nat) (r : A) :
  nth_error (map f (seq a n)) i = Some r -> (i < n)%nat /\ r = f (a + i)%nat.
Proof.
  revert a i; induction n as [|n IH]; intros a i E.
  - destruct i; discriminate E.
  - destruct i as [|i]; cbn in E.
    + injection E as <-. split; [lia | now rewrite Nat.add_0_r].
    + destruct (IH (S a) i E) as [L ->]. split; [lia | f_equal; lia].
Qed.

Lemma drawn_item (w : window) (p : picker) (i : nat) (r : rect) :
  nth_error (_draw_picker_popup w p) i = Some r ->
  (i < picker_items p)%nat
  /\ forall mx my, covers r (mx, my) = true -> on_item w p (mx, my) i = true.
Proof.
  unfold _draw_picker_popup. cbv zeta. intros E.
  apply nth_error_map_seq in E as [I ->]. split; [exact I|].
  cbn [Nat.add]. intros mx my C. apply covers_spec in C.
  unfold on_item, popup. cbv beta iota zeta.
  apply andb_true_iff. rewrite !between_spec. lia.
Qed.

(** X24: a click on a pixel of an item that an open picker draws
    selects that item, and no other, and closes the picker: the
    rectangles of the items lie inside the popup and do not overlap. *)
Theorem a_click_on_a_drawn_item_selects_it :
  forall (w : window) (p : picker) (i : nat) (r : rect) (pos : Z * Z),
    picker_active w = Some p ->
    nth_error (_draw_picker_popup w p) i = Some r ->
    covers r pos = true ->
    _handle_picker_click pos w = set_picker_active None (select p i w)
    /\ forall j r', nth_error (_draw_picker_popup w p) j = Some r' -> j <> i ->
                    covers r' pos = false.
Proof.
  intros w p i r [mx my] P E C.
  destruct (drawn_item w p i r E) as [I H].
  destruct (picker_click_on_item w p i mx my P I (H mx my C)) as [S D].
  split; [exact S|].
  intros j r' E' N. apply not_true_is_false. intros C'.
  destruct (drawn_item w p j r' E') as [J H'].
  specialize (H' mx my C'). rewrite (D j J N) in H'. discriminate H'.
Qed.

Lemma a_click_on_a_drawn_item_selects_it_witness :
  let w := set_picker_active (Some PickKey) (set_show_overlay true (win desk)) in
  nth_error (_draw_picker_popup w PickKey) 5 = Some (526, 340, 110, 36)
  /\ _handle_picker_click (600, 350) w
     = set_picker_active None (select PickKey 5 w).
Proof.
  intros w. split; [reflexivity|].
  exact (proj1 (a_click_on_a_drawn_item_selects_it w PickKey 5 (526, 340, 110, 36)
                  (600, 350) eq_refl eq_refl eq_refl)).
Defined.

End Items.

(** ** What the finish writes *)

Section Outputs.

Import TrajectoryManager.

Lemma flat_map_step_cells (entries : list step) :
  List.length (flat_map step_cells entries) = (3 * List.length entries)%nat.
Proof.
  induction entries as [|entry entries IH]; [reflexivity|].
  cbn [flat_map step_cells app List.length]. rewrite IH. lia.
Qed.

Lemma jsonl_lines (entries : list step) :
  Forall plain_numbers entries ->
  List.length (Py.split_lines (jsonl entries)) = S (List.length entries).
Proof.
  intros F. induction F as [|entry entries P F IH]; [reflexivity|].
  cbn [jsonl List.length].
  now rewrite (split_lines_line _ _ (step_log_one_line entry P)), <- IH.
Qed.

(** The step counter moves with the trajectory. *)
Lemma run_nth_counts (n : nat) (env : environment) (s : system) :
  step_count (recorder (react (Run n env) s))
  = step_count (recorder s) + Z.of_nat (reported n env s).
Proof.
  cbn [react]. unfold reported.
  destruct (nth_error (threads s) n) as [[ty f pg d|seconds| |]|];
    cbn [reports_success].
  - rewrite run_action_recorder.
    destruct (VMInterface.success (ViewPortWindow.call f (answer env)));
      cbn; lia.
  - rewrite run_sleep_recorder. cbn. lia.
  - rewrite (proj1 (run_quiet RefreshThread env _ eq_refl)). cbn. lia.
  - rewrite (proj1 (run_quiet FinishThread env _ eq_refl)). cbn. lia.
  - cbn. lia.
Qed.

(** A window that is not busy when the finish is asked for is wedged by
    it. *)
Lemma finish_wedges (s : system) :
  single_flight s -> is_busy (win s) = false -> wedged (_on_finish s).
Proof.
  intros [L B] I. split.
  - cbn. now destruct (win s).
  - rewrite (in_flight_snoc gated FinishThread s (_on_finish s) eq_refl).
    cbn [gated]. destruct (in_flight gated s) as [|[|k]] eqn:G; [lia| |lia].
    rewrite (B eq_refl) in I. discriminate I.
Qed.

(** X25: what the finish writes agrees on the number of steps when the
    finish is asked for while no action is in flight.  The thread of
    [finish] reads the recorder three times: for the trajectory file
    first, for the transcript after the evaluation, for the summary that
    the log prints after the recording is stopped; the main loop and the
    other threads go on in between.  When the finish is asked for in a
    window that is not busy, then whatever happens between these calls,
    the three of them see the recorder as it was then: the trajectory
    file has one line for each execution that reported success in the
    session (before its final line feed), the transcript, when it is
    built, has three cells for each of them after the cells of the
    metadata and the instruction, and the summary counts them.  The
    finish is not held back by [is_busy], however: when it is asked for
    while an action is in flight and that action reports success after
    the trajectory file is written, the transcript and the summary count
    one step more than the file holds. *)
Theorem the_outputs_agree_on_the_number_of_steps :
  (forall size info surface dir config instr recording
          (inputs until_start during_evaluation during_stop : list input)
          (s : system) (now_iso : string) (out : finished),
      let s0 := start recording (created size info surface dir config instr) in
      main_loop inputs s0 = Some s ->
      is_busy (win s) = false ->
      finish_reads now_iso until_start during_evaluation during_stop (_on_finish s)
      = Some out ->
      let n := session_successes inputs s0 in
      trajectory_file_written out = save_trajectory (recorder s)
      /\ (Forall plain_numbers (trajectory (recorder s)) ->
          List.length (Py.split_lines (snd (trajectory_file_written out))) = S n)
      /\ cells_written out = notebook_cells now_iso (recorder s)
      /\ (forall cells,
             cells_written out = Some cells ->
             List.length cells = (2 + 3 * n)%nat)
      /\ total_steps (summary_logged out) = Z.of_nat n)
  /\ (forall (s : system) (k : nat) (t : thread) (env : environment)
             (now_iso : string),
         nth_error (threads s) k = Some t ->
         reports_success t env = true ->
         exists out,
           finish_reads now_iso [] [ThreadRuns k env] [] (_on_finish s) = Some out
           /\ snd (trajectory_file_written out) = jsonl (trajectory (recorder s))
           /\ (forall cells,
                  cells_written out = Some cells ->
                  List.length cells
                  = (2 + 3 * S (List.length (trajectory (recorder s))))%nat)
           /\ total_steps (summary_logged out)
              = total_steps (get_summary (recorder s)) + 1).
Proof.
  split.
  - intros size info surface dir config instr recording
           inputs until_start during_evaluation during_stop s now_iso out
           s0 E B R n.
    destruct (steps_counts _ _ (main_loop_steps _ _ _ E)
                (start_invariants size info surface dir config instr recording))
      as [[_ C] F].
    assert (L : List.length (trajectory (recorder s)) = n).
    { rewrite (main_loop_appends _ _ _ E). unfold s0.
      now rewrite start_trajectory. }
    pose proof (finish_wedges s F B) as W0.
    unfold finish_reads in R.
    destruct (main_loop until_start (_on_finish s)) as [s1|] eqn:E1;
      [|discriminate R].
    destruct (main_loop during_evaluation s1) as [s2|] eqn:E2; [|discriminate R].
    destruct (main_loop during_stop s2) as [s3|] eqn:E3; [|discriminate R].
    injection R as <-.
    destruct (steps_wedged _ _ (main_loop_steps _ _ _ E1) W0) as (W1 & R1 & _).
    destruct (steps_wedged _ _ (main_loop_steps _ _ _ E2) W1) as (W2 & R2 & _).
    destruct (steps_wedged _ _ (main_loop_steps _ _ _ E3) W2) as (_ & R3 & _).
    assert (Q1 : recorder s1 = recorder s) by exact R1.
    assert (Q2 : recorder s2 = recorder s) by congruence.
    assert (Q3 : recorder s3 = recorder s) by congruence.
    cbn [trajectory_file_written cells_written summary_logged].
    rewrite Q1, Q2, Q3.
    split; [reflexivity|]. split; [|split; [reflexivity|split]].
    + intros P. unfold save_trajectory. cbn [snd].
      now rewrite (jsonl_lines _ P), L.
    + intros cells N.
      destruct (notebook_cells_shape now_iso _ cells N) as [m ->].
      unfold body_cells. cbn [List.length].
      rewrite flat_map_step_cells, L. lia.
    + cbn [get_summary total_steps]. now rewrite C, L.
  - intros s k t env now_iso T S.
    set (s1 := _on_finish s).
    assert (R : reported k env s1 = 1%nat).
    { unfold reported, s1.
      cbn [threads _on_finish start_thread with_threads with_win].
      rewrite nth_error_app1 by (apply nth_error_Some; congruence).
      now rewrite T, S. }
    eexists. split; [reflexivity|].
    cbn [trajectory_file_written cells_written summary_logged].
    split; [reflexivity|]. split.
    + intros cells N.
      destruct (notebook_cells_shape now_iso _ cells N) as [m ->].
      unfold body_cells. cbn [List.length].
      rewrite flat_map_step_cells, run_nth_appends. fold s1. rewrite R.
      change (recorder s1) with (recorder s). lia.
    + cbn [get_summary total_steps].
      rewrite run_nth_counts. fold s1. rewrite R.
      change (recorder s1) with (recorder s). lia.
Qed.

Lemma the_outputs_agree_on_the_number_of_steps_witness :
  let s0 := start true
              (created (1920, 1080) (1280, 720) (1280, 720) "SFT/gimp/task" []
                 "Crop the image") in
  let inputs := [ThreadRuns 0 (fair "frame0"); OnMouse 1 (640, 400);
                 ThreadRuns 0 (fair "frame1"); OnMouse 3 (10, 50);
                 ThreadRuns 0 (rejecting "no display")] in
  let now_iso := "2026-01-01T10:00:00" in
  let busy := submit (DoRightClick 10 10) desk in
  (exists idle out,
      main_loop inputs s0 = Some idle
      /\ finish_reads now_iso [OnMouse 1 (20, 60)] [ThreadRuns 1 (fair "frame2")]
           [ThreadRuns 0 (fair "frame3")] (_on_finish idle)
         = Some out
      /\ List.length (Py.split_lines (snd (trajectory_file_written out))) = 2%nat
      /\ option_map (@List.length Json.value) (cells_written out) = Some 5%nat
      /\ total_steps (summary_logged out) = 1)
  /\ (exists out,
         finish_reads now_iso [] [ThreadRuns 0 (fair "frame2")] []
           (_on_finish busy)
         = Some out
         /\ snd (trajectory_file_written out) = EmptyString
         /\ option_map (@List.length Json.value) (cells_written out) = Some 5%nat
         /\ total_steps (summary_logged out) = 1).
Proof.
  intros s0 inputs now_iso busy. split.
  - eexists. eexists. split; [vm_compute; reflexivity|].
    split; [vm_compute; reflexivity|].
    match goal with
    | |- List.length (Py.split_lines (snd (trajectory_file_written ?o))) = _ /\ _ =>
        pose proof (proj1 the_outputs_agree_on_the_number_of_steps
             (1920, 1080) (1280, 720) (1280, 720)
             "SFT/gimp/task" [] "Crop the image" true
             inputs [OnMouse 1 (20, 60)] [ThreadRuns 1 (fair "frame2")]
             [ThreadRuns 0 (fair "frame3")] _ now_iso o
             ltac:(vm_compute; reflexivity) ltac:(vm_compute; reflexivity)
             ltac:(vm_compute; reflexivity)) as (_ & J & _ & _ & T)
    end.
    split; [|split; [vm_compute; reflexivity | exact T]].
    apply J. vm_compute. repeat constructor; intros r [= <-]; reflexivity.
  - destruct (proj2 the_outputs_agree_on_the_number_of_steps
                busy 0%nat _ (fair "frame2") now_iso eq_refl eq_refl)
      as (out & E & J & _ & T).
    exists out. split; [exact E|]. split; [rewrite J; reflexivity|].
    split; [|rewrite T; reflexivity].
    vm_compute in E. injection E as <-. vm_compute. reflexivity.
Defined.


(** X26: the transcript is built unless the task names its applications
    by something that is true and cannot be indexed: a number other than
    zero, [true], or an object with entries.  A list with items gives its
    first item as the domain, a string with characters its first
    character, and an absent entry or one that is not true gives the
    domain [unknown].  The file is [osw.manual_task.<clock>.ipynb] in the
    Colab directory. *)
Theorem the_transcript_fails_only_on_apps_without_a_first :
  forall (clock : Z) (now_iso : string) (tm : state),
    (generate_colab_notebook clock now_iso tm = None
     <-> exists apps,
           Json.get "related_apps" (task_config tm) = Some apps
           /\ Json.truthy apps = true
           /\ match apps with
              | Json.Int _ | Json.Float _ | Json.Bool _ | Json.Obj _ => True
              | _ => False
              end)
    /\ (forall path text,
          generate_colab_notebook clock now_iso tm = Some (path, text) ->
          path = path_join (colab_dir tm)
                   ("osw.manual_task." ++ Py.str_int clock ++ ".ipynb"))
    /\ match Json.get "related_apps" (task_config tm) with
       | Some (Json.Arr (item :: _)) => domain tm = Some item
       | Some (Json.Str (String c _)) => domain tm = Some (Json.Str (Py.chr c))
       | Some apps => Json.truthy apps = false -> domain tm = Some unknown
       | None => domain tm = Some unknown
       end.
Proof.
  intros clock now_iso tm. split; [|split].
  - unfold generate_colab_notebook, _build_notebook, notebook_cells,
           _build_metadata_cell, domain.
    destruct (Json.get "related_apps" (task_config tm)) as [apps|].
    + destruct (Json.truthy apps) eqn:T.
      * destruct apps as [|b|n|r|text|items|members]; cbn [Json.first];
          try discriminate T;
          try (split; [intros _; eexists; repeat split; exact T
                      | reflexivity]).
        -- destruct text as [|c text]; [discriminate T|].
           split; [discriminate | intros (a & [= <-] & _ & F); now elim F].
        -- destruct items as [|x items]; [discriminate T|].
           split; [discriminate | intros (a & [= <-] & _ & F); now elim F].
      * split; [discriminate|].
        intros (a & [= <-] & T' & _). rewrite T in T'. discriminate T'.
    + split; [discriminate | intros (a & A & _); discriminate A].
  - unfold generate_colab_notebook. intros path text.
    destruct (_build_notebook now_iso tm); [|discriminate].
    now intros [= <- _].
  - unfold domain.
    destruct (Json.get "related_apps" (task_config tm))
      as [[|b|n|r|[|c text]|[|item items]|members]|];
      try reflexivity; try (intros T; now rewrite T).
Qed.

(** X27: the sentence of the transcript tells the intent that was
    recorded.  For an entry that records an intent, [_generate_reasoning]
    gives the sentence of that kind of intent with the values of the
    command (the position of a click, the text, the keys joined by a plus
    sign, the direction of the scroll) and never a placeholder: the
    details the window hands over carry the names the recorder looks up.
    A drag is told without its points, and a delay by the sentence for
    actions of no known kind. *)
Theorem the_transcript_tells_the_intent :
  forall (i : intent) (entry : step),
    recorded_as i entry ->
    _generate_reasoning entry = narration i.
Proof.
  intros i entry. unfold recorded_as, thread_for.
  destruct i as [x y|x y|text|hotkey|k|clicks|x1 y1 x2 y2|seconds];
    cbn [submit];
    unfold _execute_click, _execute_right_click, _execute_type, _execute_hotkey,
           _execute_key, _execute_scroll, _execute_drag, _execute_sleep,
           _execute_action;
    try (cbn [blank created win ViewPortWindow.__init__ set_instruction is_busy
              start_thread threads with_threads with_win hd_error app];
         intros (A & T & D); unfold _generate_reasoning; rewrite T, D;
         reflexivity).
  destruct (hotkey_keys HOTKEY_MAP hotkey) as [|k0 ks] eqn:K.
  - cbn. intros F. now elim F.
  - cbn [blank created win ViewPortWindow.__init__ set_instruction is_busy
         start_thread threads with_threads with_win hd_error app].
    intros (A & T & D). unfold _generate_reasoning. rewrite T, D.
    cbn [narration]. now rewrite K.
Qed.

Lemma the_transcript_tells_the_intent_witness :
  let tm := recorder (perform (DoScroll (-3)) (fair "frame1") desk) in
  exists entry,
    trajectory tm = [entry]
    /\ _generate_reasoning entry = "I'll scroll down to navigate the content.".
Proof.
  intros tm. eexists. split; [vm_compute; reflexivity|].
  apply (the_transcript_tells_the_intent (DoScroll (-3))).
  vm_compute. repeat split.
Defined.

End Outputs.

(** ** Clicks beside the frame *)

Section Beside.

(** X28: a click beside the frame is not dropped.  Below the bar, every
    position of the display counts as a position of the view, so on an
    idle window without overlay and drag mode a left click to the right of
    the last column of the remote screen is handled and sent as a click
    on that last column, and a click below its last row as a click on
    that last row. *)
Theorem a_click_beside_the_frame_lands_on_its_edge :
  forall (s : system) (env : environment) (px py : Z),
    show_overlay (win s) = false ->
    is_busy (win s) = false ->
    drag_mode_active (win s) = false ->
    hud_height (geom (win s)) <= py ->
    1 <= vm_width (geom (win s)) ->
    1 <= vm_height (geom (win s)) ->
    exists s1 x y,
      mouse_down 1 (px, py) s = Some s1
      /\ effects (react (Run (List.length (threads s)) env) s1)
         = (effects s
            ++ [Sent ("pyautogui.click(" ++ Py.str_int x ++ ", "
                      ++ Py.str_int y ++ ")") (answer env)])%list
      /\ inside_canvas (win s) x y
      /\ (vm_width (geom (win s)) <= px + viewport_x (win s) ->
          x = vm_width (geom (win s)) - 1)
      /\ (vm_height (geom (win s))
          <= py - hud_height (geom (win s)) + viewport_y (win s) ->
          y = vm_height (geom (win s)) - 1).
Proof.
  intros s env px py O B D Y W H.
  pose proof (click_on_view s (px, py) O B D Y) as C. cbn [fst snd] in C.
  destruct (_screen_to_vm (win s) px py) as [x y] eqn:V.
  exists (start_thread
            (ActionThread "click" (CallClick x y)
               ("pg.click(" ++ Py.str_int x ++ ", " ++ Py.str_int y ++ ")")
               (TrajectoryManager.AtPoint x y))
            (accepted "Executing..." s)), x, y.
  split; [exact C|]. split.
  - rewrite run_started, run_action_effects. reflexivity.
  - unfold _screen_to_vm in V. injection V as <- <-.
    unfold inside_canvas. repeat split; lia.
Qed.

Lemma a_click_beside_the_frame_lands_on_its_edge_witness :
  let s := exec [Run 0 (fair "frame0")]
             (start true
                (created (1024, 768) (1920, 1080) (1920, 1080) "SFT/gimp/task"
                   [("id", Json.Str "task")] "Crop the image")) in
  exists s1,
    mouse_down 1 (1500, 900) s = Some s1
    /\ effects (react (Run 0 (fair "frame1")) s1)
       = [Sent "pyautogui.click(1023, 767)" (VMInterface.Response None)].
Proof.
  intros s.
  destruct (a_click_beside_the_frame_lands_on_its_edge s (fair "frame1")
              1500 900 eq_refl eq_refl eq_refl ltac:(now vm_compute)
              ltac:(now vm_compute) ltac:(now vm_compute))
    as (s1 & x & y & M & E & _ & X & Y).
  exists s1. split; [exact M|].
  rewrite (X ltac:(now vm_compute)), (Y ltac:(now vm_compute)) in E.
  refine (eq_trans E _). vm_compute. reflexivity.
Defined.

End Beside.
